(** * Habitator: settings persistence, migration and normalisation

    A shallow embedding of the storage and settings logic of the Habitator
    plugin ([src/main.ts], [src/settings.ts]) and the properties its
    specification states about it.

    Conventions of the embedding.
    - A JavaScript string is a [string]; its characters are code units in
      the 8-bit range.  A string is truthy when it is not empty.
    - A JavaScript number is an integer ([Z]); the code does no arithmetic
      on the numbers it stores.
    - An object of a declared interface is a record.  A property that may be
      missing is an [option] ([None]: missing, [undefined] or [null]); where
      the code tells a missing property from a [null] one (the overlay of
      [Object.assign]) it is a [field].
    - Code that awaits the host runs in the monad [M]: the state is the
      plugin instance together with the host's stores, and a computation
      ends normally or throws. *)

From Stdlib Require Import String Ascii List ZArith Bool Arith Lia.
From Stdlib Require Import DecimalString.
Import ListNotations.

Local Open Scope string_scope.
Local Open Scope list_scope.

(* ===================================================================== *)
(** * JavaScript strings *)
(* ===================================================================== *)

Module JsString.

Definition chars (s : string) : list ascii := list_ascii_of_string s.
Definition ofChars (l : list ascii) : string := string_of_list_ascii l.

(** [!s] is false exactly on the non-empty strings. *)
Definition truthy (s : string) : bool :=
  match s with EmptyString => false | String _ _ => true end.

(** ECMAScript WhiteSpace and LineTerminator code units below 256:
    TAB, LF, VT, FF, CR, SP and NBSP. *)
Definition isWhiteSpace (c : ascii) : bool :=
  let n := nat_of_ascii c in
  ((9 <=? n)%nat && (n <=? 13)%nat) || (n =? 32)%nat || (n =? 160)%nat.

Fixpoint dropWhile {A : Type} (p : A -> bool) (l : list A) : list A :=
  match l with
  | [] => []
  | x :: t => if p x then dropWhile p t else l
  end.

Definition dropWhileEnd {A : Type} (p : A -> bool) (l : list A) : list A :=
  rev (dropWhile p (rev l)).

(** [s.trim()] *)
Definition trim (s : string) : string :=
  ofChars (dropWhileEnd isWhiteSpace (dropWhile isWhiteSpace (chars s))).

(** [s.replace(/a/g, b)] for single characters [a] and [b]. *)
Definition replaceAll (a b : ascii) (s : string) : string :=
  ofChars (map (fun c => if Ascii.eqb c a then b else c) (chars s)).

(** [s.replace(/^a+/, "")] *)
Definition stripLeading (a : ascii) (s : string) : string :=
  ofChars (dropWhile (Ascii.eqb a) (chars s)).

(** [s.replace(/a+$/, "")] *)
Definition stripTrailing (a : ascii) (s : string) : string :=
  ofChars (dropWhileEnd (Ascii.eqb a) (chars s)).

Fixpoint startsWith (p l : list ascii) : bool :=
  match p, l with
  | [], _ => true
  | _ :: _, [] => false
  | a :: p', b :: l' => Ascii.eqb a b && startsWith p' l'
  end.

Fixpoint occursIn (p l : list ascii) : bool :=
  startsWith p l ||
  match l with
  | [] => false
  | _ :: t => occursIn p t
  end.

(** [s.includes(needle)] *)
Definition includes (needle s : string) : bool :=
  occursIn (chars needle) (chars s).

(** [s.lastIndexOf(c)], [None] for -1. *)
Fixpoint lastIndexOf (c : ascii) (l : list ascii) : option nat :=
  match l with
  | [] => None
  | x :: t =>
      match lastIndexOf c t with
      | Some i => Some (S i)
      | None => if Ascii.eqb x c then Some 0%nat else None
      end
  end.

(** [s.slice(0, n)] *)
Definition sliceTo (n : nat) (s : string) : string :=
  ofChars (firstn n (chars s)).

End JsString.

(* ===================================================================== *)
(** * Data model ([src/settings.ts]) *)
(* ===================================================================== *)

(** [HabitatorStorageMode = "plugin" | "dot-habitator" | "custom-subdir"] *)
Inductive HabitatorStorageMode : Type :=
| ModePlugin
| ModeDotHabitator
| ModeCustomSubdir.

Definition modeName (m : HabitatorStorageMode) : string :=
  match m with
  | ModePlugin => "plugin"
  | ModeDotHabitator => "dot-habitator"
  | ModeCustomSubdir => "custom-subdir"
  end.

Definition isPluginMode (m : HabitatorStorageMode) : bool :=
  match m with ModePlugin => true | _ => false end.

Record HabitatorStorageConfig : Type := mkStorageConfig {
  storageMode : HabitatorStorageMode;
  customSubdir : string
}.

Definition DEFAULT_STORAGE_CONFIG : HabitatorStorageConfig :=
  {| storageMode := ModeDotHabitator; customSubdir := "habitator-data" |}.

(** A storage configuration as it is read back from the plugin's data file
    ([Partial<HabitatorStorageConfig>]): the mode is whatever string was
    stored. *)
Record StoredStorageConfig : Type := mkStoredConfig {
  storedMode : option string;
  storedSubdir : option string
}.

Definition storeConfig (c : HabitatorStorageConfig) : StoredStorageConfig :=
  {| storedMode := Some (modeName (storageMode c));
     storedSubdir := Some (customSubdir c) |}.

(* ===================================================================== *)
(** * Path helpers ([src/main.ts]) *)
(* ===================================================================== *)

Definition backslash : ascii := ascii_of_nat 92.
Definition slash : ascii := "/"%char.

(** [sanitizeVaultRelativeDir(value)] *)
Definition sanitizeVaultRelativeDir (value : option string) : string :=
  let trimmed :=
    JsString.stripTrailing slash
      (JsString.stripLeading slash
         (JsString.replaceAll backslash slash
            (JsString.trim (match value with Some v => v | None => "" end)))) in
  if negb (JsString.truthy trimmed) then customSubdir DEFAULT_STORAGE_CONFIG
  else if JsString.includes ".." trimmed then customSubdir DEFAULT_STORAGE_CONFIG
  else trimmed.

(** [getDirName(path)] *)
Definition getDirName (path : string) : string :=
  let normalized := JsString.replaceAll backslash slash path in
  match JsString.lastIndexOf slash (JsString.chars normalized) with
  | None => ""
  | Some O => ""
  | Some idx => JsString.sliceTo idx normalized
  end.

(** [getConfiguredHabitatorDataPath(config)] *)
Definition getConfiguredHabitatorDataPath (config : HabitatorStorageConfig) : string :=
  match storageMode config with
  | ModeDotHabitator => ".habitator/habitator.json"
  | ModeCustomSubdir =>
      let dir := sanitizeVaultRelativeDir (Some (customSubdir config)) in
      dir ++ "/habitator.json"
  | ModePlugin => ".habitator/habitator.json"
  end.

(** [normalizeStorageConfig(input)] *)
Definition normalizeStorageConfig (input : option StoredStorageConfig) : HabitatorStorageConfig :=
  let mode :=
    match input with
    | Some i =>
        match storedMode i with
        | Some m => m
        | None => modeName (storageMode DEFAULT_STORAGE_CONFIG)
        end
    | None => modeName (storageMode DEFAULT_STORAGE_CONFIG)
    end in
  let customSubdir' :=
    match input with
    | Some i =>
        match storedSubdir i with
        | Some d => d
        | None => customSubdir DEFAULT_STORAGE_CONFIG
        end
    | None => customSubdir DEFAULT_STORAGE_CONFIG
    end in
  let normalizedMode :=
    if String.eqb mode "plugin" then ModePlugin
    else if String.eqb mode "dot-habitator" then ModeDotHabitator
    else if String.eqb mode "custom-subdir" then ModeCustomSubdir
    else storageMode DEFAULT_STORAGE_CONFIG in
  {| storageMode := normalizedMode;
     customSubdir := sanitizeVaultRelativeDir (Some customSubdir') |}.

(* ===================================================================== *)
(** * Habits and settings ([src/settings.ts]) *)
(* ===================================================================== *)

(** A property of an object that [Object.assign] may or may not copy:
    [Absent] when the object has no such property, [Null] when it has it
    with the value [null] (or [undefined]), [Val a] otherwise. *)
Inductive field (A : Type) : Type :=
| Absent
| Null
| Val (a : A).

Arguments Absent {A}.
Arguments Null {A}.
Arguments Val {A} a.

Module Habit.
(** [interface Habit], as the object is found at run time: a record read
    from disk may lack any of the three properties ([None]), and
    [completedDays] is [None] too when it is not an array. *)
Record t : Type := mk {
  id : option string;
  name : option string;
  completedDays : option (list string)
}.
End Habit.

Module Settings.
(** [Partial<HabitatorSettings> & { completedDays?: string[] }], which is
    also the shape of the object [normalizeSettings] returns: the overlay
    copies the top-level [completedDays] of a legacy record along.
    Properties the code never reads are left out; [Object.assign] copies
    them unchanged. *)
Record t : Type := mk {
  year : field Z;
  habits : field (list Habit.t);
  activeHabitId : field string;
  completedDays : field (list string)
}.

(** The object [{}]. *)
Definition empty : t :=
  {| year := Absent; habits := Absent; activeHabitId := Absent;
     completedDays := Absent |}.
End Settings.

(** The part of the JavaScript runtime the settings code reads: the clock at
    module load, [crypto.randomUUID] when the host has it, and
    [Math.random].  The [k]-th call of a generator is a function of [k], the
    number of calls made before it. *)
Record Runtime : Type := mkRuntime {
  currentYear : Z;                       (* [new Date().getFullYear()] *)
  randomUUID : option (nat -> string);   (* [crypto.randomUUID], if any *)
  random16 : nat -> Z                    (* [Math.floor(Math.random() * 16)] *)
}.

Definition DEFAULT_HABIT_ID : string := "00000000-0000-4000-8000-000000000001".

Definition DEFAULT_HABITS : list Habit.t :=
  [ {| Habit.id := Some DEFAULT_HABIT_ID;
       Habit.name := Some "Main habit";
       Habit.completedDays := Some [] |} ].

(** [DEFAULT_SETTINGS], as the module declares it.  [normalizeSettings] is
    called once, by [loadSettings] when the plugin starts, so it finds the
    objects of the defaults as they are declared. *)
Definition DEFAULT_SETTINGS (rt : Runtime) : Settings.t :=
  {| Settings.year := Val (currentYear rt);
     Settings.habits := Val DEFAULT_HABITS;
     Settings.activeHabitId := Val DEFAULT_HABIT_ID;
     Settings.completedDays := Absent |}.

(* ===================================================================== *)
(** * Identifier generation ([generateUuid]) *)
(* ===================================================================== *)

(** [v.toString(16)] for [0 <= v < 16]. *)
Definition hexDigit (v : Z) : ascii :=
  nth (Z.to_nat v) (JsString.chars "0123456789abcdef") "0"%char.

(** The replacement callback of the fallback, run over the template from
    left to right; [k] counts the calls of [Math.random], and [r] is one of
    the sixteen values [Math.floor(Math.random() * 16)] can take. *)
Fixpoint fillTemplate (rt : Runtime) (tpl : list ascii) (k : nat) : list ascii * nat :=
  match tpl with
  | [] => ([], k)
  | c :: tpl' =>
      if Ascii.eqb c "x"%char || Ascii.eqb c "y"%char then
        let r := (random16 rt k mod 16)%Z in
        let v := if Ascii.eqb c "x"%char then r else Z.lor (Z.land r 3) 8 in
        let (rest, k') := fillTemplate rt tpl' (S k) in
        (hexDigit v :: rest, k')
      else
        let (rest, k') := fillTemplate rt tpl' k in
        (c :: rest, k')
  end.

(** [generateUuid()] *)
Definition generateUuid (rt : Runtime) (k : nat) : string * nat :=
  match randomUUID rt with
  | Some uuid => (uuid k, S k)
  | None =>
      let (cs, k') :=
        fillTemplate rt (JsString.chars "xxxxxxxx-xxxx-4xxx-yxxx-xxxxxxxxxxxx") k in
      (JsString.ofChars cs, k')
  end.

(* ===================================================================== *)
(** * The settings normaliser ([normalizeSettings]) *)
(* ===================================================================== *)

(** [!f] for a property holding a string. *)
Definition falsy (f : field string) : bool :=
  match f with
  | Val s => negb (JsString.truthy s)
  | _ => true
  end.

(** [!h] for a property of a habit holding a string. *)
Definition missing (o : option string) : bool :=
  match o with
  | Some s => negb (JsString.truthy s)
  | None => true
  end.

(** The value read from a property of a habit. *)
Definition readProp (o : option string) : field string :=
  match o with
  | Some s => Val s
  | None => Null
  end.

(** [Object.assign({}, defaults, src)] on the properties of a settings
    record. *)
Definition overlay {A : Type} (dflt src : field A) : field A :=
  match src with
  | Absent => dflt
  | _ => src
  end.

Definition Object_assign (defaults src : Settings.t) : Settings.t :=
  {| Settings.year := overlay (Settings.year defaults) (Settings.year src);
     Settings.habits := overlay (Settings.habits defaults) (Settings.habits src);
     Settings.activeHabitId :=
       overlay (Settings.activeHabitId defaults) (Settings.activeHabitId src);
     Settings.completedDays :=
       overlay (Settings.completedDays defaults) (Settings.completedDays src) |}.

(** [!base.habits || base.habits.length === 0] *)
Definition noHabits (h : field (list Habit.t)) : bool :=
  match h with
  | Val l => (List.length l =? 0)%nat
  | _ => true
  end.

(** [input?.completedDays], as a condition: an array is truthy, also the
    empty one. *)
Definition hasLegacyDays (input : option Settings.t) : bool :=
  match input with
  | Some i =>
      match Settings.completedDays i with
      | Val _ => true
      | _ => false
      end
  | None => false
  end.

(** [Array.isArray(input.completedDays) ? input.completedDays : []] *)
Definition legacyDays (input : option Settings.t) : list string :=
  match input with
  | Some i =>
      match Settings.completedDays i with
      | Val l => l
      | _ => []
      end
  | None => []
  end.

(** The body of the loop over [base.habits]. *)
Definition ensureHabit (rt : Runtime) (habit : Habit.t) (k : nat) : Habit.t * nat :=
  let (id', k') :=
    if missing (Habit.id habit) then
      let (u, k1) := generateUuid rt k in (Some u, k1)
    else (Habit.id habit, k) in
  let name' :=
    if missing (Habit.name habit) then Some "Habit" else Habit.name habit in
  let days' :=
    match Habit.completedDays habit with
    | Some l => Some l
    | None => Some []
    end in
  ({| Habit.id := id'; Habit.name := name'; Habit.completedDays := days' |}, k').

Fixpoint ensureHabits (rt : Runtime) (l : list Habit.t) (k : nat) : list Habit.t * nat :=
  match l with
  | [] => ([], k)
  | habit :: rest =>
      let (habit', k1) := ensureHabit rt habit k in
      let (rest', k2) := ensureHabits rt rest k1 in
      (habit' :: rest', k2)
  end.

(** The migration branch: the single habit made of the legacy days. *)
Definition migratedHabit (rt : Runtime) (input : option Settings.t) (k : nat) : Habit.t * nat :=
  let (id', k') :=
    match Settings.habits (DEFAULT_SETTINGS rt) with
    | Val (h0 :: _) =>
        match Habit.id h0 with
        | Some i => (i, k)
        | None => generateUuid rt k
        end
    | _ => generateUuid rt k
    end in
  ({| Habit.id := Some id';
      Habit.name := Some "Main habit";
      Habit.completedDays := Some (legacyDays input) |}, k').

(** [Object.assign({}, DEFAULT_SETTINGS, input ?? {})] *)
Definition baseOf (rt : Runtime) (input : option Settings.t) : Settings.t :=
  Object_assign (DEFAULT_SETTINGS rt)
    (match input with Some i => i | None => Settings.empty end).

(** Whether the migration branch is taken for [input]. *)
Definition migrates (rt : Runtime) (input : option Settings.t) : bool :=
  noHabits (Settings.habits (baseOf rt input)) && hasLegacyDays input.

(** [base.habits] after
    [if (!base.habits || base.habits.length === 0) base.habits = [...DEFAULT_SETTINGS.habits]]:
    a list that is not empty. *)
Definition habitsOrDefault (h : field (list Habit.t)) : list Habit.t :=
  match h with
  | Val (h0 :: t) => h0 :: t
  | _ => DEFAULT_HABITS
  end.

(** [normalizeSettings(input)].  [k] is the number of generator calls made
    so far; the result carries the new count.  The habit objects are
    updated in place by the source; the list returned here is the list as
    it stands when the function returns. *)
Definition normalizeSettings (rt : Runtime) (input : option Settings.t) (k : nat)
  : Settings.t * nat :=
  let base0 := baseOf rt input in
  (* migration from the single-habit format *)
  let '(habits1, active1, k1) :=
    if noHabits (Settings.habits base0) && hasLegacyDays input then
      let (m, k') := migratedHabit rt input k in
      (Val [m], readProp (Habit.id m), k')
    else (Settings.habits base0, Settings.activeHabitId base0, k) in
  (* the default habits when there are still none *)
  let habits2 := habitsOrDefault habits1 in
  (* an unset active habit becomes the first one *)
  let active2 :=
    match habits2 with
    | h0 :: _ => if falsy active1 then readProp (Habit.id h0) else active1
    | [] => active1
    end in
  (* every habit gets an id, a name and a list of days *)
  let (habits3, k3) := ensureHabits rt habits2 k1 in
  ({| Settings.year := Settings.year base0;
      Settings.habits := Val habits3;
      Settings.activeHabitId := active2;
      Settings.completedDays := Settings.completedDays base0 |}, k3).

(* ===================================================================== *)
(** * The plugin instance and its host *)
(* ===================================================================== *)

(** How a call ends. *)
Inductive Outcome (A : Type) : Type :=
| Returned (a : A)
| Thrown.

Arguments Returned {A} a.
Arguments Thrown {A}.

(** [getHabits()] and [getActiveHabit()], on the settings of the instance.
    Reading [length] of a [habits] property that holds no array throws. *)
Definition getHabits (s : Settings.t) : Outcome (list Habit.t) :=
  match Settings.habits s with
  | Val l => Returned l
  | _ => Thrown
  end.

(** [h.id === a] for a string [a]. *)
Definition hasId (a : string) (h : Habit.t) : bool :=
  match Habit.id h with
  | Some i => String.eqb i a
  | None => false
  end.

Definition getActiveHabit (s : Settings.t) : Outcome (option Habit.t) :=
  match getHabits s with
  | Thrown => Thrown
  | Returned habits =>
      if (List.length habits =? 0)%nat then Returned None
      else
        let byId :=
          match Settings.activeHabitId s with
          | Val a => if JsString.truthy a then find (hasId a) habits else None
          | _ => None
          end in
        Returned (match byId with
                  | Some h => Some h
                  | None => nth_error habits 0
                  end)
  end.

(** The document the host keeps for the plugin ([loadData]/[saveData]): the
    current format has [config] and, in plugin mode, [data]; a document
    written by an older version is the settings record itself, whose
    properties are [legacy]. *)
Record PluginBlob : Type := mkBlob {
  config : option StoredStorageConfig;
  data : option Settings.t;
  legacy : Settings.t
}.

(** The host: the vault's file adapter, whose calls may throw ([None]) and
    may change the file system, and JSON over the text of a file.
    [JSON_parse] is [None] when it throws and [Some None] on the text
    [null]. *)
Record Host : Type := mkHost {
  FS : Type;
  Text : Type;
  adapter_exists : string -> FS -> option bool * FS;
  adapter_read : string -> FS -> option Text * FS;
  adapter_mkdir : string -> FS -> option unit * FS;
  adapter_write : string -> Text -> FS -> option unit * FS;
  JSON_stringify : Settings.t -> Text;
  JSON_parse : Text -> option (option Settings.t);
  runtime : Runtime
}.

(** What the plugin has written, oldest first. *)
Inductive Effect (host : Host) : Type :=
| SavedData (blob : PluginBlob)
| MadeDir (path : string)
| WroteFile (path : string) (text : Text host).

Arguments SavedData {host} blob.
Arguments MadeDir {host} path.
Arguments WroteFile {host} path text.

(** The fields of [HabitatorPlugin] and the stores of the host it talks
    to: the plugin's data document ([None] while there is none), the vault,
    the number of generator calls made, and the writes that succeeded. *)
Record Plugin (host : Host) : Type := mkPlugin {
  settings : Settings.t;
  storageConfig : HabitatorStorageConfig;
  dataJson : option PluginBlob;
  vault : FS host;
  draws : nat;
  journal : list (Effect host)
}.

Arguments settings {host} p.
Arguments storageConfig {host} p.
Arguments dataJson {host} p.
Arguments vault {host} p.
Arguments draws {host} p.
Arguments journal {host} p.
Arguments mkPlugin {host}.

Section PluginMethods.

Variable host : Host.

Definition M (A : Type) : Type := Plugin host -> Outcome A * Plugin host.

Definition ret {A : Type} (a : A) : M A := fun p => (Returned a, p).

Definition bind {A B : Type} (m : M A) (f : A -> M B) : M B :=
  fun p =>
    match m p with
    | (Returned a, p') => f a p'
    | (Thrown, p') => (Thrown, p')
    end.

Definition throw {A : Type} : M A := fun p => (Thrown, p).

(** [try { body } catch { handler }]: what [body] did before it threw
    stays done. *)
Definition tryCatch {A : Type} (body handler : M A) : M A :=
  fun p =>
    match body p with
    | (Returned a, p') => (Returned a, p')
    | (Thrown, p') => handler p'
    end.

Definition gets {A : Type} (f : Plugin host -> A) : M A :=
  fun p => (Returned (f p), p).

Definition modify (f : Plugin host -> Plugin host) : M unit :=
  fun p => (Returned tt, f p).

Notation "x <- m ;; k" := (bind m (fun x => k))
  (at level 61, m at next level, right associativity).
Notation "m ;;; k" := (bind m (fun _ => k))
  (at level 61, right associativity).

Definition setSettings (s : Settings.t) : M unit :=
  modify (fun p => mkPlugin s (storageConfig p) (dataJson p) (vault p) (draws p) (journal p)).

Definition setStorageConfigField (c : HabitatorStorageConfig) : M unit :=
  modify (fun p => mkPlugin (settings p) c (dataJson p) (vault p) (draws p) (journal p)).

(** [this.loadData()] and [this.saveData(blob)]: the host keeps one
    document and hands back the one saved last; neither call throws. *)
Definition loadData : M (option PluginBlob) := gets dataJson.

Definition saveData (blob : PluginBlob) : M unit :=
  modify (fun p =>
            mkPlugin (settings p) (storageConfig p) (Some blob) (vault p) (draws p)
              (journal p ++ [SavedData blob])).

(** [p] with the vault [fs] and [note] added to its journal. *)
Definition moved (p : Plugin host) (fs : FS host) (note : list (Effect host))
  : Plugin host :=
  mkPlugin (settings p) (storageConfig p) (dataJson p) fs (draws p) (journal p ++ note).

(** A call of the adapter: the file system moves on, the call returns or
    throws, a write that returned is noted in the journal. *)
Definition adapterCall {A : Type}
    (call : FS host -> option A * FS host) (note : list (Effect host)) : M A :=
  fun p =>
    match call (vault p) with
    | (Some a, fs') =>
        (Returned a,
         mkPlugin (settings p) (storageConfig p) (dataJson p) fs' (draws p)
           (journal p ++ note))
    | (None, fs') =>
        (Thrown,
         mkPlugin (settings p) (storageConfig p) (dataJson p) fs' (draws p) (journal p))
    end.

Definition adapterExists (path : string) : M bool :=
  adapterCall (adapter_exists host path) [].

Definition adapterRead (path : string) : M (Text host) :=
  adapterCall (adapter_read host path) [].

Definition adapterMkdir (path : string) : M unit :=
  adapterCall (adapter_mkdir host path) [MadeDir path].

Definition adapterWrite (path : string) (text : Text host) : M unit :=
  adapterCall (adapter_write host path text) [WroteFile path text].

Definition jsonParse (raw : Text host) : M (option Settings.t) :=
  match JSON_parse host raw with
  | Some parsed => ret parsed
  | None => throw
  end.

(** [normalizeSettings], drawing its identifiers from the instance's
    runtime. *)
Definition normalizeSettingsM (input : option Settings.t) : M Settings.t :=
  fun p =>
    let (s, k') := normalizeSettings (runtime host) input (draws p) in
    (Returned s,
     mkPlugin (settings p) (storageConfig p) (dataJson p) (vault p) k' (journal p)).

(** [tryLoadFromVaultFile(path)] *)
Definition tryLoadFromVaultFile (path : string) : M (option Settings.t) :=
  tryCatch
    (exists_ <- adapterExists path ;;
     if negb exists_ then ret None
     else
       raw <- adapterRead path ;;
       parsed <- jsonParse raw ;;
       ret parsed)
    (ret None).

(** [trySaveToVaultFile(path, settings)] *)
Definition trySaveToVaultFile (path : string) (s : Settings.t) : M bool :=
  tryCatch
    (let dir := getDirName path in
     (if JsString.truthy dir then
        dirExists <- adapterExists dir ;;
        if negb dirExists then adapterMkdir dir else ret tt
      else ret tt) ;;;
     adapterWrite path (JSON_stringify host s) ;;;
     ret true)
    (ret false).

(** [obj?.data ?? obj], on the plugin's document. *)
Definition dataOrSelf (pluginBlob : option PluginBlob) : option Settings.t :=
  match pluginBlob with
  | Some obj =>
      match data obj with
      | Some d => Some d
      | None => Some (legacy obj)
      end
  | None => None
  end.

(** [tryLoadHabitDataFromConfiguredLocation(pluginBlob)] *)
Definition tryLoadHabitDataFromConfiguredLocation
    (pluginBlob : option PluginBlob) : M (option Settings.t) :=
  cfg <- gets storageConfig ;;
  if isPluginMode (storageMode cfg) then ret (dataOrSelf pluginBlob)
  else
    let path := getConfiguredHabitatorDataPath cfg in
    tryLoadFromVaultFile path.

(** The document [saveSettings] hands to [saveData] first. *)
Definition configBlob (cfg : HabitatorStorageConfig) (s : Settings.t) : PluginBlob :=
  {| config := Some (storeConfig cfg);
     data := if isPluginMode (storageMode cfg) then Some s else None;
     legacy := Settings.empty |}.

(** [saveSettings()] *)
Definition saveSettings : M unit :=
  cfg <- gets storageConfig ;;
  s <- gets settings ;;
  saveData (configBlob cfg s) ;;;
  if isPluginMode (storageMode cfg) then ret tt
  else
    let path := getConfiguredHabitatorDataPath cfg in
    saved <- trySaveToVaultFile path s ;;
    if negb saved then
      let cfg' := {| storageMode := ModePlugin; customSubdir := customSubdir cfg |} in
      setStorageConfigField cfg' ;;;
      saveData {| config := Some (storeConfig cfg'); data := Some s;
                  legacy := Settings.empty |}
    else ret tt.

(** [loadSettings()] *)
Definition loadSettings : M unit :=
  pluginBlob <- loadData ;;
  setStorageConfigField
    (normalizeStorageConfig
       (match pluginBlob with Some b => config b | None => None end)) ;;;
  dataFromSelected <- tryLoadHabitDataFromConfiguredLocation pluginBlob ;;
  match dataFromSelected with
  | Some d =>
      s <- normalizeSettingsM (Some d) ;;
      setSettings s
  | None =>
      fromLegacyFile <- tryLoadFromVaultFile ".habitator/habitator.json" ;;
      let migrated :=
        match fromLegacyFile with
        | Some d => d
        | None =>
            match dataOrSelf pluginBlob with
            | Some d => d
            | None => Settings.empty
            end
        end in
      s <- normalizeSettingsM (Some migrated) ;;
      setSettings s ;;;
      saveSettings
  end.

(** [setStorageConfig(next)] *)
Definition setStorageConfig (next : StoredStorageConfig) : M unit :=
  let normalized := normalizeStorageConfig (Some next) in
  prev <- gets storageConfig ;;
  if String.eqb (modeName (storageMode prev)) (modeName (storageMode normalized))
     && String.eqb (customSubdir prev) (customSubdir normalized)
  then ret tt
  else
    s <- gets settings ;;
    (if isPluginMode (storageMode normalized) then
       saveData {| config := Some (storeConfig normalized); data := Some s;
                   legacy := Settings.empty |}
     else
       let targetPath := getConfiguredHabitatorDataPath normalized in
       trySaveToVaultFile targetPath s ;;;
       saveData {| config := Some (storeConfig normalized); data := None;
                   legacy := Settings.empty |}) ;;;
    setStorageConfigField normalized.

(** The settings in memory are stored where the current configuration
    says: in plugin mode the plugin's document holds them next to the
    configuration; in a file-backed mode the document holds the
    configuration and the last write that succeeded put their JSON text
    at the configured path. *)
Definition persisted (p : Plugin host) : Prop :=
  let cfg := storageConfig p in
  if isPluginMode (storageMode cfg) then
    dataJson p = Some {| config := Some (storeConfig cfg);
                         data := Some (settings p);
                         legacy := Settings.empty |}
  else
    dataJson p = Some {| config := Some (storeConfig cfg); data := None;
                         legacy := Settings.empty |}
    /\ exists front,
        journal p =
          front ++ [WroteFile (getConfiguredHabitatorDataPath cfg)
                      (JSON_stringify host (settings p))].

(** The first steps of [loadSettings]: the configuration is taken from
    the plugin's document and the configured location is read. *)
Definition readConfigured : M (option Settings.t) :=
  pluginBlob <- loadData ;;
  setStorageConfigField
    (normalizeStorageConfig
       (match pluginBlob with Some b => config b | None => None end)) ;;;
  tryLoadHabitDataFromConfiguredLocation pluginBlob.

(** The write of the settings to the configured vault file fails. *)
Definition vaultWriteFails (p : Plugin host) : Prop :=
  fst (trySaveToVaultFile
         (getConfiguredHabitatorDataPath (storageConfig p)) (settings p) p)
  = Returned false.

End PluginMethods.

Arguments ret {host A} a.
Arguments bind {host A B} m f.
Arguments throw {host A}.
Arguments tryCatch {host A} body handler.
Arguments gets {host A} f.
Arguments moved {host} p fs note.

(* ===================================================================== *)
(** * The properties in question, as predicates *)
(* ===================================================================== *)

(** [a] is the id of one of the habits of [l]. *)
Definition idIn (a : field string) (l : list Habit.t) : bool :=
  match a with
  | Val s => existsb (hasId s) l
  | _ => false
  end.

(** The active habit id of [s] is the id of one of its habits. *)
Definition referencesHabit (s : Settings.t) : bool :=
  match Settings.habits s with
  | Val l => idIn (Settings.activeHabitId s) l
  | _ => false
  end.

(** [1900 < year < 3000] *)
Definition yearInRange (s : Settings.t) : bool :=
  match Settings.year s with
  | Val y => (1900 <? y)%Z && (y <? 3000)%Z
  | _ => false
  end.

(** The year an input record carries. *)
Definition inputYear (input : option Settings.t) : field Z :=
  match input with
  | Some i => Settings.year i
  | None => Absent
  end.

(** A habit with a non-empty id, a non-empty name and a list of days. *)
Definition completeHabit (h : Habit.t) : bool :=
  negb (missing (Habit.id h)) && negb (missing (Habit.name h))
  && match Habit.completedDays h with Some _ => true | None => false end.

(** Every habit the input record lists has a non-empty id. *)
Definition habitsHaveIds (input : option Settings.t) : bool :=
  match input with
  | Some i =>
      match Settings.habits i with
      | Val l => forallb (fun h => negb (missing (Habit.id h))) l
      | _ => true
      end
  | None => true
  end.

(** The identifiers [crypto.randomUUID] hands out are not empty. *)
Definition goodRuntime (rt : Runtime) : Prop :=
  forall uuid, randomUUID rt = Some uuid -> forall k, uuid k <> "".

(** The days a habit has once normalised. *)
Definition daysOf (h : Habit.t) : option (list string) :=
  match Habit.completedDays h with
  | Some l => Some l
  | None => Some []
  end.

(** A list of characters has two dots in a row. *)
Definition hasDotDot (l : list ascii) : Prop :=
  exists l1 l2, l = l1 ++ "."%char :: "."%char :: l2.

(* ===================================================================== *)
(** * Scenarios used to run the model *)
(* ===================================================================== *)

Module Scenario.

(** A runtime without [crypto.randomUUID], whose [Math.random] walks
    through the sixteen digits, in the year 2026. *)
Definition rt2026 : Runtime :=
  {| currentYear := 2026; randomUUID := None; random16 := fun k => Z.of_nat k |}.

(** The text of a vault file, by what [JSON.parse] makes of it. *)
Inductive FileText : Type :=
| JsonRecord (s : Settings.t)
| JsonNull
| NotJson.

(** A vault kept in memory: the files, the directories, and whether the
    adapter refuses to write (a sandboxed or read-only vault). *)
Record MemoryVault : Type := mkVault {
  files : list (string * FileText);
  dirs : list string;
  readOnly : bool
}.

Fixpoint lookupFile (path : string) (l : list (string * FileText)) : option FileText :=
  match l with
  | [] => None
  | (p, t) :: rest => if String.eqb p path then Some t else lookupFile path rest
  end.

Definition memoryHost : Host :=
  {| FS := MemoryVault;
     Text := FileText;
     adapter_exists := fun path fs =>
       (Some (match lookupFile path (files fs) with
              | Some _ => true
              | None => existsb (String.eqb path) (dirs fs)
              end), fs);
     adapter_read := fun path fs => (lookupFile path (files fs), fs);
     adapter_mkdir := fun path fs =>
       if readOnly fs then (None, fs)
       else (Some tt, mkVault (files fs) (path :: dirs fs) (readOnly fs));
     adapter_write := fun path text fs =>
       if readOnly fs then (None, fs)
       else (Some tt, mkVault ((path, text) :: files fs) (dirs fs) (readOnly fs));
     JSON_stringify := JsonRecord;
     JSON_parse := fun t =>
       match t with
       | JsonRecord s => Some (Some s)
       | JsonNull => Some None
       | NotJson => None
       end;
     runtime := rt2026 |}.

Definition habit (i n : string) (days : list string) : Habit.t :=
  {| Habit.id := Some i; Habit.name := Some n; Habit.completedDays := Some days |}.

(** [{ completedDays: ["2024-01-01","2024-03-05"] }] *)
Definition legacyRecord : Settings.t :=
  {| Settings.year := Absent; Settings.habits := Absent;
     Settings.activeHabitId := Absent;
     Settings.completedDays := Val ["2024-01-01"; "2024-03-05"] |}.

(** [{ habits: [{id:"a",name:"X",completedDays:["2024-01-01"]}],
       completedDays: ["2024-12-12"] }] *)
Definition strayDaysRecord : Settings.t :=
  {| Settings.year := Absent;
     Settings.habits := Val [habit "a" "X" ["2024-01-01"]];
     Settings.activeHabitId := Absent;
     Settings.completedDays := Val ["2024-12-12"] |}.

(** [{ habits: [{id:"a",name:"X",completedDays:[]}], activeHabitId: "zzz" }] *)
Definition danglingRecord : Settings.t :=
  {| Settings.year := Absent;
     Settings.habits := Val [habit "a" "X" []];
     Settings.activeHabitId := Val "zzz";
     Settings.completedDays := Absent |}.

(** [{ habits: [{id:"a",name:"X",completedDays:[]}], activeHabitId: null }] *)
Definition unsetActiveRecord : Settings.t :=
  {| Settings.year := Absent;
     Settings.habits := Val [habit "a" "X" []];
     Settings.activeHabitId := Null;
     Settings.completedDays := Absent |}.

(** [{ habits: [], completedDays: ["2024-01-01","2024-03-05"] }] *)
Definition legacyRecordNoHabits : Settings.t :=
  {| Settings.year := Absent; Settings.habits := Val [];
     Settings.activeHabitId := Absent;
     Settings.completedDays := Val ["2024-01-01"; "2024-03-05"] |}.

(** The plugin as it starts on a device that has the vault, with its
    data file, but no plugin document yet. *)
Definition syncedVault : Plugin memoryHost :=
  @mkPlugin memoryHost
    Settings.empty
    DEFAULT_STORAGE_CONFIG
    None
    {| files := [(".habitator/habitator.json",
                  JsonRecord
                    {| Settings.year := Val 2025%Z;
                       Settings.habits := Val [habit "a" "X" ["2025-05-01"]];
                       Settings.activeHabitId := Val "a";
                       Settings.completedDays := Absent |})];
       dirs := [".habitator"];
       readOnly := false |}
    0
    [].

(** The plugin as it starts on a device that has neither. *)
Definition freshInstall : Plugin memoryHost :=
  @mkPlugin memoryHost
    Settings.empty
    DEFAULT_STORAGE_CONFIG
    None
    {| files := []; dirs := []; readOnly := false |}
    0
    [].

(** A running plugin in the default mode whose vault refuses writes. *)
Definition sandboxed : Plugin memoryHost :=
  @mkPlugin memoryHost
    {| Settings.year := Val 2026%Z;
       Settings.habits := Val [habit "a" "X" ["2026-01-01"]];
       Settings.activeHabitId := Val "a";
       Settings.completedDays := Absent |}
    DEFAULT_STORAGE_CONFIG
    None
    {| files := []; dirs := [".habitator"]; readOnly := true |}
    0
    [].

(** [{ year: 5000 }] *)
Definition farYearRecord : Settings.t :=
  {| Settings.year := Val 5000%Z; Settings.habits := Absent;
     Settings.activeHabitId := Absent; Settings.completedDays := Absent |}.

(** [{ habits: [{id:"",name:"X",completedDays:[]}], activeHabitId: null }] *)
Definition emptyIdRecord : Settings.t :=
  {| Settings.year := Absent;
     Settings.habits := Val [habit "" "X" []];
     Settings.activeHabitId := Null;
     Settings.completedDays := Absent |}.

(** [{ habits: [{id:"a",...}, {id:"",...}], activeHabitId: "" }] *)
Definition emptyActiveRecord : Settings.t :=
  {| Settings.year := Val 2026%Z;
     Settings.habits := Val [habit "a" "X" []; habit "" "Y" []];
     Settings.activeHabitId := Val "";
     Settings.completedDays := Absent |}.

End Scenario.

(* ===================================================================== *)
(** * The habit methods of the plugin ([src/main.ts]) *)
(* ===================================================================== *)

(** [l.findIndex(f)] and [l.indexOf(x)], [None] for -1. *)
Fixpoint findIndex {A : Type} (f : A -> bool) (l : list A) : option nat :=
  match l with
  | [] => None
  | x :: t =>
      if f x then Some 0%nat
      else match findIndex f t with
           | Some i => Some (S i)
           | None => None
           end
  end.

Definition indexOf (x : string) (l : list string) : option nat :=
  findIndex (String.eqb x) l.

(** [l.splice(i, 1)]: the list without its element at [i]. *)
Fixpoint removeAt {A : Type} (i : nat) (l : list A) : list A :=
  match l with
  | [] => []
  | x :: t =>
      match i with
      | O => t
      | S j => x :: removeAt j t
      end
  end.

(** The list with the element at [i] replaced: what an assignment to a
    property of the object at [i] leaves behind. *)
Fixpoint replaceAt {A : Type} (i : nat) (y : A) (l : list A) : list A :=
  match l with
  | [] => []
  | x :: t =>
      match i with
      | O => y :: t
      | S j => x :: replaceAt j y t
      end
  end.

(** [String(n)] for a count [n]. *)
Definition decimal (n : nat) : string :=
  NilEmpty.string_of_uint (Nat.to_uint n).

(** [addHabit()].  The identifier is drawn before [habits] is read. *)
Definition addHabit (rt : Runtime) (s : Settings.t) (k : nat) : Outcome Settings.t * nat :=
  let (id, k') := generateUuid rt k in
  match Settings.habits s with
  | Val habits =>
      let habit :=
        {| Habit.id := Some id;
           Habit.name := Some ("Habit " ++ decimal (List.length habits + 1))%string;
           Habit.completedDays := Some [] |} in
      (Returned
         {| Settings.year := Settings.year s;
            Settings.habits := Val (habits ++ [habit]);
            Settings.activeHabitId :=
              if falsy (Settings.activeHabitId s) then Val id
              else Settings.activeHabitId s;
            Settings.completedDays := Settings.completedDays s |}, k')
  | _ => (Thrown, k')
  end.

(** [this.settings.activeHabitId === id] *)
Definition isActiveId (id : string) (a : field string) : bool :=
  match a with
  | Val s => String.eqb s id
  | _ => false
  end.

(** [this.settings.habits[0]?.id ?? null] *)
Definition firstIdOrNull (habits : list Habit.t) : field string :=
  match habits with
  | h0 :: _ => readProp (Habit.id h0)
  | [] => Null
  end.

(** [removeHabit(id)] *)
Definition removeHabit (id : string) (s : Settings.t) : Outcome Settings.t :=
  match Settings.habits s with
  | Val habits =>
      match findIndex (hasId id) habits with
      | None => Returned s
      | Some index =>
          let habits' := removeAt index habits in
          Returned
            {| Settings.year := Settings.year s;
               Settings.habits := Val habits';
               Settings.activeHabitId :=
                 if isActiveId id (Settings.activeHabitId s) then firstIdOrNull habits'
                 else Settings.activeHabitId s;
               Settings.completedDays := Settings.completedDays s |}
      end
  | _ => Thrown
  end.

(** Where in [habits] the object is that [getActiveHabit] returns: the
    first habit with the active id, else the first habit. *)
Definition activeHabitIndex (a : field string) (habits : list Habit.t) : nat :=
  match a with
  | Val id =>
      if JsString.truthy id then
        match findIndex (hasId id) habits with
        | Some i => i
        | None => 0%nat
        end
      else 0%nat
  | _ => 0%nat
  end.

(** [isDayCompleted(dateIso)].  [includes] on a [completedDays] that is no
    array throws. *)
Definition isDayCompleted (dateIso : string) (s : Settings.t) : Outcome bool :=
  match getActiveHabit s with
  | Thrown => Thrown
  | Returned None => Returned false
  | Returned (Some habit) =>
      match Habit.completedDays habit with
      | Some days => Returned (existsb (String.eqb dateIso) days)
      | None => Thrown
      end
  end.

(** The days of the active habit after the [if]/[else if] of
    [setDayCompleted]. *)
Definition toggledDays (dateIso : string) (completed : bool) (days : list string)
  : list string :=
  match indexOf dateIso days with
  | None => if completed then days ++ [dateIso] else days
  | Some index => if completed then days else removeAt index days
  end.

(** [setDayCompleted(dateIso, completed)] up to its [saveSettings]: the
    settings with the days of the active habit updated in place; [None]
    when there is no active habit and the method returns at once.
    [indexOf] on a [completedDays] that is no array throws.
    ([getActiveHabit] returns a habit only when [habits] is a list.) *)
Definition markDay (dateIso : string) (completed : bool) (s : Settings.t)
  : Outcome (option Settings.t) :=
  match getActiveHabit s, Settings.habits s with
  | Returned None, _ => Returned None
  | Returned (Some habit), Val habits =>
      match Habit.completedDays habit with
      | Some days =>
          let habit' :=
            {| Habit.id := Habit.id habit;
               Habit.name := Habit.name habit;
               Habit.completedDays := Some (toggledDays dateIso completed days) |} in
          Returned
            (Some {| Settings.year := Settings.year s;
                     Settings.habits :=
                       Val (replaceAt
                              (activeHabitIndex (Settings.activeHabitId s) habits)
                              habit' habits);
                     Settings.activeHabitId := Settings.activeHabitId s;
                     Settings.completedDays := Settings.completedDays s |})
      | None => Thrown
      end
  | _, _ => Thrown
  end.

(* ===================================================================== *)
(** * The settings tab ([src/settings.ts]) *)
(* ===================================================================== *)

Definition isDigit (c : ascii) : bool :=
  let n := nat_of_ascii c in (48 <=? n)%nat && (n <=? 57)%nat.

Definition digitValue (c : ascii) : Z := Z.of_nat (nat_of_ascii c - 48).

(** The value of the longest prefix of decimal digits, [None] when there is
    no digit. *)
Fixpoint leadingDigits (l : list ascii) (acc : option Z) : option Z :=
  match l with
  | c :: t =>
      if isDigit c then
        leadingDigits t
          (Some (10 * match acc with Some v => v | None => 0 end + digitValue c)%Z)
      else acc
  | [] => acc
  end.

(** [Number.parseInt(value, 10)], [None] for [NaN]: leading white space, a
    sign, the leading digits.  The integer is exact here; JavaScript rounds
    one beyond 2^53, which stays on the same side of both bounds of the
    check below. *)
Definition parseInt10 (value : string) : option Z :=
  let l := JsString.dropWhile JsString.isWhiteSpace (JsString.chars value) in
  match l with
  | c :: t =>
      if Ascii.eqb c "-"%char then
        match leadingDigits t None with
        | Some v => Some (- v)%Z
        | None => None
        end
      else if Ascii.eqb c "+"%char then leadingDigits t None
      else leadingDigits l None
  | [] => None
  end.

(** [!Number.isNaN(parsed) && parsed > 1900 && parsed < 3000] *)
Definition acceptedYear (value : string) : option Z :=
  match parseInt10 value with
  | Some parsed =>
      if (1900 <? parsed)%Z && (parsed <? 3000)%Z then Some parsed else None
  | None => None
  end.

(** The loop of the reset button: [habit.completedDays = []] for every
    habit.  Iterating a [habits] that is no array throws. *)
Definition clearAllDays (s : Settings.t) : Outcome Settings.t :=
  match Settings.habits s with
  | Val habits =>
      Returned
        {| Settings.year := Settings.year s;
           Settings.habits :=
             Val (map (fun habit =>
                         {| Habit.id := Habit.id habit;
                            Habit.name := Habit.name habit;
                            Habit.completedDays := Some [] |}) habits);
           Settings.activeHabitId := Settings.activeHabitId s;
           Settings.completedDays := Settings.completedDays s |}
  | _ => Thrown
  end.

Section TabAndTracker.

Variable host : Host.

(** [setDayCompleted(dateIso, completed)] *)
Definition setDayCompleted (dateIso : string) (completed : bool) : M host unit :=
  fun p =>
    match markDay dateIso completed (settings p) with
    | Thrown => (Thrown, p)
    | Returned None => (Returned tt, p)
    | Returned (Some s') => bind (setSettings host s') (fun _ => saveSettings host) p
    end.

(** The [onChange] of the year field: an accepted year is stored and the
    settings are saved; anything else is ignored. *)
Definition yearChanged (value : string) : M host unit :=
  match acceptedYear value with
  | Some parsed =>
      bind (gets settings)
        (fun s =>
           bind (setSettings host
                   {| Settings.year := Val parsed;
                      Settings.habits := Settings.habits s;
                      Settings.activeHabitId := Settings.activeHabitId s;
                      Settings.completedDays := Settings.completedDays s |})
             (fun _ => saveSettings host))
  | None => ret tt
  end.

(** The [onClick] of the reset button. *)
Definition resetClicked : M host unit :=
  fun p =>
    match clearAllDays (settings p) with
    | Thrown => (Thrown, p)
    | Returned s' => bind (setSettings host s') (fun _ => saveSettings host) p
    end.

End TabAndTracker.

(* ===================================================================== *)
(** * Dates of the tracker grid ([toIsoDate]) *)
(* ===================================================================== *)

(** What [toIsoDate] reads of a [Date]: [getFullYear()], [getMonth()]
    (0 to 11) and [getDate()] (1 to 31). *)
Record JsDate : Type := mkDate {
  getFullYear : Z;
  getMonth : Z;
  getDate : Z
}.

(** [n.toString()] for an integer [n]. *)
Definition numberToString (n : Z) : string :=
  NilZero.string_of_int (Z.to_int n).

(** [s.padStart(n, "0")] *)
Definition padStart0 (n : nat) (s : string) : string :=
  (JsString.ofChars (repeat "0"%char (n - String.length s)) ++ s)%string.

(** [toIsoDate(date)] *)
Definition toIsoDate (date : JsDate) : string :=
  let year := getFullYear date in
  let month := (getMonth date + 1)%Z in
  let day := getDate date in
  (padStart0 4 (numberToString year) ++ "-"
   ++ padStart0 2 (numberToString month) ++ "-"
   ++ padStart0 2 (numberToString day))%string.

(** A date of the calendar with a year of at most four digits. *)
Definition plainDate (d : JsDate) : Prop :=
  (0 <= getFullYear d <= 9999 /\ 0 <= getMonth d <= 11 /\ 1 <= getDate d <= 31)%Z.

(* ===================================================================== *)
(** * Further predicates *)
(* ===================================================================== *)

(** A character that may stand first or last in a clean directory: no
    white space and no slash. *)
Definition edgeChar (c : ascii) : bool :=
  negb (JsString.isWhiteSpace c) && negb (Ascii.eqb slash c).

(** A vault-relative directory the sanitiser has nothing to do on: not
    empty, no white space or slash at either end, no backslash, no two
    dots in a row. *)
Definition cleanDir (v : string) : bool :=
  match JsString.chars v, rev (JsString.chars v) with
  | a :: _, z :: _ =>
      edgeChar a && edgeChar z
      && negb (existsb (Ascii.eqb backslash) (JsString.chars v))
      && negb (JsString.includes ".." v)
  | _, _ => false
  end.

(** A hexadecimal digit in lower case. *)
Definition isHexChar (c : ascii) : bool :=
  existsb (Ascii.eqb c) (JsString.chars "0123456789abcdef").

(** The characters [s] fill the template [tpl]: a hexadecimal digit for
    each [x], one of [8], [9], [a], [b] for each [y], the character of the
    template elsewhere. *)
Fixpoint matchesTemplate (tpl s : list ascii) : bool :=
  match tpl, s with
  | [], [] => true
  | t :: tpl', c :: s' =>
      (if Ascii.eqb t "x"%char then isHexChar c
       else if Ascii.eqb t "y"%char then existsb (Ascii.eqb c) (JsString.chars "89ab")
       else Ascii.eqb t c)
      && matchesTemplate tpl' s'
  | _, _ => false
  end.

(* ===================================================================== *)
(** * More scenarios *)
(* ===================================================================== *)

Module Cases.

(** A running plugin in the default mode whose vault takes writes. *)
Definition writable : Plugin Scenario.memoryHost :=
  @mkPlugin Scenario.memoryHost
    {| Settings.year := Val 2026%Z;
       Settings.habits := Val [Scenario.habit "a" "X" ["2026-01-01"];
                               Scenario.habit "b" "Y" []];
       Settings.activeHabitId := Val "b";
       Settings.completedDays := Absent |}
    DEFAULT_STORAGE_CONFIG
    None
    {| Scenario.files := []; Scenario.dirs := []; Scenario.readOnly := false |}
    0
    [].

(** The same plugin as it starts again after [p] was left behind: the
    document and the vault are those of [p]. *)
Definition restarted (p : Plugin Scenario.memoryHost) : Plugin Scenario.memoryHost :=
  @mkPlugin Scenario.memoryHost
    Settings.empty DEFAULT_STORAGE_CONFIG (dataJson p) (vault p) 0 [].

End Cases.

(** The printed and padded number [n] has [width] characters and reads
    back, by [parseInt10], as [n]. *)
Definition fieldOk (width : nat) (n : nat) : bool :=
  let s := padStart0 width (numberToString (Z.of_nat n)) in
  (String.length s =? width)%nat
  && match parseInt10 s with
     | Some v => (v =? Z.of_nat n)%Z
     | None => false
     end.

(* ===================================================================== *)
(** * Properties of the string helpers *)
(* ===================================================================== *)

Section DropWhile.

Context {A : Type}.
Variable p : A -> bool.

Lemma dropWhile_app_kept (l1 l2 : list A) (c : A) :
  p c = false ->
  JsString.dropWhile p (l1 ++ c :: l2) = JsString.dropWhile p l1 ++ c :: l2.
Proof.
  intros Hc. induction l1 as [|x l1 IH]; simpl.
  - now rewrite Hc.
  - destruct (p x); [exact IH | reflexivity].
Qed.

Lemma dropWhileEnd_app_kept (l1 l2 : list A) (c : A) :
  p c = false ->
  JsString.dropWhileEnd p (l1 ++ c :: l2) = l1 ++ c :: JsString.dropWhileEnd p l2.
Proof.
  intros Hc. unfold JsString.dropWhileEnd.
  rewrite rev_app_distr. simpl. rewrite <- app_assoc. simpl.
  rewrite dropWhile_app_kept by exact Hc.
  rewrite rev_app_distr. simpl. rewrite rev_involutive, <- app_assoc.
  reflexivity.
Qed.

End DropWhile.

Lemma occursIn_dotdot (l : list ascii) :
  JsString.occursIn ["."%char; "."%char] l = true <-> hasDotDot l.
Proof.
  induction l as [|c l IH].
  - split; [discriminate|]. intros (l1 & l2 & E). now destruct l1.
  - cbn [JsString.occursIn]. rewrite orb_true_iff, IH. split.
    + intros [H | (l1 & l2 & E)].
      * destruct l as [|d l]; cbn [JsString.startsWith] in H.
        { now rewrite andb_false_r in H. }
        rewrite andb_true_r in H. apply andb_true_iff in H as [H1 H2].
        apply Ascii.eqb_eq in H1, H2. subst. now exists [], l.
      * exists (c :: l1), l2. now rewrite E.
    + intros (l1 & l2 & E). destruct l1 as [|x l1]; simpl in E.
      * injection E as -> ->. left. reflexivity.
      * injection E as -> ->. right. now exists l1, l2.
Qed.

Lemma chars_ofChars (l : list ascii) : JsString.chars (JsString.ofChars l) = l.
Proof. apply list_ascii_of_string_of_list_ascii. Qed.

Lemma includes_dotdot (s : string) :
  JsString.includes ".." s = true <-> hasDotDot (JsString.chars s).
Proof. unfold JsString.includes. apply occursIn_dotdot. Qed.

Lemma hasDotDot_dropWhile (p : ascii -> bool) (l : list ascii) :
  p "."%char = false -> hasDotDot l -> hasDotDot (JsString.dropWhile p l).
Proof.
  intros Hp (l1 & l2 & ->). rewrite dropWhile_app_kept by exact Hp.
  now exists (JsString.dropWhile p l1), l2.
Qed.

Lemma hasDotDot_dropWhileEnd (p : ascii -> bool) (l : list ascii) :
  p "."%char = false -> hasDotDot l -> hasDotDot (JsString.dropWhileEnd p l).
Proof.
  intros Hp (l1 & l2 & ->).
  rewrite dropWhileEnd_app_kept by exact Hp.
  rewrite (dropWhileEnd_app_kept p [] l2 "."%char Hp : JsString.dropWhileEnd p ("."%char :: l2) = _).
  now exists l1, (JsString.dropWhileEnd p l2).
Qed.

Lemma hasDotDot_map (f : ascii -> ascii) (l : list ascii) :
  f "."%char = "."%char -> hasDotDot l -> hasDotDot (map f l).
Proof.
  intros Hf (l1 & l2 & ->). rewrite map_app. simpl. rewrite Hf.
  now exists (map f l1), (map f l2).
Qed.

(** The four steps of the sanitiser keep two dots in a row. *)
Lemma hasDotDot_trim (s : string) :
  hasDotDot (JsString.chars s) -> hasDotDot (JsString.chars (JsString.trim s)).
Proof.
  intros H. unfold JsString.trim. rewrite chars_ofChars.
  apply hasDotDot_dropWhileEnd; [reflexivity|].
  apply hasDotDot_dropWhile; [reflexivity | exact H].
Qed.

Lemma hasDotDot_replaceAll (s : string) :
  hasDotDot (JsString.chars s) ->
  hasDotDot (JsString.chars (JsString.replaceAll backslash slash s)).
Proof.
  intros H. unfold JsString.replaceAll. rewrite chars_ofChars.
  apply hasDotDot_map; [reflexivity | exact H].
Qed.

Lemma hasDotDot_stripLeading (s : string) :
  hasDotDot (JsString.chars s) ->
  hasDotDot (JsString.chars (JsString.stripLeading slash s)).
Proof.
  intros H. unfold JsString.stripLeading. rewrite chars_ofChars.
  apply hasDotDot_dropWhile; [reflexivity | exact H].
Qed.

Lemma hasDotDot_stripTrailing (s : string) :
  hasDotDot (JsString.chars s) ->
  hasDotDot (JsString.chars (JsString.stripTrailing slash s)).
Proof.
  intros H. unfold JsString.stripTrailing. rewrite chars_ofChars.
  apply hasDotDot_dropWhileEnd; [reflexivity | exact H].
Qed.

Example sanitize_trims_slashes :
  sanitizeVaultRelativeDir (Some "  /notes/habits//  ") = "notes/habits".
Proof. reflexivity. Qed.

Example sanitize_absent : sanitizeVaultRelativeDir None = "habitator-data".
Proof. reflexivity. Qed.

Example getDirName_nested : getDirName ".habitator/habitator.json" = ".habitator".
Proof. reflexivity. Qed.

Example getDirName_root : getDirName "/habitator.json" = "".
Proof. reflexivity. Qed.

(** C8. The sanitiser replaces the custom subdirectory ["../../etc"] by the
    default subdirectory ["habitator-data"], and turns the
    backslash-separated [a\b\c] into ["a/b/c"]. *)
Theorem sanitize_examples :
  sanitizeVaultRelativeDir (Some "../../etc") = "habitator-data"
  /\ sanitizeVaultRelativeDir
       (Some (String "a" (String backslash (String "b" (String backslash "c")))))
     = "a/b/c".
Proof. split; reflexivity. Qed.

(** C10. Every input that has [".."] anywhere in it, also inside an
    ordinary segment name, is mapped to the default subdirectory
    ["habitator-data"]; and no output of the sanitiser has [".."] in it. *)
Theorem sanitize_rejects_dotdot (value : string) :
  (JsString.includes ".." value = true ->
   sanitizeVaultRelativeDir (Some value) = "habitator-data")
  /\ JsString.includes ".." (sanitizeVaultRelativeDir (Some value)) = false.
Proof.
  unfold sanitizeVaultRelativeDir.
  set (trimmed := JsString.stripTrailing slash _).
  split.
  - intros H. apply includes_dotdot in H.
    assert (Ht : JsString.includes ".." trimmed = true).
    { apply includes_dotdot. subst trimmed.
      now apply hasDotDot_stripTrailing, hasDotDot_stripLeading,
        hasDotDot_replaceAll, hasDotDot_trim. }
    rewrite Ht. now destruct (negb (JsString.truthy trimmed)).
  - destruct (negb (JsString.truthy trimmed)); [reflexivity|].
    destruct (JsString.includes ".." trimmed) eqn:E; [reflexivity | exact E].
Qed.

Lemma sanitize_rejects_dotdot_witness :
  sanitizeVaultRelativeDir (Some "a..b") = "habitator-data".
Proof. apply (proj1 (sanitize_rejects_dotdot "a..b")). reflexivity. Defined.

(* ===================================================================== *)
(** * Properties of the identifier generator *)
(* ===================================================================== *)

Lemma fillTemplate_cons (rt : Runtime) (c : ascii) (tpl : list ascii) (k : nat) :
  fst (fillTemplate rt (c :: tpl) k) <> [].
Proof.
  cbn [fillTemplate].
  destruct (Ascii.eqb c "x" || Ascii.eqb c "y").
  - destruct (fillTemplate rt tpl (S k)); discriminate.
  - destruct (fillTemplate rt tpl k); discriminate.
Qed.

Lemma truthy_ofChars (l : list ascii) :
  l <> [] -> JsString.truthy (JsString.ofChars l) = true.
Proof. destruct l; [congruence | reflexivity]. Qed.

Lemma truthy_nonempty (s : string) : JsString.truthy s = true <-> s <> "".
Proof. destruct s; simpl; split; congruence. Qed.

Lemma generateUuid_truthy (rt : Runtime) (k : nat) :
  goodRuntime rt -> JsString.truthy (fst (generateUuid rt k)) = true.
Proof.
  intros Hrt. unfold generateUuid.
  destruct (randomUUID rt) as [uuid|] eqn:E.
  - simpl. apply truthy_nonempty. now apply (Hrt uuid).
  - pose proof (fillTemplate_cons rt "x"%char
                  (JsString.chars "xxxxxxx-xxxx-4xxx-yxxx-xxxxxxxxxxxx") k) as H.
    change ("x"%char :: JsString.chars "xxxxxxx-xxxx-4xxx-yxxx-xxxxxxxxxxxx")
      with (JsString.chars "xxxxxxxx-xxxx-4xxx-yxxx-xxxxxxxxxxxx") in H.
    destruct (fillTemplate rt _ k) as [cs k']. simpl in *.
    now apply truthy_ofChars.
Qed.

Example generateUuid_fallback :
  generateUuid Scenario.rt2026 5 = ("56789abc-def0-4123-8567-89abcdef0123", 36%nat).
Proof. reflexivity. Qed.

(* ===================================================================== *)
(** * Properties of the loop over the habits *)
(* ===================================================================== *)

Lemma ensureHabit_complete (rt : Runtime) (h : Habit.t) (k : nat) :
  goodRuntime rt -> completeHabit (fst (ensureHabit rt h k)) = true.
Proof.
  intros Hrt. unfold ensureHabit, completeHabit.
  destruct (missing (Habit.id h)) eqn:Ei.
  - pose proof (generateUuid_truthy rt k Hrt) as Hu.
    destruct (generateUuid rt k) as [u k1]. simpl in *. rewrite Hu. simpl.
    destruct (missing (Habit.name h)) eqn:En; simpl; [|rewrite En; simpl];
      now destruct (Habit.completedDays h).
  - simpl. rewrite Ei. simpl.
    destruct (missing (Habit.name h)) eqn:En; simpl; [|rewrite En; simpl];
      now destruct (Habit.completedDays h).
Qed.

Lemma ensureHabit_fixed (rt : Runtime) (h : Habit.t) (k : nat) :
  completeHabit h = true -> ensureHabit rt h k = (h, k).
Proof.
  unfold completeHabit, ensureHabit. intros H.
  apply andb_true_iff in H as [H Hd]. apply andb_true_iff in H as [Hi Hn].
  apply negb_true_iff in Hi, Hn. rewrite Hi, Hn.
  destruct h as [i n d]. simpl in *. destruct d; [reflexivity | discriminate].
Qed.

Lemma ensureHabit_keeps_id (rt : Runtime) (h : Habit.t) (k : nat) :
  missing (Habit.id h) = false ->
  Habit.id (fst (ensureHabit rt h k)) = Habit.id h.
Proof. intros H. unfold ensureHabit. now rewrite H. Qed.

Lemma ensureHabit_days (rt : Runtime) (h : Habit.t) (k : nat) :
  Habit.completedDays (fst (ensureHabit rt h k)) = daysOf h.
Proof.
  unfold ensureHabit, daysOf.
  destruct (missing (Habit.id h)); [destruct (generateUuid rt k)|]; reflexivity.
Qed.

Lemma ensureHabits_cons (rt : Runtime) (h : Habit.t) (l : list Habit.t) (k : nat) :
  fst (ensureHabits rt (h :: l) k)
  = fst (ensureHabit rt h k) :: fst (ensureHabits rt l (snd (ensureHabit rt h k))).
Proof.
  cbn [ensureHabits]. destruct (ensureHabit rt h k) as [h' k1].
  simpl. now destruct (ensureHabits rt l k1).
Qed.

Lemma ensureHabits_complete (rt : Runtime) (l : list Habit.t) (k : nat) :
  goodRuntime rt -> forallb completeHabit (fst (ensureHabits rt l k)) = true.
Proof.
  intros Hrt. revert k. induction l as [|h l IH]; intros k; [reflexivity|].
  rewrite ensureHabits_cons. simpl.
  now rewrite ensureHabit_complete, IH.
Qed.

Lemma ensureHabits_fixed (rt : Runtime) (l : list Habit.t) (k : nat) :
  forallb completeHabit l = true -> ensureHabits rt l k = (l, k).
Proof.
  induction l as [|h l IH]; intros H; [reflexivity|].
  simpl in H. apply andb_true_iff in H as [Hh Hl].
  cbn [ensureHabits]. rewrite ensureHabit_fixed by exact Hh.
  now rewrite IH.
Qed.

Lemma ensureHabits_days (rt : Runtime) (l : list Habit.t) (k : nat) :
  map Habit.completedDays (fst (ensureHabits rt l k)) = map daysOf l.
Proof.
  revert k. induction l as [|h l IH]; intros k; [reflexivity|].
  rewrite ensureHabits_cons. simpl. now rewrite ensureHabit_days, IH.
Qed.

Lemma hasId_truthy (a : string) (h : Habit.t) :
  hasId a h = true -> JsString.truthy a = true -> missing (Habit.id h) = false.
Proof.
  unfold hasId, missing. destruct (Habit.id h) as [i|]; [|discriminate].
  intros E Ha. apply String.eqb_eq in E. subst. now rewrite Ha.
Qed.

Lemma ensureHabits_keeps_idIn (rt : Runtime) (a : string) (l : list Habit.t) (k : nat) :
  JsString.truthy a = true ->
  existsb (hasId a) l = true ->
  existsb (hasId a) (fst (ensureHabits rt l k)) = true.
Proof.
  intros Ha. revert k. induction l as [|h l IH]; intros k H; [discriminate|].
  rewrite ensureHabits_cons. simpl in *. apply orb_true_iff in H as [H | H].
  - apply orb_true_iff. left. unfold hasId in *.
    rewrite ensureHabit_keeps_id; [exact H|].
    now apply (hasId_truthy a).
  - apply orb_true_iff. right. now apply IH.
Qed.

(* ===================================================================== *)
(** * Properties of the normaliser *)
(* ===================================================================== *)

(** The habit the migration branch builds. *)
Lemma migratedHabit_eq (rt : Runtime) (input : option Settings.t) (k : nat) :
  migratedHabit rt input k
  = ({| Habit.id := Some DEFAULT_HABIT_ID;
        Habit.name := Some "Main habit";
        Habit.completedDays := Some (legacyDays input) |}, k).
Proof. reflexivity. Qed.

(** The result when the migration branch is taken. *)
Lemma normalizeSettings_migrating (rt : Runtime) (input : option Settings.t) (k : nat) :
  migrates rt input = true ->
  normalizeSettings rt input k
  = ({| Settings.year := Settings.year (baseOf rt input);
        Settings.habits :=
          Val [ {| Habit.id := Some DEFAULT_HABIT_ID;
                   Habit.name := Some "Main habit";
                   Habit.completedDays := Some (legacyDays input) |} ];
        Settings.activeHabitId := Val DEFAULT_HABIT_ID;
        Settings.completedDays := Settings.completedDays (baseOf rt input) |}, k).
Proof.
  unfold migrates, normalizeSettings. intros ->.
  rewrite migratedHabit_eq. reflexivity.
Qed.

(** The result when it is not. *)
Lemma normalizeSettings_plain (rt : Runtime) (input : option Settings.t) (k : nat) :
  migrates rt input = false ->
  normalizeSettings rt input k
  = (let base := baseOf rt input in
     let l := habitsOrDefault (Settings.habits base) in
     ({| Settings.year := Settings.year base;
         Settings.habits := Val (fst (ensureHabits rt l k));
         Settings.activeHabitId :=
           match l with
           | h0 :: _ =>
               if falsy (Settings.activeHabitId base) then readProp (Habit.id h0)
               else Settings.activeHabitId base
           | [] => Settings.activeHabitId base
           end;
         Settings.completedDays := Settings.completedDays base |},
      snd (ensureHabits rt l k))).
Proof.
  unfold migrates, normalizeSettings. intros ->. cbv zeta.
  now destruct (ensureHabits rt _ k).
Qed.

Lemma habitsOrDefault_cons (h : field (list Habit.t)) :
  exists h0 t, habitsOrDefault h = h0 :: t.
Proof.
  destruct h as [| |[|h0 t]]; unfold habitsOrDefault, DEFAULT_HABITS; eauto.
Qed.

Lemma habitsOrDefault_Val (l : list Habit.t) :
  l <> [] -> habitsOrDefault (Val l) = l.
Proof. destruct l; [congruence | reflexivity]. Qed.

Lemma overlay_not_absent {A : Type} (d : A) (src : field A) :
  overlay (Val d) src <> Absent.
Proof. destruct src; discriminate. Qed.

Lemma overlay_same {A : Type} (d f : field A) : f <> Absent -> overlay d f = f.
Proof. destruct f; [congruence | reflexivity | reflexivity]. Qed.

Lemma readProp_not_absent (o : option string) : readProp o <> Absent.
Proof. destruct o; discriminate. Qed.

(** The habits of the result are never an empty list. *)
Lemma normalizeSettings_habits (rt : Runtime) (input : option Settings.t) (k : nat) :
  exists h t, Settings.habits (fst (normalizeSettings rt input k)) = Val (h :: t).
Proof.
  destruct (migrates rt input) eqn:E.
  - rewrite normalizeSettings_migrating by exact E. simpl. eauto.
  - rewrite normalizeSettings_plain by exact E. cbv zeta.
    cbn [fst Settings.habits].
    destruct (habitsOrDefault_cons (Settings.habits (baseOf rt input)))
      as (h0 & t & ->).
    rewrite ensureHabits_cons. eauto.
Qed.

(** With identifiers that are not empty, every habit of the result has an
    id, a name and a list of days. *)
Lemma normalizeSettings_complete (rt : Runtime) (input : option Settings.t) (k : nat) :
  goodRuntime rt ->
  exists l, Settings.habits (fst (normalizeSettings rt input k)) = Val l
            /\ forallb completeHabit l = true.
Proof.
  intros Hrt. destruct (migrates rt input) eqn:E.
  - rewrite normalizeSettings_migrating by exact E. simpl. eexists. split; reflexivity.
  - rewrite normalizeSettings_plain by exact E. cbv zeta.
    cbn [fst Settings.habits].
    eexists. split; [reflexivity|]. now apply ensureHabits_complete.
Qed.

(** The active habit id of the result is a property the object has. *)
Lemma normalizeSettings_active_present (rt : Runtime) (input : option Settings.t) (k : nat) :
  Settings.activeHabitId (fst (normalizeSettings rt input k)) <> Absent.
Proof.
  destruct (migrates rt input) eqn:E.
  - rewrite normalizeSettings_migrating by exact E. discriminate.
  - rewrite normalizeSettings_plain by exact E. cbv zeta.
    cbn [fst Settings.activeHabitId].
    assert (Hb : Settings.activeHabitId (baseOf rt input) <> Absent)
      by apply overlay_not_absent.
    destruct (habitsOrDefault _) as [|h0 t]; [exact Hb|].
    destruct (falsy _); [apply readProp_not_absent | exact Hb].
Qed.

Lemma normalizeSettings_year_eq (rt : Runtime) (input : option Settings.t) (k : nat) :
  Settings.year (fst (normalizeSettings rt input k))
  = overlay (Val (currentYear rt)) (inputYear input).
Proof.
  destruct (migrates rt input) eqn:E.
  - rewrite normalizeSettings_migrating by exact E. now destruct input.
  - rewrite normalizeSettings_plain by exact E. now destruct input.
Qed.

Lemma normalizeSettings_legacy_eq (rt : Runtime) (input : option Settings.t) (k : nat) :
  Settings.completedDays (fst (normalizeSettings rt input k))
  = Settings.completedDays (baseOf rt input).
Proof.
  destruct (migrates rt input) eqn:E.
  - now rewrite normalizeSettings_migrating by exact E.
  - now rewrite normalizeSettings_plain by exact E.
Qed.

(** A record that came out of the normaliser with its active habit id set
    is left as it is by the normaliser, and no identifier is drawn. *)
Lemma normalizeSettings_fixed (rt : Runtime) (input : option Settings.t) (k k' : nat) :
  goodRuntime rt ->
  let r := fst (normalizeSettings rt input k) in
  falsy (Settings.activeHabitId r) = false ->
  normalizeSettings rt (Some r) k' = (r, k').
Proof.
  intros Hrt r Hact.
  destruct (normalizeSettings_complete rt input k Hrt) as (l & Hl & Hc).
  destruct (normalizeSettings_habits rt input k) as (h0 & t & Hh).
  fold r in Hl, Hh. rewrite Hh in Hl. injection Hl as <-.
  assert (Hbase : baseOf rt (Some r) = r).
  { unfold baseOf, Object_assign. destruct r as [y hs a cd] eqn:Er. simpl in *.
    f_equal.
    - apply overlay_same. pose proof (normalizeSettings_year_eq rt input k) as Hy.
      fold r in Hy. rewrite Er in Hy. simpl in Hy. rewrite Hy.
      apply overlay_not_absent.
    - now subst hs.
    - apply overlay_same. pose proof (normalizeSettings_active_present rt input k) as Ha.
      fold r in Ha. now rewrite Er in Ha.
    - now destruct cd. }
  assert (Hm : migrates rt (Some r) = false).
  { unfold migrates. now rewrite Hbase, Hh. }
  rewrite normalizeSettings_plain by exact Hm. cbv zeta.
  rewrite Hbase, Hh. cbn [habitsOrDefault]. rewrite Hact.
  rewrite ensureHabits_fixed by exact Hc. simpl.
  destruct r; simpl in *. now subst.
Qed.

Lemma baseOf_habits_have_ids (rt : Runtime) (input : option Settings.t) :
  habitsHaveIds input = true ->
  forallb (fun h => negb (missing (Habit.id h)))
    (habitsOrDefault (Settings.habits (baseOf rt input))) = true.
Proof.
  unfold habitsHaveIds, baseOf. destruct input as [i|]; [|reflexivity].
  simpl. destruct (Settings.habits i) as [| |[|h0 t]]; simpl; auto.
Qed.

Lemma hasId_refl (i : string) (h : Habit.t) : Habit.id h = Some i -> hasId i h = true.
Proof. unfold hasId. intros ->. apply String.eqb_refl. Qed.

(** C1, as the code has it.  A set active habit id is kept as it is, whether
    or not a habit carries it; an unset one becomes the id of the first
    habit.  So, for an input whose habits all have an id, the active habit
    id of the result is the id of one of its habits when the migration
    branch is taken, when the id the overlay starts from is unset, or when
    that id already is the id of one of the habits. *)
Theorem normalizeSettings_activeHabitId
    (rt : Runtime) (input : option Settings.t) (k : nat) :
  let base := baseOf rt input in
  let r := fst (normalizeSettings rt input k) in
  (migrates rt input = false ->
   falsy (Settings.activeHabitId base) = false ->
   Settings.activeHabitId r = Settings.activeHabitId base)
  /\ (habitsHaveIds input = true ->
      migrates rt input = false ->
      falsy (Settings.activeHabitId base) = true ->
      exists h t, Settings.habits r = Val (h :: t)
                  /\ missing (Habit.id h) = false
                  /\ Settings.activeHabitId r = readProp (Habit.id h))
  /\ (habitsHaveIds input = true ->
      migrates rt input = true
      \/ falsy (Settings.activeHabitId base) = true
      \/ referencesHabit base = true ->
      referencesHabit r = true).
Proof.
  intros base r.
  assert (Hkept : migrates rt input = false ->
                  falsy (Settings.activeHabitId base) = false ->
                  Settings.activeHabitId r = Settings.activeHabitId base).
  { intros Hm Hf. subst r. rewrite normalizeSettings_plain by exact Hm.
    cbv zeta. cbn [fst Settings.activeHabitId]. fold base. rewrite Hf.
    now destruct (habitsOrDefault _). }
  assert (Hfirst : habitsHaveIds input = true ->
                   migrates rt input = false ->
                   falsy (Settings.activeHabitId base) = true ->
                   exists h t, Settings.habits r = Val (h :: t)
                               /\ missing (Habit.id h) = false
                               /\ Settings.activeHabitId r = readProp (Habit.id h)).
  { intros Hids Hm Hf. subst r. rewrite normalizeSettings_plain by exact Hm.
    cbv zeta. cbn [fst Settings.activeHabitId Settings.habits]. fold base.
    pose proof (baseOf_habits_have_ids rt input Hids) as Hall. fold base in Hall.
    destruct (habitsOrDefault_cons (Settings.habits base)) as (h0 & t & E).
    rewrite E in *. rewrite Hf. rewrite ensureHabits_cons.
    simpl in Hall. apply andb_true_iff in Hall as [H0 _].
    apply negb_true_iff in H0.
    do 2 eexists. split; [reflexivity|].
    rewrite ensureHabit_keeps_id by exact H0. now split. }
  split; [exact Hkept|]. split; [exact Hfirst|].
  intros Hids H.
  destruct (migrates rt input) eqn:Hm.
  - subst r. rewrite normalizeSettings_migrating by exact Hm.
    unfold referencesHabit. simpl. unfold hasId. simpl. reflexivity.
  - destruct H as [H | [Hf | Href]]; [discriminate | |].
    + destruct (Hfirst Hids eq_refl Hf) as (h & t & Hh & Hi & Ha).
      unfold referencesHabit. rewrite Hh, Ha.
      destruct (Habit.id h) as [i|] eqn:Ei; [|discriminate].
      simpl. now rewrite (hasId_refl i h Ei).
    + destruct (falsy (Settings.activeHabitId base)) eqn:Hf.
      * destruct (Hfirst Hids eq_refl eq_refl) as (h & t & Hh & Hi & Ha).
        unfold referencesHabit. rewrite Hh, Ha.
        destruct (Habit.id h) as [i|] eqn:Ei; [|discriminate].
        simpl. now rewrite (hasId_refl i h Ei).
      * pose proof (Hkept eq_refl eq_refl) as Ha.
        unfold referencesHabit in *. rewrite Ha.
        destruct (Settings.habits base) as [| |l] eqn:El; try discriminate.
        destruct (Settings.activeHabitId base) as [| |a] eqn:Eb; try discriminate.
        simpl in Href, Hf. apply negb_false_iff in Hf.
        assert (Hl : l <> []) by (intros ->; discriminate).
        subst r. rewrite normalizeSettings_plain by exact Hm.
        cbv zeta. cbn [fst Settings.habits]. fold base. rewrite El.
        rewrite habitsOrDefault_Val by exact Hl. simpl.
        now apply ensureHabits_keeps_idIn.
Qed.

Lemma normalizeSettings_activeHabitId_witness :
  referencesHabit
    (fst (normalizeSettings Scenario.rt2026 (Some Scenario.unsetActiveRecord) 0)) = true.
Proof.
  apply (proj2 (proj2 (normalizeSettings_activeHabitId
                         Scenario.rt2026 (Some Scenario.unsetActiveRecord) 0))).
  - reflexivity.
  - right. left. reflexivity.
Defined.

(** C1, as stated, fails: an active habit id that matches no habit of a
    non-empty list comes out of the normaliser unchanged, and dangling. *)
Lemma dangling_activeHabitId_kept :
  let r := fst (normalizeSettings Scenario.rt2026 (Some Scenario.danglingRecord) 0) in
  Settings.activeHabitId r = Val "zzz"
  /\ Settings.habits r = Val [Scenario.habit "a" "X" []]
  /\ referencesHabit r = false.
Proof. repeat split. Qed.

(** C3, as the code has it.  The year of the result is the year the input
    carries, unchecked, or the default year when it carries none; so it is
    in range when the default year is and the input's year, if any, is. *)
Theorem normalizeSettings_year
    (rt : Runtime) (input : option Settings.t) (k : nat) :
  let r := fst (normalizeSettings rt input k) in
  Settings.year r = overlay (Val (currentYear rt)) (inputYear input)
  /\ ((1900 < currentYear rt < 3000)%Z ->
      match inputYear input with
      | Absent => True
      | Null => False
      | Val y => (1900 < y < 3000)%Z
      end ->
      yearInRange r = true).
Proof.
  intros r. split; [apply normalizeSettings_year_eq|].
  intros Hcy Hin. unfold yearInRange. subst r.
  rewrite normalizeSettings_year_eq.
  destruct (inputYear input) as [| |y]; simpl; [|contradiction|];
    apply andb_true_iff; split; apply Z.ltb_lt; lia.
Qed.

Lemma normalizeSettings_year_witness :
  yearInRange (fst (normalizeSettings Scenario.rt2026 (Some Scenario.legacyRecord) 0)) = true.
Proof.
  apply (proj2 (normalizeSettings_year Scenario.rt2026 (Some Scenario.legacyRecord) 0)).
  - simpl. lia.
  - exact I.
Defined.

(** C3, as stated, fails: the year 5000 of an input record is the year of
    the result. *)
Lemma far_year_kept :
  let r := fst (normalizeSettings Scenario.rt2026 (Some Scenario.farYearRecord) 0) in
  Settings.year r = Val 5000%Z /\ yearInRange r = false.
Proof. split; reflexivity. Qed.

(** C4.  The normaliser is not idempotent on the record
    [{ habits: [{id:"",name:"X",completedDays:[]}], activeHabitId: null }]:
    the first pass sets the active habit id to the empty id of the first
    habit and only then gives that habit a fresh id; the second pass sets
    the active habit id to the fresh one. *)
Theorem normalizeSettings_not_idempotent (rt : Runtime) (k k' : nat) :
  goodRuntime rt ->
  let r := fst (normalizeSettings rt (Some Scenario.emptyIdRecord) k) in
  Settings.activeHabitId r = Val ""
  /\ Settings.activeHabitId (fst (normalizeSettings rt (Some r) k'))
     = Val (fst (generateUuid rt k))
  /\ fst (normalizeSettings rt (Some r) k') <> r.
Proof.
  intros Hrt r.
  pose proof (generateUuid_truthy rt k Hrt) as Hu.
  assert (Er : r = {| Settings.year := Val (currentYear rt);
                      Settings.habits :=
                        Val [ {| Habit.id := Some (fst (generateUuid rt k));
                                 Habit.name := Some "X";
                                 Habit.completedDays := Some [] |} ];
                      Settings.activeHabitId := Val "";
                      Settings.completedDays := Absent |}).
  { subst r. unfold normalizeSettings, Scenario.emptyIdRecord. simpl.
    unfold ensureHabit. simpl. now destruct (generateUuid rt k). }
  assert (E2 : Settings.activeHabitId (fst (normalizeSettings rt (Some r) k'))
               = Val (fst (generateUuid rt k))).
  { rewrite Er. unfold normalizeSettings. simpl.
    unfold ensureHabit. simpl.
    destruct (fst (generateUuid rt k)) eqn:Eu; [discriminate|]. reflexivity. }
  split; [now rewrite Er|]. split; [exact E2|].
  intros Heq. rewrite Heq in E2. rewrite Er in E2. simpl in E2.
  injection E2 as E2. rewrite <- E2 in Hu. discriminate.
Qed.

Lemma normalizeSettings_not_idempotent_witness :
  fst (normalizeSettings Scenario.rt2026
         (Some (fst (normalizeSettings Scenario.rt2026 (Some Scenario.emptyIdRecord) 0))) 31)
  <> fst (normalizeSettings Scenario.rt2026 (Some Scenario.emptyIdRecord) 0).
Proof.
  apply (normalizeSettings_not_idempotent Scenario.rt2026 0 31).
  intros uuid H. discriminate H.
Defined.

(** C5.  When the input lists a habit, the habits of the result are the
    habits of the input, each with its own days: a top-level
    [completedDays] has no part in them.  On the record of the
    specification the one habit comes out with its one date. *)
Theorem normalizeSettings_ignores_stray_days
    (rt : Runtime) (y : field Z) (h : Habit.t) (t : list Habit.t)
    (a : field string) (stray : field (list string)) (k : nat) :
  (exists l,
      Settings.habits
        (fst (normalizeSettings rt (Some (Settings.mk y (Val (h :: t)) a stray)) k))
      = Val l
      /\ l = fst (ensureHabits rt (h :: t) k)
      /\ map Habit.completedDays l = map daysOf (h :: t))
  /\ Settings.habits (fst (normalizeSettings rt (Some Scenario.strayDaysRecord) k))
     = Val [Scenario.habit "a" "X" ["2024-01-01"]].
Proof.
  split; [|reflexivity].
  rewrite normalizeSettings_plain by reflexivity.
  eexists. split; [reflexivity|]. split; [reflexivity|].
  apply ensureHabits_days.
Qed.

(** C6.  On the legacy record
    [{ completedDays: ["2024-01-01","2024-03-05"] }] the overlay takes the
    habits of the defaults, so the migration branch is not taken: the
    result has the default habit, with no day, and the two dates stay
    where they were. *)
Theorem normalizeSettings_legacy_record (rt : Runtime) (k : nat) :
  migrates rt (Some Scenario.legacyRecord) = false
  /\ normalizeSettings rt (Some Scenario.legacyRecord) k
     = ({| Settings.year := Val (currentYear rt);
           Settings.habits :=
             Val [ {| Habit.id := Some DEFAULT_HABIT_ID;
                      Habit.name := Some "Main habit";
                      Habit.completedDays := Some [] |} ];
           Settings.activeHabitId := Val DEFAULT_HABIT_ID;
           Settings.completedDays := Val ["2024-01-01"; "2024-03-05"] |}, k).
Proof. split; reflexivity. Qed.

(** The migration branch is taken when the legacy record carries an empty
    [habits] list of its own. *)
Lemma normalizeSettings_legacy_empty_habits (rt : Runtime) (k : nat) :
  normalizeSettings rt (Some Scenario.legacyRecordNoHabits) k
  = ({| Settings.year := Val (currentYear rt);
        Settings.habits :=
          Val [ {| Habit.id := Some DEFAULT_HABIT_ID;
                   Habit.name := Some "Main habit";
                   Habit.completedDays := Some ["2024-01-01"; "2024-03-05"] |} ];
        Settings.activeHabitId := Val DEFAULT_HABIT_ID;
        Settings.completedDays := Val ["2024-01-01"; "2024-03-05"] |}, k).
Proof. reflexivity. Qed.

(* ===================================================================== *)
(** * The active habit *)
(* ===================================================================== *)

Lemma find_hasId (a : string) (hs : list Habit.t) (h : Habit.t) :
  find (hasId a) hs = Some h -> In h hs /\ Habit.id h = Some a.
Proof.
  intros H. apply find_some in H as [Hin Hid]. split; [exact Hin|].
  unfold hasId in Hid. destruct (Habit.id h) as [i|]; [|discriminate].
  apply String.eqb_eq in Hid. now subst.
Qed.




(** What [normalizeSettings] returns has habits with non-empty ids, when
    the identifiers [crypto.randomUUID] hands out are not empty. *)
Lemma normalizeSettings_habitsHaveIds
    (rt : Runtime) (input : option Settings.t) (k : nat) :
  goodRuntime rt ->
  habitsHaveIds (Some (fst (normalizeSettings rt input k))) = true.
Proof.
  intros Hrt. destruct (normalizeSettings_complete rt input k Hrt) as (l & Hl & Hc).
  unfold habitsHaveIds. rewrite Hl.
  apply forallb_forall. intros h Hin.
  rewrite forallb_forall in Hc. specialize (Hc h Hin).
  unfold completeHabit in Hc.
  apply andb_prop in Hc as [Hc _]. apply andb_prop in Hc as [Hc _]. exact Hc.
Qed.



(** The condition on the ids is needed.  With a habit whose id is the
    empty string, which [normalizeSettings] does not return
    ([normalizeSettings_habitsHaveIds]), and the empty string as active
    habit id, the first habit is returned, not the habit with that id. *)
Lemma getActiveHabit_empty_active_id :
  let s := Scenario.emptyActiveRecord in
  let second := Scenario.habit "" "Y" [] in
  Settings.habits s = Val [Scenario.habit "a" "X" []; second]
  /\ Settings.activeHabitId s = readProp (Habit.id second)
  /\ habitsHaveIds (Some s) = false
  /\ getActiveHabit s = Returned (Some (Scenario.habit "a" "X" []))
  /\ getActiveHabit s <> Returned (Some second).
Proof. repeat split. discriminate. Qed.

(* ===================================================================== *)
(** * The adapter calls of the plugin touch the vault only *)
(* ===================================================================== *)

Section VaultFrame.

Variable host : Host.

Lemma adapterCall_returns {A : Type}
    (call : FS host -> option A * FS host) (note : list (Effect host))
    (p : Plugin host) (a : A) (fs' : FS host) :
  call (vault p) = (Some a, fs') ->
  adapterCall host call note p = (Returned a, moved p fs' note).
Proof. unfold adapterCall. now intros ->. Qed.

Lemma adapterCall_throws {A : Type}
    (call : FS host -> option A * FS host) (note : list (Effect host))
    (p : Plugin host) (fs' : FS host) :
  call (vault p) = (None, fs') ->
  adapterCall host call note p = (Thrown, moved p fs' []).
Proof. unfold adapterCall, moved. intros ->. now rewrite app_nil_r. Qed.

Lemma moved_moved (p : Plugin host) (fs1 fs2 : FS host) (n1 n2 : list (Effect host)) :
  moved (moved p fs1 n1) fs2 n2 = moved p fs2 (n1 ++ n2).
Proof. unfold moved. simpl. now rewrite app_assoc. Qed.

Lemma vault_moved (p : Plugin host) (fs : FS host) (n : list (Effect host)) :
  vault (moved p fs n) = fs.
Proof. reflexivity. Qed.

Lemma bind_returned {A B : Type} (m : M host A) (f : A -> M host B)
    (p p1 : Plugin host) (a : A) :
  m p = (Returned a, p1) -> bind m f p = f a p1.
Proof. unfold bind. now intros ->. Qed.

Lemma bind_thrown {A B : Type} (m : M host A) (f : A -> M host B)
    (p p1 : Plugin host) :
  m p = (Thrown, p1) -> bind m f p = (Thrown, p1).
Proof. unfold bind. now intros ->. Qed.

Lemma tryCatch_returned {A : Type} (body handler : M host A)
    (p p1 : Plugin host) (a : A) :
  body p = (Returned a, p1) -> tryCatch body handler p = (Returned a, p1).
Proof. unfold tryCatch. now intros ->. Qed.

Lemma tryCatch_thrown {A : Type} (body handler : M host A)
    (p p1 : Plugin host) :
  body p = (Thrown, p1) -> tryCatch body handler p = handler p1.
Proof. unfold tryCatch. now intros ->. Qed.

(** The write at the end of [trySaveToVaultFile]. *)
Lemma write_then_true (path : string) (text : Text host) (fs : FS host) :
  exists (b : bool) (fs' : FS host) (note : list (Effect host)),
    (b = true -> note = [WroteFile path text])
    /\ forall p, vault p = fs ->
         tryCatch (bind (adapterWrite host path text) (fun _ => ret true))
           (ret false) p
         = (Returned b, moved p fs' note).
Proof.
  destruct (adapter_write host path text fs) as [[[]|] fs1] eqn:E.
  - exists true, fs1, [WroteFile path text]. split; [reflexivity|].
    intros p Hp. rewrite <- Hp in E. apply tryCatch_returned.
    unfold adapterWrite.
    now rewrite (bind_returned _ _ _ _ _ (adapterCall_returns _ _ _ _ _ E)).
  - exists false, fs1, []. split; [discriminate|].
    intros p Hp. rewrite <- Hp in E.
    unfold adapterWrite.
    now rewrite (tryCatch_thrown _ _ _ _
                   (bind_thrown _ _ _ _ (adapterCall_throws _ _ _ _ E))).
Qed.

(** What comes before the write: the directory is made when it is not
    there. *)
Lemma ensure_dir (dir : string) (fs : FS host) :
  exists (ok : bool) (fs' : FS host) (note : list (Effect host)),
    forall p, vault p = fs ->
      bind (adapterExists host dir)
        (fun dirExists => if negb dirExists then adapterMkdir host dir else ret tt) p
      = (if ok then Returned tt else Thrown, moved p fs' note)
        /\ (ok = false -> note = []).
Proof.
  destruct (adapter_exists host dir fs) as [[[|]|] fs1] eqn:E1.
  - exists true, fs1, []. intros p Hp. rewrite <- Hp in E1. split; [|discriminate].
    unfold adapterExists.
    now rewrite (bind_returned _ _ _ _ _ (adapterCall_returns _ _ _ _ _ E1)).
  - destruct (adapter_mkdir host dir fs1) as [[[]|] fs2] eqn:E2.
    + exists true, fs2, [MadeDir dir]. intros p Hp. rewrite <- Hp in E1.
      split; [|discriminate]. unfold adapterExists, adapterMkdir.
      rewrite (bind_returned _ _ _ _ _ (adapterCall_returns _ _ _ _ _ E1)).
      cbn [negb]. rewrite <- (vault_moved p fs1 []) in E2.
      rewrite (adapterCall_returns _ _ _ _ _ E2). now rewrite moved_moved.
    + exists false, fs2, []. intros p Hp. rewrite <- Hp in E1.
      split; [|reflexivity]. unfold adapterExists, adapterMkdir.
      rewrite (bind_returned _ _ _ _ _ (adapterCall_returns _ _ _ _ _ E1)).
      cbn [negb]. rewrite <- (vault_moved p fs1 []) in E2.
      rewrite (adapterCall_throws _ _ _ _ E2). now rewrite moved_moved.
  - exists false, fs1, []. intros p Hp. rewrite <- Hp in E1.
    split; [|reflexivity]. unfold adapterExists.
    now rewrite (bind_thrown _ _ _ _ (adapterCall_throws _ _ _ _ E1)).
Qed.

(** [trySaveToVaultFile] returns a boolean, changes the vault and the
    journal only, and does so as a function of the vault; when it
    returns true, the last entry of the journal is the write of the
    text. *)
Lemma trySaveToVaultFile_frame (path : string) (s : Settings.t) (fs : FS host) :
  exists (b : bool) (fs' : FS host) (note : list (Effect host)),
    (b = true ->
     exists front, note = front ++ [WroteFile path (JSON_stringify host s)])
    /\ forall p, vault p = fs ->
                 trySaveToVaultFile host path s p = (Returned b, moved p fs' note).
Proof.
  unfold trySaveToVaultFile. cbv zeta.
  destruct (JsString.truthy (getDirName path)).
  - destruct (ensure_dir (getDirName path) fs) as ([|] & fs1 & n1 & Hdir).
    + destruct (write_then_true path (JSON_stringify host s) fs1)
        as (b & fs' & n2 & Hb & Hrun).
      exists b, fs', (n1 ++ n2). split; [intros ->; exists n1; now rewrite Hb|].
      intros p Hp. destruct (Hdir p Hp) as [Hd _].
      specialize (Hrun (moved p fs1 n1) eq_refl).
      unfold tryCatch in *. rewrite (bind_returned _ _ _ _ _ Hd).
      rewrite moved_moved in Hrun. exact Hrun.
    + exists false, fs1, []. split; [discriminate|].
      intros p Hp. destruct (Hdir p Hp) as [Hd Hn]. rewrite (Hn eq_refl) in Hd.
      now rewrite (tryCatch_thrown _ _ _ _ (bind_thrown _ _ _ _ Hd)).
  - destruct (write_then_true path (JSON_stringify host s) fs)
      as (b & fs' & n2 & Hb & Hrun).
    exists b, fs', n2. split; [intros ->; exists []; now apply Hb|].
    intros p Hp. specialize (Hrun p Hp).
    unfold tryCatch in *. now rewrite (bind_returned _ _ p p tt eq_refl).
Qed.

(** [tryLoadFromVaultFile] returns a record or null, never throws, and
    changes the vault only. *)
Lemma tryLoadFromVaultFile_frame (path : string) (fs : FS host) :
  exists (o : option Settings.t) (fs' : FS host),
    forall p, vault p = fs ->
              tryLoadFromVaultFile host path p = (Returned o, moved p fs' []).
Proof.
  unfold tryLoadFromVaultFile.
  destruct (adapter_exists host path fs) as [[[|]|] fs1] eqn:E1.
  - destruct (adapter_read host path fs1) as [[raw|] fs2] eqn:E2.
    + destruct (JSON_parse host raw) as [parsed|] eqn:E3.
      * exists parsed, fs2. intros p Hp. rewrite <- Hp in E1.
        apply tryCatch_returned. unfold adapterExists, adapterRead.
        rewrite (bind_returned _ _ _ _ _ (adapterCall_returns _ _ _ _ _ E1)).
        cbn [negb]. rewrite <- (vault_moved p fs1 []) in E2.
        rewrite (bind_returned _ _ _ _ _ (adapterCall_returns _ _ _ _ _ E2)).
        unfold jsonParse. rewrite E3. unfold bind, ret. now rewrite moved_moved.
      * exists None, fs2. intros p Hp. rewrite <- Hp in E1.
        unfold adapterExists, adapterRead.
        rewrite (tryCatch_thrown _ _ _ (moved p fs2 [])); [reflexivity|].
        rewrite (bind_returned _ _ _ _ _ (adapterCall_returns _ _ _ _ _ E1)).
        cbn [negb]. rewrite <- (vault_moved p fs1 []) in E2.
        rewrite (bind_returned _ _ _ _ _ (adapterCall_returns _ _ _ _ _ E2)).
        unfold jsonParse. rewrite E3. unfold bind, throw. now rewrite moved_moved.
    + exists None, fs2. intros p Hp. rewrite <- Hp in E1.
      unfold adapterExists, adapterRead.
      rewrite (tryCatch_thrown _ _ _ (moved p fs2 [])); [reflexivity|].
      rewrite (bind_returned _ _ _ _ _ (adapterCall_returns _ _ _ _ _ E1)).
      cbn [negb]. rewrite <- (vault_moved p fs1 []) in E2.
      rewrite (bind_thrown _ _ _ _ (adapterCall_throws _ _ _ _ E2)).
      now rewrite moved_moved.
  - exists None, fs1. intros p Hp. rewrite <- Hp in E1.
    apply tryCatch_returned. unfold adapterExists.
    now rewrite (bind_returned _ _ _ _ _ (adapterCall_returns _ _ _ _ _ E1)).
  - exists None, fs1. intros p Hp. rewrite <- Hp in E1.
    unfold adapterExists.
    now rewrite (tryCatch_thrown _ _ _ _
                   (bind_thrown _ _ _ _ (adapterCall_throws _ _ _ _ E1))).
Qed.

End VaultFrame.

(* ===================================================================== *)
(** * Saving and loading *)
(* ===================================================================== *)

Lemma normalizeStorageConfig_stored_mode (c : HabitatorStorageConfig) :
  storageMode (normalizeStorageConfig (Some (storeConfig c))) = storageMode c.
Proof. destruct c as [[ | | ] d]; reflexivity. Qed.

Section Persistence.

Variable host : Host.

(** [saveSettings] returns normally, and when it has returned the
    settings are stored where the configuration (demoted or not) says. *)
Lemma saveSettings_persisted (p : Plugin host) :
  exists p', saveSettings host p = (Returned tt, p')
             /\ persisted host p'
             /\ settings p' = settings p
             /\ draws p' = draws p.
Proof.
  destruct (trySaveToVaultFile_frame host
              (getConfiguredHabitatorDataPath (storageConfig p)) (settings p) (vault p))
    as (b & fs' & note & Hb & Hrun).
  unfold saveSettings, bind, gets, saveData, modify, ret, setStorageConfigField.
  cbv beta iota.
  destruct (isPluginMode (storageMode (storageConfig p))) eqn:Em.
  - eexists. split; [reflexivity|]. unfold persisted, configBlob. simpl.
    rewrite Em. auto.
  - rewrite Hrun by reflexivity. destruct b; cbv beta iota; cbn [negb].
    + eexists. split; [reflexivity|]. unfold persisted, configBlob, moved. simpl.
      rewrite Em. repeat split.
      destruct (Hb eq_refl) as (front & ->).
      exists (journal p ++ SavedData (configBlob (storageConfig p) (settings p))
                :: front).
      unfold configBlob. rewrite Em. rewrite <- !app_assoc. reflexivity.
    + eexists. split; [reflexivity|]. unfold persisted. simpl. auto.
Qed.

(** The first steps of [loadSettings] return, and leave the plugin's
    document, the settings, the count of identifiers and the journal as
    they were. *)
Lemma readConfigured_frame (p : Plugin host) :
  exists o cfg fs',
    readConfigured host p
    = (Returned o,
       mkPlugin (settings p) cfg (dataJson p) fs' (draws p) (journal p)).
Proof.
  unfold readConfigured, tryLoadHabitDataFromConfiguredLocation.
  unfold bind, loadData, gets, setStorageConfigField, modify.
  cbv beta iota. cbn [storageConfig].
  set (cfg := normalizeStorageConfig _).
  destruct (isPluginMode (storageMode cfg)).
  - unfold ret. eauto.
  - destruct (tryLoadFromVaultFile_frame host
                (getConfiguredHabitatorDataPath cfg) (vault p)) as (o & fs' & Hrun).
    rewrite Hrun by reflexivity. unfold moved. simpl. rewrite app_nil_r. eauto.
Qed.

Lemma loadSettings_readConfigured (p : Plugin host) :
  loadSettings host p
  = bind (readConfigured host)
      (fun dataFromSelected =>
         match dataFromSelected with
         | Some d =>
             bind (normalizeSettingsM host (Some d)) (fun s => setSettings host s)
         | None =>
             bind (tryLoadFromVaultFile host ".habitator/habitator.json")
               (fun fromLegacyFile =>
                  let migrated :=
                    match fromLegacyFile with
                    | Some d => d
                    | None =>
                        match dataOrSelf (dataJson p) with
                        | Some d => d
                        | None => Settings.empty
                        end
                    end in
                  bind (normalizeSettingsM host (Some migrated))
                    (fun s => bind (setSettings host s)
                                (fun _ => saveSettings host)))
         end) p.
Proof.
  unfold loadSettings, readConfigured, bind, loadData, gets. cbv beta iota.
  reflexivity.
Qed.

(** C2, as the code has it.  [loadSettings] writes the settings back only
    on the fallback path.  The read of the configured location returns;
    when it yields a record, [loadSettings] normalises it and returns
    with the plugin's document and the journal as they were: nothing is
    written; when it yields nothing, the legacy vault file is read, the
    fallback record is what that file holds, else what the plugin's
    document holds, else the empty record, the settings become the
    normalised fallback record, and [loadSettings] ends with
    [saveSettings]: those settings are stored where the configuration
    says. *)
Theorem loadSettings_persists_on_fallback (p : Plugin host) :
  (exists o q, readConfigured host p = (Returned o, q))
  /\ (forall d q,
         readConfigured host p = (Returned (Some d), q) ->
         exists p', loadSettings host p = (Returned tt, p')
                    /\ settings p'
                       = fst (normalizeSettings (runtime host) (Some d) (draws p))
                    /\ dataJson p' = dataJson p
                    /\ journal p' = journal p)
  /\ (forall q,
         readConfigured host p = (Returned None, q) ->
         exists fromLegacyFile q2 p',
           tryLoadFromVaultFile host ".habitator/habitator.json" q
           = (Returned fromLegacyFile, q2)
           /\ loadSettings host p = (Returned tt, p')
           /\ settings p'
              = fst (normalizeSettings (runtime host)
                       (Some match fromLegacyFile with
                             | Some d => d
                             | None =>
                                 match dataOrSelf (dataJson p) with
                                 | Some d => d
                                 | None => Settings.empty
                                 end
                             end)
                       (draws p))
           /\ persisted host p').
Proof.
  destruct (readConfigured_frame p) as (o & cfg & fs' & Hread).
  split; [eauto|]. split.
  - intros d q H. rewrite Hread in H. injection H as -> <-.
    rewrite loadSettings_readConfigured.
    rewrite (bind_returned _ _ _ _ _ _ Hread).
    unfold bind, normalizeSettingsM, setSettings, modify. simpl.
    destruct (normalizeSettings (runtime host) (Some d) (draws p)) as [s k'].
    simpl. eauto.
  - intros q H. rewrite Hread in H. injection H as -> <-.
    rewrite loadSettings_readConfigured.
    rewrite (bind_returned _ _ _ _ _ _ Hread).
    destruct (tryLoadFromVaultFile_frame host ".habitator/habitator.json" fs')
      as (o2 & fs2 & Hrun).
    match goal with
    | |- context [bind _ _ ?st = _] =>
        rewrite (bind_returned _ _ _ _ _ _ (Hrun st eq_refl));
        exists o2, (moved st fs2 []); rewrite (Hrun st eq_refl)
    end.
    cbv zeta.
    set (migrated := match o2 with Some d => d | None => _ end).
    unfold bind at 1 2, normalizeSettingsM, setSettings, modify.
    cbn [moved draws].
    destruct (normalizeSettings (runtime host) (Some migrated) (draws p))
      as [s k'].
    cbv beta iota. cbn [fst].
    match goal with
    | |- context [saveSettings host ?st] =>
        destruct (saveSettings_persisted st) as (p' & Hsave & Hpers & Hset & _)
    end.
    exists p'. split; [reflexivity|]. split; [exact Hsave|].
    split; [exact Hset | exact Hpers].
Qed.

(** The next load, from a document that holds the settings [s] in
    plugin mode: the record read is [s], and nothing is written. *)
Lemma loadSettings_from_document
    (q : Plugin host) (cfg : HabitatorStorageConfig) (s : Settings.t) :
  storageMode cfg = ModePlugin ->
  dataJson q = Some {| config := Some (storeConfig cfg); data := Some s;
                       legacy := Settings.empty |} ->
  exists q', loadSettings host q = (Returned tt, q')
             /\ readConfigured host q
                = (Returned (Some s),
                   mkPlugin (settings q) (storageConfig q') (dataJson q)
                     (vault q) (draws q) (journal q))
             /\ storageMode (storageConfig q') = ModePlugin
             /\ settings q' = fst (normalizeSettings (runtime host) (Some s) (draws q))
             /\ dataJson q' = dataJson q
             /\ vault q' = vault q
             /\ journal q' = journal q.
Proof.
  intros Hmode Hdoc.
  assert (Hread : readConfigured host q
                  = (Returned (Some s),
                     mkPlugin (settings q)
                       (normalizeStorageConfig (Some (storeConfig cfg)))
                       (dataJson q) (vault q) (draws q) (journal q))).
  { unfold readConfigured, tryLoadHabitDataFromConfiguredLocation.
    unfold bind, loadData, gets, setStorageConfigField, modify.
    cbv beta iota. rewrite Hdoc. cbn [storageConfig config].
    rewrite normalizeStorageConfig_stored_mode, Hmode. reflexivity. }
  rewrite loadSettings_readConfigured.
  rewrite (bind_returned _ _ _ _ _ _ Hread).
  unfold bind, normalizeSettingsM, setSettings, modify. simpl.
  destruct (normalizeSettings (runtime host) (Some s) (draws q)) as [s' k'].
  eexists. split; [reflexivity|].
  cbn [storageConfig settings dataJson vault journal fst].
  rewrite normalizeStorageConfig_stored_mode. auto 10.
Qed.

(** C7.  In a file-backed mode, when the write of the settings to the
    vault file fails, [saveSettings] returns normally, the mode is the
    plugin mode afterwards, and the plugin's document holds the settings
    next to that configuration; the next [loadSettings], from that
    document, returns normally in plugin mode with the normalised
    settings it read there, and touches neither the vault nor the
    document. *)
Theorem saveSettings_demotes (p : Plugin host) :
  isPluginMode (storageMode (storageConfig p)) = false ->
  vaultWriteFails host p ->
  exists p',
    saveSettings host p = (Returned tt, p')
    /\ storageMode (storageConfig p') = ModePlugin
    /\ settings p' = settings p
    /\ dataJson p' = Some {| config := Some (storeConfig (storageConfig p'));
                             data := Some (settings p);
                             legacy := Settings.empty |}
    /\ forall q,
         dataJson q = dataJson p' ->
         exists q',
           loadSettings host q = (Returned tt, q')
           /\ fst (readConfigured host q) = Returned (Some (settings p))
           /\ storageMode (storageConfig q') = ModePlugin
           /\ settings q'
              = fst (normalizeSettings (runtime host) (Some (settings p)) (draws q))
           /\ dataJson q' = dataJson q
           /\ vault q' = vault q
           /\ journal q' = journal q.
Proof.
  intros Em Hfail. unfold vaultWriteFails in Hfail.
  destruct (trySaveToVaultFile_frame host
              (getConfiguredHabitatorDataPath (storageConfig p)) (settings p) (vault p))
    as (b & fs' & note & _ & Hrun).
  rewrite (Hrun p eq_refl) in Hfail. simpl in Hfail. injection Hfail as ->.
  set (cfg' := {| storageMode := ModePlugin;
                  customSubdir := customSubdir (storageConfig p) |}).
  eexists. split.
  { unfold saveSettings, bind, gets, saveData, modify, ret, setStorageConfigField.
    cbv beta iota. rewrite Em. rewrite Hrun by reflexivity.
    cbv beta iota. cbn [negb]. reflexivity. }
  cbn [storageConfig settings dataJson moved].
  split; [reflexivity|]. split; [reflexivity|]. split; [reflexivity|].
  intros q Hq.
  destruct (loadSettings_from_document q cfg' (settings p) eq_refl Hq)
    as (q' & Hload & Hread & Hrest).
  exists q'. split; [exact Hload|]. split; [now rewrite Hread | exact Hrest].
Qed.

End Persistence.

Lemma loadSettings_persists_on_fallback_witness :
  exists p', loadSettings Scenario.memoryHost Scenario.freshInstall = (Returned tt, p')
             /\ settings p'
                = fst (normalizeSettings Scenario.rt2026 (Some Settings.empty) 0)
             /\ persisted Scenario.memoryHost p'.
Proof.
  destruct (proj2 (proj2 (loadSettings_persists_on_fallback
                            Scenario.memoryHost Scenario.freshInstall))
              (snd (readConfigured Scenario.memoryHost Scenario.freshInstall))
              eq_refl)
    as (o & q2 & p' & Hfile & Hload & Hset & Hpers).
  vm_compute in Hfile. injection Hfile as <- _.
  exists p'. split; [exact Hload|]. split; [exact Hset | exact Hpers].
Defined.

(** C2, as stated, fails: with the settings file in the vault and no plugin
    document yet, [loadSettings] reads the file and returns; it has
    written nothing, and the plugin's document is still missing. *)
Lemma loadSettings_configured_read_writes_nothing :
  let p' := snd (loadSettings Scenario.memoryHost Scenario.syncedVault) in
  fst (loadSettings Scenario.memoryHost Scenario.syncedVault) = Returned tt
  /\ fst (readConfigured Scenario.memoryHost Scenario.syncedVault)
     = Returned (Some {| Settings.year := Val 2025%Z;
                         Settings.habits :=
                           Val [Scenario.habit "a" "X" ["2025-05-01"]];
                         Settings.activeHabitId := Val "a";
                         Settings.completedDays := Absent |})
  /\ journal p' = []
  /\ dataJson p' = None
  /\ ~ persisted Scenario.memoryHost p'.
Proof.
  cbv zeta. repeat split.
  intros H. unfold persisted in H. vm_compute in H.
  destruct H as [H _]. discriminate H.
Qed.

Lemma saveSettings_demotes_witness :
  exists p',
    saveSettings Scenario.memoryHost Scenario.sandboxed = (Returned tt, p')
    /\ storageMode (storageConfig p') = ModePlugin.
Proof.
  destruct (saveSettings_demotes Scenario.memoryHost Scenario.sandboxed)
    as (p' & Hsave & Hmode & _).
  - reflexivity.
  - reflexivity.
  - exists p'. split; [exact Hsave | exact Hmode].
Defined.

(* ===================================================================== *)
(** * More on the path helpers *)
(* ===================================================================== *)

Lemma ofChars_chars (s : string) : JsString.ofChars (JsString.chars s) = s.
Proof. apply string_of_list_ascii_of_string. Qed.

Lemma chars_append (s1 s2 : string) :
  JsString.chars (s1 ++ s2) = JsString.chars s1 ++ JsString.chars s2.
Proof.
  induction s1 as [|c s1 IH]; [reflexivity|].
  simpl. unfold JsString.chars in *. simpl. now rewrite IH.
Qed.

Lemma truthy_chars (s : string) :
  JsString.truthy s = true <-> JsString.chars s <> [].
Proof. destruct s; simpl; split; congruence. Qed.

Section DropWhileMore.

Context {A : Type}.
Variable p : A -> bool.

Lemma dropWhile_In (x : A) (l : list A) :
  In x (JsString.dropWhile p l) -> In x l.
Proof.
  induction l as [|y l IH]; simpl; [tauto|].
  destruct (p y); [intros H; right; now apply IH | tauto].
Qed.

Lemma dropWhile_head (c : A) (l : list A) :
  hd_error (JsString.dropWhile p l) = Some c -> p c = false.
Proof.
  induction l as [|y l IH]; simpl; [discriminate|].
  destruct (p y) eqn:E; [exact IH|]. simpl. now intros [= <-].
Qed.

Lemma dropWhile_kept (c : A) (l : list A) :
  p c = false -> JsString.dropWhile p (c :: l) = c :: l.
Proof. intros H. simpl. now rewrite H. Qed.

Lemma dropWhile_suffix (l : list A) :
  exists front, l = front ++ JsString.dropWhile p l.
Proof.
  induction l as [|y l [front IH]]; simpl.
  - now exists [].
  - destruct (p y).
    + exists (y :: front). simpl. now rewrite <- IH.
    + now exists [].
Qed.

Lemma dropWhileEnd_prefix (l : list A) :
  exists back, l = JsString.dropWhileEnd p l ++ back.
Proof.
  unfold JsString.dropWhileEnd.
  destruct (dropWhile_suffix (rev l)) as [front H].
  exists (rev front).
  rewrite <- rev_app_distr, <- H. now rewrite rev_involutive.
Qed.

Lemma dropWhileEnd_In (x : A) (l : list A) :
  In x (JsString.dropWhileEnd p l) -> In x l.
Proof.
  unfold JsString.dropWhileEnd. intros H.
  apply in_rev in H. apply dropWhile_In in H. now apply in_rev.
Qed.

Lemma dropWhileEnd_last (c : A) (l : list A) :
  hd_error (rev (JsString.dropWhileEnd p l)) = Some c -> p c = false.
Proof.
  unfold JsString.dropWhileEnd. rewrite rev_involutive. apply dropWhile_head.
Qed.

Lemma dropWhileEnd_head (c : A) (l : list A) :
  hd_error (JsString.dropWhileEnd p l) = Some c -> hd_error l = Some c.
Proof.
  destruct (dropWhileEnd_prefix l) as [back H].
  destruct (JsString.dropWhileEnd p l) as [|y t]; [discriminate|].
  intros [= ->]. now rewrite H.
Qed.

Lemma dropWhileEnd_kept (l : list A) (c : A) :
  hd_error (rev l) = Some c -> p c = false -> JsString.dropWhileEnd p l = l.
Proof.
  unfold JsString.dropWhileEnd. intros H Hc.
  destruct (rev l) as [|y t] eqn:E; [discriminate|].
  injection H as ->. rewrite dropWhile_kept by exact Hc.
  rewrite <- E. apply rev_involutive.
Qed.

End DropWhileMore.

Lemma replace_backslash_In (l : list ascii) :
  ~ In backslash (map (fun c => if Ascii.eqb c backslash then slash else c) l).
Proof.
  intros H. apply in_map_iff in H as (c & Hc & _).
  destruct (Ascii.eqb c backslash) eqn:E; [discriminate|].
  apply Ascii.eqb_neq in E. congruence.
Qed.

Lemma replace_backslash_id (l : list ascii) :
  existsb (Ascii.eqb backslash) l = false ->
  map (fun c => if Ascii.eqb c backslash then slash else c) l = l.
Proof.
  induction l as [|c l IH]; [reflexivity|]. cbn [map existsb].
  intros H. apply orb_false_iff in H as [Hc Hl].
  rewrite (Ascii.eqb_sym c backslash), Hc. now rewrite IH.
Qed.

Lemma sanitize_shape (value : option string) :
  let out := JsString.chars (sanitizeVaultRelativeDir value) in
  out <> []
  /\ ~ In backslash out
  /\ hd_error out <> Some slash
  /\ hd_error (rev out) <> Some slash.
Proof.
  unfold sanitizeVaultRelativeDir.
  set (v := match value with Some v => v | None => "" end).
  set (trimmed := JsString.stripTrailing slash _).
  destruct (negb (JsString.truthy trimmed)) eqn:Et.
  { cbv zeta. simpl. repeat split; try discriminate.
    intros H. repeat (destruct H as [H | H]; [discriminate H|]). exact H. }
  destruct (JsString.includes ".." trimmed).
  { cbv zeta. simpl. repeat split; try discriminate.
    intros H. repeat (destruct H as [H | H]; [discriminate H|]). exact H. }
  cbv zeta. apply negb_false_iff, truthy_chars in Et.
  split; [exact Et|].
  subst trimmed. unfold JsString.stripTrailing, JsString.stripLeading,
    JsString.replaceAll in *.
  rewrite !chars_ofChars in *.
  split; [|split].
  - intros H. apply dropWhileEnd_In, dropWhile_In in H.
    now apply replace_backslash_In in H.
  - intros H. apply dropWhileEnd_head, dropWhile_head in H.
    now rewrite Ascii.eqb_refl in H.
  - intros H. apply dropWhileEnd_last in H. now rewrite Ascii.eqb_refl in H.
Qed.

Lemma cleanDir_sanitize (v : string) :
  cleanDir v = true -> sanitizeVaultRelativeDir (Some v) = v.
Proof.
  unfold cleanDir. intros H.
  destruct (JsString.chars v) as [|a t] eqn:Ev; [discriminate|].
  destruct (rev (a :: t)) as [|z u] eqn:Er; [discriminate|].
  apply andb_true_iff in H as [H Hdd]. apply andb_true_iff in H as [H Hbs].
  apply andb_true_iff in H as [Ha Hz].
  apply negb_true_iff in Hdd, Hbs.
  unfold edgeChar in Ha, Hz.
  apply andb_true_iff in Ha as [Haw Has]. apply andb_true_iff in Hz as [Hzw Hzs].
  apply negb_true_iff in Haw, Has, Hzw, Hzs.
  assert (Htrim : JsString.trim v = v).
  { unfold JsString.trim. rewrite Ev, dropWhile_kept by exact Haw.
    rewrite (dropWhileEnd_kept _ _ z) by (rewrite ?Er; auto).
    rewrite <- Ev. apply ofChars_chars. }
  assert (Hrep : JsString.replaceAll backslash slash v = v).
  { unfold JsString.replaceAll. rewrite Ev, replace_backslash_id by exact Hbs.
    rewrite <- Ev. apply ofChars_chars. }
  assert (Hlead : JsString.stripLeading slash v = v).
  { unfold JsString.stripLeading. rewrite Ev, dropWhile_kept by exact Has.
    rewrite <- Ev. apply ofChars_chars. }
  assert (Htrail : JsString.stripTrailing slash v = v).
  { unfold JsString.stripTrailing. rewrite Ev.
    rewrite (dropWhileEnd_kept _ _ z) by (rewrite ?Er; auto).
    rewrite <- Ev. apply ofChars_chars. }
  unfold sanitizeVaultRelativeDir.
  rewrite Htrim, Hrep, Hlead, Htrail, Hdd.
  destruct v; [discriminate Ev | reflexivity].
Qed.

Lemma sanitize_no_dotdot (value : option string) :
  JsString.includes ".." (sanitizeVaultRelativeDir value) = false.
Proof.
  unfold sanitizeVaultRelativeDir.
  set (trimmed := JsString.stripTrailing slash _).
  destruct (negb (JsString.truthy trimmed)); [reflexivity|].
  destruct (JsString.includes ".." trimmed) eqn:E; [reflexivity | exact E].
Qed.

(** X1.  Whatever the input, the sanitised directory is not empty, has no
    backslash, neither starts nor ends with a slash, and has no two dots
    in a row. *)
Theorem sanitize_output_shape (value : option string) :
  let out := JsString.chars (sanitizeVaultRelativeDir value) in
  out <> []
  /\ ~ In backslash out
  /\ hd_error out <> Some slash
  /\ hd_error (rev out) <> Some slash
  /\ ~ hasDotDot out.
Proof.
  cbv zeta. destruct (sanitize_shape value) as (H1 & H2 & H3 & H4).
  repeat split; try assumption.
  intros H. apply includes_dotdot in H.
  now rewrite sanitize_no_dotdot in H.
Qed.

Section DropWhileLength.

Context {A : Type}.
Variable p : A -> bool.

Lemma dropWhile_length (l : list A) :
  (List.length (JsString.dropWhile p l) <= List.length l)%nat.
Proof.
  induction l as [|x l IH]; simpl; [lia|]. destruct (p x); simpl; lia.
Qed.

Lemma dropWhile_shorter (x : A) (l : list A) :
  p x = true ->
  (List.length (JsString.dropWhile p (x :: l)) < List.length (x :: l))%nat.
Proof.
  intros H. simpl. rewrite H. pose proof (dropWhile_length l). lia.
Qed.

Lemma dropWhileEnd_length (l : list A) :
  (List.length (JsString.dropWhileEnd p l) <= List.length l)%nat.
Proof.
  unfold JsString.dropWhileEnd. rewrite length_rev.
  pose proof (dropWhile_length (rev l)) as H. now rewrite length_rev in H.
Qed.

Lemma dropWhileEnd_shorter (x : A) (l : list A) :
  hd_error (rev l) = Some x -> p x = true ->
  (List.length (JsString.dropWhileEnd p l) < List.length l)%nat.
Proof.
  unfold JsString.dropWhileEnd. intros H Hx. rewrite length_rev.
  destruct (rev l) as [|y t] eqn:E; [discriminate|]. injection H as ->.
  pose proof (dropWhile_shorter x t Hx) as Hs.
  rewrite <- (length_rev l), E. exact Hs.
Qed.

Lemma dropWhile_last (l : list A) :
  JsString.dropWhile p l <> [] ->
  hd_error (rev (JsString.dropWhile p l)) = hd_error (rev l).
Proof.
  intros Hne. destruct (dropWhile_suffix p l) as [front H].
  remember (JsString.dropWhile p l) as d eqn:Ed. clear Ed.
  subst l. rewrite rev_app_distr.
  destruct (rev d) as [|z u] eqn:Er; [|reflexivity].
  apply (f_equal (@List.length A)) in Er. rewrite length_rev in Er.
  destruct d; [congruence | discriminate].
Qed.

End DropWhileLength.

(** The sanitiser never returns more characters than the trimmed input
    has, unless it returns the default. *)
Lemma sanitize_length (v : string) :
  sanitizeVaultRelativeDir (Some v) = customSubdir DEFAULT_STORAGE_CONFIG
  \/ (List.length (JsString.chars (sanitizeVaultRelativeDir (Some v)))
      <= List.length (JsString.chars (JsString.trim v)))%nat.
Proof.
  unfold sanitizeVaultRelativeDir.
  set (trimmed := JsString.stripTrailing slash _).
  destruct (negb (JsString.truthy trimmed)); [now left|].
  destruct (JsString.includes ".." trimmed); [now left|].
  right. subst trimmed.
  unfold JsString.stripTrailing, JsString.stripLeading, JsString.replaceAll.
  rewrite !chars_ofChars.
  eapply Nat.le_trans; [apply dropWhileEnd_length|].
  eapply Nat.le_trans; [apply dropWhile_length|].
  now rewrite length_map.
Qed.

Lemma trim_shorter (v : string) (a z : ascii) :
  hd_error (JsString.chars v) = Some a ->
  hd_error (rev (JsString.chars v)) = Some z ->
  edgeChar a && edgeChar z = false ->
  JsString.isWhiteSpace a = true \/ JsString.isWhiteSpace z = true ->
  (List.length (JsString.chars (JsString.trim v)) < List.length (JsString.chars v))%nat.
Proof.
  intros Ha Hz _ Hws. unfold JsString.trim. rewrite chars_ofChars.
  set (l := JsString.chars v) in *.
  destruct (JsString.isWhiteSpace a) eqn:Ea.
  - eapply Nat.le_lt_trans; [apply dropWhileEnd_length|].
    destruct l as [|x t]; [discriminate|]. injection Ha as ->.
    now apply dropWhile_shorter.
  - destruct Hws as [Hws | Hws]; [discriminate|].
    destruct (JsString.dropWhile JsString.isWhiteSpace l) as [|y t] eqn:E.
    + destruct l; [discriminate | simpl; lia].
    + eapply Nat.lt_le_trans; [|apply (dropWhile_length JsString.isWhiteSpace l)].
      rewrite E. apply (dropWhileEnd_shorter _ z); [|exact Hws].
      rewrite <- E, dropWhile_last by (rewrite E; discriminate). exact Hz.
Qed.

(** X2.  The sanitiser returns its input unchanged exactly on the clean
    directories: not empty, no white space or slash at either end, no
    backslash, no two dots in a row. *)
Theorem sanitize_fixed_points (v : string) :
  sanitizeVaultRelativeDir (Some v) = v <-> cleanDir v = true.
Proof.
  split; [|apply cleanDir_sanitize].
  intros H.
  destruct (sanitize_shape (Some v)) as (Hne & Hbs & Hhd & Hlast).
  pose proof (sanitize_no_dotdot (Some v)) as Hdd.
  cbv zeta in *. rewrite H in Hne, Hbs, Hhd, Hlast, Hdd.
  unfold cleanDir.
  destruct (JsString.chars v) as [|a t] eqn:Ev; [congruence|].
  destruct (rev (a :: t)) as [|z u] eqn:Er.
  { apply (f_equal (@List.length ascii)) in Er. rewrite length_rev in Er.
    discriminate. }
  rewrite Hdd.
  assert (Hnb : existsb (Ascii.eqb backslash) (a :: t) = false).
  { destruct (existsb (Ascii.eqb backslash) (a :: t)) eqn:E; [|reflexivity].
    apply existsb_exists in E as (c & Hc & Hcb). apply Ascii.eqb_eq in Hcb.
    subst c. contradiction. }
  rewrite Hnb. simpl negb. rewrite !andb_true_r.
  assert (Has : Ascii.eqb slash a = false).
  { apply Ascii.eqb_neq. intros <-. now apply Hhd. }
  assert (Hzs : Ascii.eqb slash z = false).
  { apply Ascii.eqb_neq. intros <-. now apply Hlast. }
  unfold edgeChar. rewrite Has, Hzs. simpl negb. rewrite !andb_true_r.
  destruct (JsString.isWhiteSpace a) eqn:Ea, (JsString.isWhiteSpace z) eqn:Ez;
    try reflexivity; exfalso.
  all: destruct (sanitize_length v) as [Hd | Hlen];
    [ rewrite Hd in H; subst v; vm_compute in Ev; injection Ev as <- <-;
      vm_compute in Er; injection Er as <- <-;
      vm_compute in Ea; vm_compute in Ez;
      first [discriminate Ea | discriminate Ez]
    | rewrite H in Hlen;
      assert (Hlt : (List.length (JsString.chars (JsString.trim v))
                     < List.length (JsString.chars v))%nat)
        by (apply (trim_shorter v a z);
            [ now rewrite Ev | now rewrite Ev, Er
            | unfold edgeChar; rewrite ?Ea, ?Ez; simpl;
              rewrite ?andb_false_r; reflexivity
            | auto ]);
      lia ].
Qed.

Lemma sanitize_fixed_points_witness :
  sanitizeVaultRelativeDir (Some "data/habits") = "data/habits".
Proof. apply (proj2 (sanitize_fixed_points "data/habits")). reflexivity. Defined.

Lemma occursIn_dotdot_app (l1 l2 : list ascii) (c : ascii) :
  Ascii.eqb "."%char c = false ->
  JsString.occursIn ["."%char; "."%char] (l1 ++ c :: l2)
  = JsString.occursIn ["."%char; "."%char] l1
    || JsString.occursIn ["."%char; "."%char] l2.
Proof.
  intros Hc. induction l1 as [|x l1 IH].
  - cbn [app JsString.occursIn JsString.startsWith]. rewrite Hc. reflexivity.
  - cbn [app JsString.occursIn]. rewrite IH, orb_assoc. f_equal. f_equal.
    cbn [JsString.startsWith]. destruct l1 as [|y l1]; cbn [app JsString.startsWith].
    + rewrite Hc. reflexivity.
    + reflexivity.
Qed.

Lemma lastIndexOf_app (c : ascii) (l1 l2 : list ascii) :
  existsb (Ascii.eqb c) l2 = false ->
  JsString.lastIndexOf c (l1 ++ c :: l2) = Some (List.length l1).
Proof.
  intros H.
  assert (H2 : JsString.lastIndexOf c l2 = None).
  { induction l2 as [|x l2 IH]; [reflexivity|]. cbn [existsb] in H.
    apply orb_false_iff in H as [Hx Hl]. cbn [JsString.lastIndexOf].
    rewrite (IH Hl), Ascii.eqb_sym, Hx. reflexivity. }
  induction l1 as [|x l1 IH]; cbn [app JsString.lastIndexOf List.length].
  - now rewrite H2, Ascii.eqb_refl.
  - now rewrite IH.
Qed.

Lemma firstn_length_app {A : Type} (l1 l2 : list A) :
  firstn (List.length l1) (l1 ++ l2) = l1.
Proof. induction l1 as [|x l1 IH]; [reflexivity | simpl; now rewrite IH]. Qed.

(** The directory of [dir/habitator.json] is [dir], for a directory that is
    not empty and has no backslash. *)
Lemma getDirName_data_file (dir : string) :
  JsString.chars dir <> [] ->
  ~ In backslash (JsString.chars dir) ->
  getDirName (dir ++ "/habitator.json") = dir.
Proof.
  intros Hne Hbs. unfold getDirName.
  assert (Hrep : JsString.replaceAll backslash slash (dir ++ "/habitator.json")
                 = (dir ++ "/habitator.json")%string).
  { unfold JsString.replaceAll. rewrite replace_backslash_id; [apply ofChars_chars|].
    rewrite chars_append, existsb_app.
    apply orb_false_iff. split; [|reflexivity].
    destruct (existsb (Ascii.eqb backslash) (JsString.chars dir)) eqn:E; [|reflexivity].
    apply existsb_exists in E as (c & Hc & Hcb). apply Ascii.eqb_eq in Hcb.
    subst c. contradiction. }
  rewrite Hrep, chars_append.
  change (JsString.chars "/habitator.json")
    with (slash :: JsString.chars "habitator.json").
  rewrite lastIndexOf_app by reflexivity.
  destruct (JsString.chars dir) as [|a t] eqn:Ed; [congruence|].
  cbn [List.length]. unfold JsString.sliceTo. rewrite chars_append, Ed.
  change (S (List.length t)) with (List.length (a :: t)).
  rewrite firstn_length_app. rewrite <- Ed. apply ofChars_chars.
Qed.

(** X3.  Whatever the configuration holds, the path of the data file has no
    two dots in a row: it cannot lead out of the vault through a parent
    directory. *)
Theorem configured_path_no_dotdot (cfg : HabitatorStorageConfig) :
  JsString.includes ".." (getConfiguredHabitatorDataPath cfg) = false.
Proof.
  unfold getConfiguredHabitatorDataPath.
  destruct (storageMode cfg); try reflexivity.
  cbv zeta. unfold JsString.includes. rewrite chars_append.
  change (JsString.chars "/habitator.json")
    with (slash :: JsString.chars "habitator.json").
  change (JsString.chars "..") with ["."%char; "."%char].
  rewrite occursIn_dotdot_app by reflexivity.
  apply orb_false_iff. split; [|reflexivity].
  apply (sanitize_no_dotdot (Some (customSubdir cfg))).
Qed.

(** X4.  The directory [trySaveToVaultFile] looks for, and makes when it is
    not there, is [.habitator] in the plugin and fixed-path modes and the
    sanitised custom directory in the custom mode; it is never the empty
    string, so the check is never skipped. *)
Theorem getDirName_configured_path (cfg : HabitatorStorageConfig) :
  getDirName (getConfiguredHabitatorDataPath cfg)
  = match storageMode cfg with
    | ModeCustomSubdir => sanitizeVaultRelativeDir (Some (customSubdir cfg))
    | _ => ".habitator"
    end
  /\ JsString.truthy (getDirName (getConfiguredHabitatorDataPath cfg)) = true.
Proof.
  unfold getConfiguredHabitatorDataPath.
  destruct (storageMode cfg); try (split; reflexivity).
  cbv zeta.
  destruct (sanitize_shape (Some (customSubdir cfg))) as (Hne & Hbs & _).
  rewrite getDirName_data_file by assumption.
  split; [reflexivity | now apply truthy_chars].
Qed.

Lemma modeName_inj (m1 m2 : HabitatorStorageMode) :
  modeName m1 = modeName m2 -> m1 = m2.
Proof. destruct m1, m2; simpl; intros H; try reflexivity; discriminate H. Qed.

(** X5.  A configuration whose directory is one the sanitiser leaves alone
    comes back unchanged from the stored form; a stored mode that is none
    of the three names, or is missing, is read as the fixed-path mode; and
    the directory read is never empty and has neither a backslash nor two
    dots in a row. *)
Theorem normalizeStorageConfig_spec :
  (forall c : HabitatorStorageConfig,
      sanitizeVaultRelativeDir (Some (customSubdir c)) = customSubdir c ->
      normalizeStorageConfig (Some (storeConfig c)) = c)
  /\ (forall (m : option string) (d : option string),
         (forall mode, m = Some (modeName mode) -> False) ->
         storageMode (normalizeStorageConfig (Some (mkStoredConfig m d)))
         = ModeDotHabitator)
  /\ (forall input,
         let dir := customSubdir (normalizeStorageConfig input) in
         JsString.truthy dir = true
         /\ ~ In backslash (JsString.chars dir)
         /\ JsString.includes ".." dir = false).
Proof.
  split; [|split].
  - intros [m d] H. simpl in H. unfold normalizeStorageConfig, storeConfig.
    cbn [storedMode storedSubdir storageMode customSubdir].
    rewrite H. destruct m; reflexivity.
  - intros m d H. unfold normalizeStorageConfig. cbn [storedMode storedSubdir].
    destruct m as [m|]; [|reflexivity].
    destruct (String.eqb m "plugin") eqn:E1.
    { apply String.eqb_eq in E1. subst. exfalso. now apply (H ModePlugin). }
    destruct (String.eqb m "dot-habitator") eqn:E2; [reflexivity|].
    destruct (String.eqb m "custom-subdir") eqn:E3; [|reflexivity].
    apply String.eqb_eq in E3. subst. exfalso. now apply (H ModeCustomSubdir).
  - intros input. unfold normalizeStorageConfig. cbn [customSubdir]. cbv zeta.
    match goal with
    | |- context [sanitizeVaultRelativeDir ?v] =>
        destruct (sanitize_shape v) as (Hne & Hbs & _);
        pose proof (sanitize_no_dotdot v) as Hdd
    end.
    split; [now apply truthy_chars | split; assumption].
Qed.

Lemma normalizeStorageConfig_spec_witness :
  normalizeStorageConfig
    (Some (storeConfig {| storageMode := ModeCustomSubdir;
                          customSubdir := "data/habits" |}))
  = {| storageMode := ModeCustomSubdir; customSubdir := "data/habits" |}.
Proof.
  apply (proj1 normalizeStorageConfig_spec
           {| storageMode := ModeCustomSubdir; customSubdir := "data/habits" |}).
  reflexivity.
Defined.

(* ===================================================================== *)
(** * More on the identifier generator *)
(* ===================================================================== *)

Lemma hexDigit_hex (z : Z) : (0 <= z < 16)%Z -> isHexChar (hexDigit z) = true.
Proof.
  intros H.
  assert (E : (z = 0 \/ z = 1 \/ z = 2 \/ z = 3 \/ z = 4 \/ z = 5 \/ z = 6
               \/ z = 7 \/ z = 8 \/ z = 9 \/ z = 10 \/ z = 11 \/ z = 12
               \/ z = 13 \/ z = 14 \/ z = 15)%Z) by lia.
  repeat (destruct E as [-> | E]; [reflexivity|]). now subst.
Qed.

Lemma hexDigit_variant (r : Z) :
  (0 <= r < 16)%Z ->
  existsb (Ascii.eqb (hexDigit (Z.lor (Z.land r 3) 8))) (JsString.chars "89ab") = true.
Proof.
  intros H.
  assert (E : (r = 0 \/ r = 1 \/ r = 2 \/ r = 3 \/ r = 4 \/ r = 5 \/ r = 6
               \/ r = 7 \/ r = 8 \/ r = 9 \/ r = 10 \/ r = 11 \/ r = 12
               \/ r = 13 \/ r = 14 \/ r = 15)%Z) by lia.
  repeat (destruct E as [-> | E]; [reflexivity|]). now subst.
Qed.

(** The number of [x] and [y] in a template. *)
Lemma fillTemplate_spec (rt : Runtime) (tpl : list ascii) (k : nat) :
  matchesTemplate tpl (fst (fillTemplate rt tpl k)) = true
  /\ snd (fillTemplate rt tpl k)
     = (k + List.length
              (filter (fun c => Ascii.eqb c "x"%char || Ascii.eqb c "y"%char) tpl))%nat.
Proof.
  revert k. induction tpl as [|c tpl IH]; intros k.
  - split; [reflexivity | simpl; lia].
  - cbn [fillTemplate filter].
    assert (Hr : (0 <= random16 rt k mod 16 < 16)%Z) by (apply Z.mod_pos_bound; lia).
    destruct (Ascii.eqb c "x"%char) eqn:Ex; cbn [orb].
    + destruct (IH (S k)) as [IH1 IH2].
      destruct (fillTemplate rt tpl (S k)) as [rest k']. cbn [fst snd] in *.
      cbn [matchesTemplate List.length]. rewrite Ex, IH1, hexDigit_hex by exact Hr.
      split; [reflexivity | lia].
    + destruct (Ascii.eqb c "y"%char) eqn:Ey.
      * destruct (IH (S k)) as [IH1 IH2].
        destruct (fillTemplate rt tpl (S k)) as [rest k']. cbn [fst snd] in *.
        cbn [matchesTemplate List.length]. rewrite Ex, Ey, IH1.
        rewrite hexDigit_variant by exact Hr. split; [reflexivity | lia].
      * destruct (IH k) as [IH1 IH2].
        destruct (fillTemplate rt tpl k) as [rest k']. cbn [fst snd] in *.
        cbn [matchesTemplate]. rewrite Ex, Ey, IH1, Ascii.eqb_refl.
        split; [reflexivity | lia].
Qed.

Lemma matchesTemplate_length (tpl s : list ascii) :
  matchesTemplate tpl s = true -> List.length s = List.length tpl.
Proof.
  revert s. induction tpl as [|t tpl IH]; intros [|c s] H; try discriminate.
  - reflexivity.
  - cbn [matchesTemplate] in H. apply andb_true_iff in H as [_ H].
    simpl. now rewrite (IH s H).
Qed.

(** X6.  Without [crypto.randomUUID], and whatever [Math.random] returns,
    the identifier has the shape of a version 4 UUID: 36 characters,
    hexadecimal digits with dashes after the 8th, 12th, 16th and 20th
    digit, [4] as 13th digit and one of [8], [9], [a], [b] as 17th; and it
    takes 31 calls of [Math.random]. *)
Theorem generateUuid_fallback_shape (rt : Runtime) (k : nat) :
  randomUUID rt = None ->
  let id := fst (generateUuid rt k) in
  matchesTemplate (JsString.chars "xxxxxxxx-xxxx-4xxx-yxxx-xxxxxxxxxxxx")
    (JsString.chars id) = true
  /\ List.length (JsString.chars id) = 36%nat
  /\ snd (generateUuid rt k) = (k + 31)%nat.
Proof.
  intros Hnone. unfold generateUuid. rewrite Hnone.
  destruct (fillTemplate_spec rt
              (JsString.chars "xxxxxxxx-xxxx-4xxx-yxxx-xxxxxxxxxxxx") k) as [H1 H2].
  destruct (fillTemplate rt _ k) as [cs k']. cbn [fst snd] in *. cbv zeta.
  rewrite chars_ofChars. split; [exact H1|]. split.
  - now rewrite (matchesTemplate_length _ _ H1).
  - rewrite H2. reflexivity.
Qed.

Lemma generateUuid_fallback_shape_witness :
  snd (generateUuid Scenario.rt2026 5) = 36%nat.
Proof.
  apply (proj2 (proj2 (generateUuid_fallback_shape Scenario.rt2026 5 eq_refl))).
Defined.

(* ===================================================================== *)
(** * More on the normaliser *)
(* ===================================================================== *)

Lemma falsy_readProp (o : option string) : falsy (readProp o) = missing o.
Proof. now destruct o. Qed.

(** The active habit id of the result is set as soon as the habits of the
    input all have an id, or the id the overlay starts from is set. *)
Lemma normalizeSettings_active_set (rt : Runtime) (input : option Settings.t) (k : nat) :
  habitsHaveIds input = true
  \/ falsy (Settings.activeHabitId (baseOf rt input)) = false ->
  falsy (Settings.activeHabitId (fst (normalizeSettings rt input k))) = false.
Proof.
  intros H. destruct (migrates rt input) eqn:Hm.
  - rewrite normalizeSettings_migrating by exact Hm. reflexivity.
  - rewrite normalizeSettings_plain by exact Hm. cbv zeta.
    cbn [fst Settings.activeHabitId].
    destruct (habitsOrDefault_cons (Settings.habits (baseOf rt input)))
      as (h0 & t & E).
    destruct (falsy (Settings.activeHabitId (baseOf rt input))) eqn:Hf.
    + destruct H as [Hids | H]; [|discriminate].
      pose proof (baseOf_habits_have_ids rt input Hids) as Hall.
      rewrite E in *. cbn [forallb] in Hall.
      apply andb_true_iff in Hall as [H0 _]. apply negb_true_iff in H0.
      now rewrite falsy_readProp.
    + rewrite E. exact Hf.
Qed.

(** X7.  With identifiers that are not empty, the result of the normaliser
    has a list of habits that is not empty, in which every habit has a
    non-empty id, a non-empty name and a list of days; and it has a [year]
    and an [activeHabitId] property. *)
Theorem normalizeSettings_wellformed
    (rt : Runtime) (input : option Settings.t) (k : nat) :
  goodRuntime rt ->
  let r := fst (normalizeSettings rt input k) in
  (exists h t, Settings.habits r = Val (h :: t)
               /\ forallb completeHabit (h :: t) = true)
  /\ Settings.year r <> Absent
  /\ Settings.activeHabitId r <> Absent.
Proof.
  intros Hrt r. subst r. split; [|split].
  - destruct (normalizeSettings_complete rt input k Hrt) as (l & Hl & Hc).
    destruct (normalizeSettings_habits rt input k) as (h & t & Hh).
    rewrite Hh in Hl. injection Hl as <-. eauto.
  - rewrite normalizeSettings_year_eq. apply overlay_not_absent.
  - apply normalizeSettings_active_present.
Qed.

Lemma normalizeSettings_wellformed_witness :
  Settings.year (fst (normalizeSettings Scenario.rt2026 None 0)) <> Absent.
Proof.
  apply (normalizeSettings_wellformed Scenario.rt2026 None 0).
  intros uuid H. discriminate H.
Defined.

(** X8.  With identifiers that are not empty, the normaliser is idempotent
    on every input whose habits all have an id (null and the empty record
    among them), and on every input whose active habit id, overlaid on the
    defaults, is set: a second pass returns the record of the first and
    draws no identifier. *)
Theorem normalizeSettings_idempotent
    (rt : Runtime) (input : option Settings.t) (k k' : nat) :
  goodRuntime rt ->
  habitsHaveIds input = true
  \/ falsy (Settings.activeHabitId (baseOf rt input)) = false ->
  normalizeSettings rt (Some (fst (normalizeSettings rt input k))) k'
  = (fst (normalizeSettings rt input k), k').
Proof.
  intros Hrt H. apply normalizeSettings_fixed; [exact Hrt|].
  now apply normalizeSettings_active_set.
Qed.

Lemma normalizeSettings_idempotent_witness :
  normalizeSettings Scenario.rt2026
    (Some (fst (normalizeSettings Scenario.rt2026 (Some Scenario.legacyRecord) 0))) 7
  = (fst (normalizeSettings Scenario.rt2026 (Some Scenario.legacyRecord) 0), 7%nat).
Proof.
  apply normalizeSettings_idempotent.
  - intros uuid H. discriminate H.
  - left. reflexivity.
Defined.

(** X9.  A non-empty list of habits that all have a non-empty id, a
    non-empty name and a list of days comes out of the normaliser as it
    went in, in the same order, and no identifier is drawn. *)
Theorem normalizeSettings_keeps_complete_habits
    (rt : Runtime) (i : Settings.t) (h : Habit.t) (t : list Habit.t) (k : nat) :
  Settings.habits i = Val (h :: t) ->
  forallb completeHabit (h :: t) = true ->
  Settings.habits (fst (normalizeSettings rt (Some i) k)) = Val (h :: t)
  /\ snd (normalizeSettings rt (Some i) k) = k.
Proof.
  intros Hh Hc.
  assert (Hm : migrates rt (Some i) = false).
  { unfold migrates, baseOf, Object_assign. cbn [Settings.habits]. now rewrite Hh. }
  rewrite normalizeSettings_plain by exact Hm. cbv zeta.
  assert (Hb : Settings.habits (baseOf rt (Some i)) = Val (h :: t)).
  { unfold baseOf, Object_assign. cbn [Settings.habits]. now rewrite Hh. }
  rewrite Hb. cbn [habitsOrDefault fst snd Settings.habits].
  now rewrite ensureHabits_fixed by exact Hc.
Qed.

Lemma normalizeSettings_keeps_complete_habits_witness :
  Settings.habits
    (fst (normalizeSettings Scenario.rt2026 (Some Scenario.danglingRecord) 0))
  = Val [Scenario.habit "a" "X" []].
Proof.
  apply (normalizeSettings_keeps_complete_habits
           Scenario.rt2026 Scenario.danglingRecord _ _ 0 eq_refl eq_refl).
Defined.

(** X10.  On the result of the normaliser [getActiveHabit] does not throw
    and does not return null: it returns one of the habits, also when the
    active habit id is the id of none. *)
Theorem getActiveHabit_after_normalize
    (rt : Runtime) (input : option Settings.t) (k : nat) :
  let r := fst (normalizeSettings rt input k) in
  exists h l, getActiveHabit r = Returned (Some h)
              /\ Settings.habits r = Val l
              /\ In h l.
Proof.
  intros r. destruct (normalizeSettings_habits rt input k) as (h0 & t & Hh).
  fold r in Hh. unfold getActiveHabit, getHabits. rewrite Hh.
  cbn [List.length Nat.eqb].
  destruct (Settings.activeHabitId r) as [| |a].
  1,2: exists h0, (h0 :: t); repeat split; now left.
  destruct (JsString.truthy a).
  - destruct (find (hasId a) (h0 :: t)) as [h|] eqn:Ef.
    + exists h, (h0 :: t). repeat split. now apply (find_hasId a).
    + exists h0, (h0 :: t). repeat split. now left.
  - exists h0, (h0 :: t). repeat split. now left.
Qed.

(* ===================================================================== *)
(** * More on the vault file helpers *)
(* ===================================================================== *)

Section VaultRuns.

Variable host : Host.

(** [tryLoadFromVaultFile], call by call. *)
Lemma tryLoadFromVaultFile_run (path : string) (p : Plugin host) :
  tryLoadFromVaultFile host path p
  = match adapter_exists host path (vault p) with
    | (Some true, fs1) =>
        match adapter_read host path fs1 with
        | (Some raw, fs2) =>
            (Returned (match JSON_parse host raw with
                       | Some parsed => parsed
                       | None => None
                       end), moved p fs2 [])
        | (None, fs2) => (Returned None, moved p fs2 [])
        end
    | (_, fs1) => (Returned None, moved p fs1 [])
    end.
Proof.
  unfold tryLoadFromVaultFile.
  destruct (adapter_exists host path (vault p)) as [[[|]|] fs1] eqn:E1.
  - destruct (adapter_read host path fs1) as [[raw|] fs2] eqn:E2.
    + destruct (JSON_parse host raw) as [parsed|] eqn:E3.
      * apply tryCatch_returned. unfold adapterExists, adapterRead.
        rewrite (bind_returned _ _ _ _ _ _ (adapterCall_returns _ _ _ _ _ _ E1)).
        cbn [negb]. rewrite <- (vault_moved _ p fs1 []) in E2.
        rewrite (bind_returned _ _ _ _ _ _ (adapterCall_returns _ _ _ _ _ _ E2)).
        unfold jsonParse. rewrite E3. unfold bind, ret. now rewrite moved_moved.
      * unfold adapterExists, adapterRead.
        rewrite (tryCatch_thrown _ _ _ _ (moved p fs2 [])); [reflexivity|].
        rewrite (bind_returned _ _ _ _ _ _ (adapterCall_returns _ _ _ _ _ _ E1)).
        cbn [negb]. rewrite <- (vault_moved _ p fs1 []) in E2.
        rewrite (bind_returned _ _ _ _ _ _ (adapterCall_returns _ _ _ _ _ _ E2)).
        unfold jsonParse. rewrite E3. unfold bind, throw. now rewrite moved_moved.
    + unfold adapterExists, adapterRead.
      rewrite (tryCatch_thrown _ _ _ _ (moved p fs2 [])); [reflexivity|].
      rewrite (bind_returned _ _ _ _ _ _ (adapterCall_returns _ _ _ _ _ _ E1)).
      cbn [negb]. rewrite <- (vault_moved _ p fs1 []) in E2.
      rewrite (bind_thrown _ _ _ _ _ (adapterCall_throws _ _ _ _ _ E2)).
      now rewrite moved_moved.
  - apply tryCatch_returned. unfold adapterExists.
    now rewrite (bind_returned _ _ _ _ _ _ (adapterCall_returns _ _ _ _ _ _ E1)).
  - unfold adapterExists.
    now rewrite (tryCatch_thrown _ _ _ _ _
                   (bind_thrown _ _ _ _ _ (adapterCall_throws _ _ _ _ _ E1))).
Qed.

Lemma tryCatch_bind_returned {A B : Type}
    (m : M host A) (f : A -> M host B) (h : M host B) (p p1 : Plugin host) (a : A) :
  m p = (Returned a, p1) -> tryCatch (bind m f) h p = tryCatch (f a) h p1.
Proof. unfold tryCatch, bind. now intros ->. Qed.

Lemma tryCatch_bind_thrown {A B : Type}
    (m : M host A) (f : A -> M host B) (h : M host B) (p p1 : Plugin host) :
  m p = (Thrown, p1) -> tryCatch (bind m f) h p = h p1.
Proof. unfold tryCatch, bind. now intros ->. Qed.

(** The write at the end of [trySaveToVaultFile]. *)
Lemma write_run (path : string) (text : Text host) (st : Plugin host) :
  tryCatch (bind (adapterWrite host path text) (fun _ => ret true)) (ret false) st
  = match adapter_write host path text (vault st) with
    | (Some _, fs') => (Returned true, moved st fs' [WroteFile path text])
    | (None, fs') => (Returned false, moved st fs' [])
    end.
Proof.
  destruct (adapter_write host path text (vault st)) as [[[]|] fs1] eqn:E.
  - apply tryCatch_returned. unfold adapterWrite.
    now rewrite (bind_returned _ _ _ _ _ _ (adapterCall_returns _ _ _ _ _ _ E)).
  - unfold adapterWrite.
    now rewrite (tryCatch_thrown _ _ _ _ _
                   (bind_thrown _ _ _ _ _ (adapterCall_throws _ _ _ _ _ E))).
Qed.

(** [trySaveToVaultFile], call by call. *)
Lemma trySaveToVaultFile_run (path : string) (s : Settings.t) (p : Plugin host) :
  trySaveToVaultFile host path s p
  = (let dir := getDirName path in
     let text := JSON_stringify host s in
     let write := fun (fs : FS host) (note : list (Effect host)) =>
       match adapter_write host path text fs with
       | (Some _, fs') => (Returned true, moved p fs' (note ++ [WroteFile path text]))
       | (None, fs') => (Returned false, moved p fs' note)
       end in
     if JsString.truthy dir then
       match adapter_exists host dir (vault p) with
       | (Some true, fs1) => write fs1 []
       | (Some false, fs1) =>
           match adapter_mkdir host dir fs1 with
           | (Some _, fs2) => write fs2 [MadeDir dir]
           | (None, fs2) => (Returned false, moved p fs2 [])
           end
       | (None, fs1) => (Returned false, moved p fs1 [])
       end
     else write (vault p) []).
Proof.
  unfold trySaveToVaultFile. cbv zeta.
  destruct (JsString.truthy (getDirName path)).
  - destruct (adapter_exists host (getDirName path) (vault p)) as [[[|]|] fs1] eqn:E1.
    + erewrite tryCatch_bind_returned; cycle 1.
      { unfold adapterExists.
        rewrite (bind_returned _ _ _ _ _ _ (adapterCall_returns _ _ _ _ _ _ E1)).
        reflexivity. }
      rewrite write_run. cbn [vault moved].
      destruct (adapter_write host path _ fs1) as [[[]|] fs2];
        now rewrite moved_moved.
    + destruct (adapter_mkdir host (getDirName path) fs1) as [[[]|] fs2] eqn:E2.
      * erewrite tryCatch_bind_returned; cycle 1.
        { unfold adapterExists, adapterMkdir.
          rewrite (bind_returned _ _ _ _ _ _ (adapterCall_returns _ _ _ _ _ _ E1)).
          cbn [negb]. rewrite <- (vault_moved _ p fs1 []) in E2.
          rewrite (adapterCall_returns _ _ _ _ _ _ E2). rewrite moved_moved.
          reflexivity. }
        rewrite write_run. cbn [vault moved app].
        destruct (adapter_write host path _ fs2) as [[[]|] fs3];
          now rewrite moved_moved.
      * erewrite tryCatch_bind_thrown; cycle 1.
        { unfold adapterExists, adapterMkdir.
          rewrite (bind_returned _ _ _ _ _ _ (adapterCall_returns _ _ _ _ _ _ E1)).
          cbn [negb]. rewrite <- (vault_moved _ p fs1 []) in E2.
          rewrite (adapterCall_throws _ _ _ _ _ E2). rewrite moved_moved.
          reflexivity. }
        reflexivity.
    + erewrite tryCatch_bind_thrown; cycle 1.
      { unfold adapterExists.
        rewrite (bind_thrown _ _ _ _ _ (adapterCall_throws _ _ _ _ _ E1)).
        reflexivity. }
      reflexivity.
  - erewrite (tryCatch_bind_returned _ _ _ p p tt) by reflexivity.
    rewrite write_run.
    destruct (adapter_write host path _ (vault p)) as [[[]|] fs2]; reflexivity.
Qed.

(** X11.  [tryLoadFromVaultFile] does not throw, whatever the adapter and
    the parser do, and writes nothing: the settings, the configuration,
    the plugin's document and the journal are as before.  It returns a
    record exactly when the adapter says the file exists, reads a text,
    and the text parses to that record; in every other case it returns
    null. *)
Theorem tryLoadFromVaultFile_spec (path : string) (p : Plugin host) :
  exists o p',
    tryLoadFromVaultFile host path p = (Returned o, p')
    /\ settings p' = settings p
    /\ storageConfig p' = storageConfig p
    /\ dataJson p' = dataJson p
    /\ draws p' = draws p
    /\ journal p' = journal p
    /\ forall d,
         o = Some d <->
         exists fs1 raw,
           adapter_exists host path (vault p) = (Some true, fs1)
           /\ adapter_read host path fs1 = (Some raw, vault p')
           /\ JSON_parse host raw = Some (Some d).
Proof.
  rewrite tryLoadFromVaultFile_run.
  destruct (adapter_exists host path (vault p)) as [[[|]|] fs1] eqn:E1.
  - destruct (adapter_read host path fs1) as [[raw|] fs2] eqn:E2.
    + do 2 eexists. split; [reflexivity|]. cbn [moved settings storageConfig
        dataJson draws journal vault]. rewrite app_nil_r.
      repeat (split; [reflexivity|]). intros d. split.
      * intros H. exists fs1, raw. repeat split; try assumption.
        destruct (JSON_parse host raw) as [parsed|]; [now subst | discriminate].
      * intros (fs1' & raw' & [= <-] & H2 & H3).
        rewrite E2 in H2. injection H2 as <-. now rewrite H3.
    + do 2 eexists. split; [reflexivity|]. cbn [moved settings storageConfig
        dataJson draws journal vault]. rewrite app_nil_r.
      repeat (split; [reflexivity|]). intros d. split; [discriminate|].
      intros (fs1' & raw' & [= <-] & H2 & _). rewrite E2 in H2. discriminate.
  - do 2 eexists. split; [reflexivity|]. cbn [moved settings storageConfig
      dataJson draws journal vault]. rewrite app_nil_r.
    repeat (split; [reflexivity|]). intros d. split; [discriminate|].
    intros (fs1' & raw' & H1 & _). discriminate.
  - do 2 eexists. split; [reflexivity|]. cbn [moved settings storageConfig
      dataJson draws journal vault]. rewrite app_nil_r.
    repeat (split; [reflexivity|]). intros d. split; [discriminate|].
    intros (fs1' & raw' & H1 & _). discriminate.
Qed.

(** X12.  [trySaveToVaultFile] does not throw, whatever the adapter does,
    and leaves the settings, the configuration and the plugin's document
    alone.  When it returns true its last effect is the write of the JSON
    text at the path, after at most the making of the directory; when it
    returns false no file has been written. *)
Theorem trySaveToVaultFile_spec (path : string) (s : Settings.t) (p : Plugin host) :
  exists b fs' note,
    trySaveToVaultFile host path s p = (Returned b, moved p fs' note)
    /\ (b = true ->
        note = [WroteFile path (JSON_stringify host s)]
        \/ note = [MadeDir (getDirName path);
                   WroteFile path (JSON_stringify host s)])
    /\ (b = false -> note = [] \/ note = [MadeDir (getDirName path)]).
Proof.
  rewrite trySaveToVaultFile_run. cbv zeta.
  destruct (JsString.truthy (getDirName path)).
  - destruct (adapter_exists host (getDirName path) (vault p)) as [[[|]|] fs1].
    + destruct (adapter_write host path _ fs1) as [[[]|] fs2];
        do 3 eexists; (split; [reflexivity|]); split; intros H;
        try discriminate H; cbn [app]; auto.
    + destruct (adapter_mkdir host (getDirName path) fs1) as [[[]|] fs2].
      * destruct (adapter_write host path _ fs2) as [[[]|] fs3];
          do 3 eexists; (split; [reflexivity|]); split; intros H;
          try discriminate H; cbn [app]; auto.
      * do 3 eexists. split; [reflexivity|]. split; intros H;
          try discriminate H; auto.
    + do 3 eexists. split; [reflexivity|]. split; intros H;
        try discriminate H; auto.
  - destruct (adapter_write host path _ (vault p)) as [[[]|] fs2];
      do 3 eexists; (split; [reflexivity|]); split; intros H;
      try discriminate H; cbn [app]; auto.
Qed.

End VaultRuns.

(* ===================================================================== *)
(** * More on saving and loading *)
(* ===================================================================== *)

Lemma normalizeStorageConfig_stored (c : HabitatorStorageConfig) :
  sanitizeVaultRelativeDir (Some (customSubdir c)) = customSubdir c ->
  normalizeStorageConfig (Some (storeConfig c)) = c.
Proof.
  destruct c as [m d]. simpl. intros H.
  unfold normalizeStorageConfig, storeConfig.
  cbn [storedMode storedSubdir storageMode customSubdir].
  rewrite H. destruct m; reflexivity.
Qed.

Lemma getActiveHabit_some (s : Settings.t) (h0 : Habit.t) (t : list Habit.t) :
  Settings.habits s = Val (h0 :: t) ->
  exists h, getActiveHabit s = Returned (Some h) /\ In h (h0 :: t).
Proof.
  intros Hh. unfold getActiveHabit, getHabits. rewrite Hh.
  cbn [List.length Nat.eqb].
  destruct (Settings.activeHabitId s) as [| |a].
  1,2: exists h0; split; [reflexivity | now left].
  destruct (JsString.truthy a).
  - destruct (find (hasId a) (h0 :: t)) as [h|] eqn:Ef.
    + exists h. split; [reflexivity | now apply (find_hasId a)].
    + exists h0. split; [reflexivity | now left].
  - exists h0. split; [reflexivity | now left].
Qed.

Section PersistenceMore.

Variable host : Host.

(** X13.  [saveSettings] does not throw.  When it has returned, the
    settings, unchanged, are stored where the configuration says; the
    custom directory of the configuration is unchanged and its mode is
    unchanged or has become the plugin mode; and in plugin mode the vault
    is not touched: the one effect is the save of the plugin's document. *)
Theorem saveSettings_spec (p : Plugin host) :
  exists p',
    saveSettings host p = (Returned tt, p')
    /\ persisted host p'
    /\ settings p' = settings p
    /\ draws p' = draws p
    /\ customSubdir (storageConfig p') = customSubdir (storageConfig p)
    /\ (storageMode (storageConfig p') = storageMode (storageConfig p)
        \/ storageMode (storageConfig p') = ModePlugin)
    /\ (isPluginMode (storageMode (storageConfig p)) = true ->
        vault p' = vault p
        /\ journal p'
           = journal p ++ [SavedData (configBlob (storageConfig p) (settings p))]).
Proof.
  destruct (trySaveToVaultFile_frame host
              (getConfiguredHabitatorDataPath (storageConfig p)) (settings p) (vault p))
    as (b & fs' & note & Hb & Hrun).
  unfold saveSettings, bind, gets, saveData, modify, ret, setStorageConfigField.
  cbv beta iota.
  destruct (isPluginMode (storageMode (storageConfig p))) eqn:Em.
  - eexists. split; [reflexivity|]. unfold persisted, configBlob. simpl.
    rewrite Em. auto 10.
  - rewrite Hrun by reflexivity. destruct b; cbv beta iota; cbn [negb].
    + eexists. split; [reflexivity|]. unfold persisted, configBlob, moved. simpl.
      rewrite Em. repeat split; auto; try discriminate.
      destruct (Hb eq_refl) as (front & ->).
      exists (journal p ++ SavedData (configBlob (storageConfig p) (settings p))
                :: front).
      unfold configBlob. rewrite Em. rewrite <- !app_assoc. reflexivity.
    + eexists. split; [reflexivity|]. unfold persisted. simpl.
      repeat split; auto; discriminate.
Qed.

(** The settings [loadSettings] ends with are a result of the normaliser. *)
Lemma loadSettings_result (p : Plugin host) :
  exists input k p',
    loadSettings host p = (Returned tt, p')
    /\ settings p' = fst (normalizeSettings (runtime host) (Some input) k).
Proof.
  destruct (readConfigured_frame host p) as (o & cfg & fs' & Hread).
  rewrite loadSettings_readConfigured.
  rewrite (bind_returned _ _ _ _ _ _ Hread).
  destruct o as [d|].
  - unfold bind, normalizeSettingsM, setSettings, modify. simpl.
    exists d, (draws p).
    destruct (normalizeSettings (runtime host) (Some d) (draws p)) as [s k'].
    simpl. eauto.
  - destruct (tryLoadFromVaultFile_frame host ".habitator/habitator.json" fs')
      as (o2 & fs2 & Hrun).
    match goal with
    | |- context [bind _ _ ?st = _] =>
        rewrite (bind_returned _ _ _ _ _ _ (Hrun st eq_refl))
    end.
    cbv zeta.
    set (migrated := match o2 with Some d => d | None => _ end).
    exists migrated, (draws p).
    unfold bind at 1 2, normalizeSettingsM, setSettings, modify.
    cbn [draws moved].
    destruct (normalizeSettings (runtime host) (Some migrated) (draws p)) as [s k'].
    cbv beta iota.
    match goal with
    | |- context [saveSettings host ?st] =>
        destruct (saveSettings_persisted host st) as (p' & Hsave & _ & Hs & _)
    end.
    exists p'. split; [exact Hsave | exact Hs].
Qed.

(** X14.  On stored documents of the declared shape, which is what
    [Settings.t], [Habit.t] and [StoredStorageConfig] describe (a document
    whose [habits] is not an array of objects, or whose [customSubdir] is
    not a string, is outside them), and with the plugin's own store
    answering, [loadSettings] returns whatever the vault adapter does,
    each of its calls being free to throw, and whether or not the text of
    a file parses.  When it has returned, the settings have habits,
    [getActiveHabit] returns one of them, and, with identifiers that are
    not empty, every habit has a non-empty id, a non-empty name and a list
    of days. *)
Theorem loadSettings_total (p : Plugin host) :
  exists p' h l,
    loadSettings host p = (Returned tt, p')
    /\ Settings.habits (settings p') = Val l
    /\ getActiveHabit (settings p') = Returned (Some h)
    /\ In h l
    /\ (goodRuntime (runtime host) -> forallb completeHabit l = true).
Proof.
  destruct (loadSettings_result p) as (input & k & p' & Hload & Hs).
  destruct (normalizeSettings_habits (runtime host) (Some input) k) as (h0 & t & Hh).
  rewrite <- Hs in Hh.
  destruct (getActiveHabit_some _ h0 t Hh) as (h & Hact & Hin).
  exists p', h, (h0 :: t). repeat split; try assumption.
  intros Hrt.
  destruct (normalizeSettings_complete (runtime host) (Some input) k Hrt)
    as (l & Hl & Hc).
  rewrite <- Hs, Hh in Hl. now injection Hl as <-.
Qed.

(** X15.  The end of the fallback chain: when the plugin's document holds
    no settings, the read of the configured location yields nothing and
    the read of the fixed vault file yields nothing, [loadSettings] ends
    with the default settings in memory and stored where the configuration
    says. *)
Theorem loadSettings_defaults (p q q2 : Plugin host) :
  (forall d, dataOrSelf (dataJson p) = Some d -> d = Settings.empty) ->
  readConfigured host p = (Returned None, q) ->
  tryLoadFromVaultFile host ".habitator/habitator.json" q = (Returned None, q2) ->
  exists p',
    loadSettings host p = (Returned tt, p')
    /\ settings p' = DEFAULT_SETTINGS (runtime host)
    /\ persisted host p'.
Proof.
  intros Hdoc Hread Hlegacy.
  rewrite loadSettings_readConfigured.
  rewrite (bind_returned _ _ _ _ _ _ Hread).
  rewrite (bind_returned _ _ _ _ _ _ Hlegacy). cbv zeta.
  assert (Hm : match dataOrSelf (dataJson p) with
               | Some d => d
               | None => Settings.empty
               end = Settings.empty).
  { destruct (dataOrSelf (dataJson p)) as [d|]; [now apply Hdoc | reflexivity]. }
  rewrite Hm.
  unfold bind at 1 2, normalizeSettingsM, setSettings, modify.
  change (normalizeSettings (runtime host) (Some Settings.empty) (draws q2))
    with (DEFAULT_SETTINGS (runtime host), draws q2).
  cbv beta iota.
  match goal with
  | |- context [saveSettings host ?st] =>
      destruct (saveSettings_persisted host st) as (p' & Hsave & Hpers & Hs & _)
  end.
  exists p'. split; [exact Hsave|]. split; [exact Hs | exact Hpers].
Qed.

End PersistenceMore.

Lemma loadSettings_defaults_witness :
  exists p',
    loadSettings Scenario.memoryHost Scenario.freshInstall = (Returned tt, p')
    /\ settings p' = DEFAULT_SETTINGS Scenario.rt2026
    /\ persisted Scenario.memoryHost p'.
Proof.
  apply (loadSettings_defaults Scenario.memoryHost Scenario.freshInstall
           (snd (readConfigured Scenario.memoryHost Scenario.freshInstall))
           (snd (tryLoadFromVaultFile Scenario.memoryHost ".habitator/habitator.json"
                   (snd (readConfigured Scenario.memoryHost Scenario.freshInstall))))).
  - intros d H. discriminate H.
  - vm_compute. reflexivity.
  - vm_compute. reflexivity.
Defined.

Lemma config_test (c1 c2 : HabitatorStorageConfig) :
  String.eqb (modeName (storageMode c1)) (modeName (storageMode c2))
  && String.eqb (customSubdir c1) (customSubdir c2) = true
  <-> c1 = c2.
Proof.
  rewrite andb_true_iff, !String.eqb_eq. split.
  - intros [Hm Hd]. apply modeName_inj in Hm. destruct c1, c2. simpl in *. congruence.
  - intros ->. auto.
Qed.

Section RoundTrip.

Variable host : Host.

(** X16.  Save, then load, in a file-backed mode.  Let the custom directory
    of the configuration be one the sanitiser leaves alone, let
    [saveSettings] end in a file-backed mode (the write succeeded), and let
    the vault it leaves answer that the file exists and hand back the text
    written, which parses to the settings.  Then a plugin that starts from
    that document and that vault loads these very settings, normalised,
    under the same configuration, and writes nothing. *)
Theorem save_then_load_file_backed (p p' : Plugin host) :
  let cfg := storageConfig p in
  let path := getConfiguredHabitatorDataPath cfg in
  let text := JSON_stringify host (settings p) in
  sanitizeVaultRelativeDir (Some (customSubdir cfg)) = customSubdir cfg ->
  saveSettings host p = (Returned tt, p') ->
  isPluginMode (storageMode (storageConfig p')) = false ->
  forall fs1 fs2,
    adapter_exists host path (vault p') = (Some true, fs1) ->
    adapter_read host path fs1 = (Some text, fs2) ->
    JSON_parse host text = Some (Some (settings p)) ->
    forall q,
      dataJson q = dataJson p' ->
      vault q = vault p' ->
      exists q',
        loadSettings host q = (Returned tt, q')
        /\ storageConfig q' = cfg
        /\ settings q'
           = fst (normalizeSettings (runtime host) (Some (settings p)) (draws q))
        /\ dataJson q' = dataJson q
        /\ journal q' = journal q.
Proof.
  intros cfg path text Hclean Hsave Hmode fs1 fs2 Hex Hrd Hparse q Hdoc Hvault.
  assert (Hp' : storageConfig p' = cfg
                /\ dataJson p' = Some {| config := Some (storeConfig cfg);
                                         data := None;
                                         legacy := Settings.empty |}).
  { destruct (trySaveToVaultFile_frame host path (settings p) (vault p))
      as (b & fs' & note & _ & Hrun).
    unfold saveSettings, bind, gets, saveData, modify, ret, setStorageConfigField
      in Hsave.
    cbv beta iota in Hsave. fold cfg path in Hsave.
    destruct (isPluginMode (storageMode cfg)) eqn:Em.
    - injection Hsave as <-. simpl in Hmode. fold cfg in Hmode. congruence.
    - rewrite Hrun in Hsave by reflexivity. destruct b; cbv beta iota in Hsave;
        cbn [negb] in Hsave; injection Hsave as <-.
      + unfold configBlob. rewrite Em. split; reflexivity.
      + discriminate Hmode. }
  destruct Hp' as [Hcfg Hblob]. rewrite Hcfg in Hmode.
  assert (Hread : readConfigured host q
                  = (Returned (Some (settings p)),
                     mkPlugin (settings q) cfg (dataJson q) fs2 (draws q)
                       (journal q))).
  { unfold readConfigured, tryLoadHabitDataFromConfiguredLocation.
    unfold bind, loadData, gets, setStorageConfigField, modify.
    cbv beta iota. rewrite Hdoc, Hblob. cbn [storageConfig config].
    rewrite normalizeStorageConfig_stored by exact Hclean.
    rewrite Hmode. fold path. rewrite tryLoadFromVaultFile_run.
    cbn [vault]. rewrite Hvault, Hex, Hrd. fold text. rewrite Hparse.
    unfold moved. cbn. rewrite app_nil_r. reflexivity. }
  rewrite loadSettings_readConfigured.
  rewrite (bind_returned _ _ _ _ _ _ Hread).
  unfold bind, normalizeSettingsM, setSettings, modify. simpl.
  destruct (normalizeSettings (runtime host) (Some (settings p)) (draws q))
    as [s' k'].
  eexists. split; [reflexivity|]. simpl. auto.
Qed.

(** X17.  [setStorageConfig] does not throw, whatever the adapter does, and
    leaves the settings alone; afterwards the configuration is the
    normalised one.  When that is the configuration already, nothing
    changes at all.  When it is not, the plugin's document holds the new
    configuration, with the settings next to it exactly when the new mode
    is the plugin mode; and in that case the vault is not touched. *)
Theorem setStorageConfig_spec (next : StoredStorageConfig) (p : Plugin host) :
  let normalized := normalizeStorageConfig (Some next) in
  exists p',
    setStorageConfig host next p = (Returned tt, p')
    /\ storageConfig p' = normalized
    /\ settings p' = settings p
    /\ (storageConfig p = normalized -> p' = p)
    /\ (storageConfig p <> normalized ->
        dataJson p' = Some (configBlob normalized (settings p))
        /\ (isPluginMode (storageMode normalized) = true ->
            vault p' = vault p /\ persisted host p')).
Proof.
  intros normalized. unfold setStorageConfig. fold normalized.
  unfold bind at 1, gets. cbv beta iota.
  destruct (String.eqb (modeName (storageMode (storageConfig p)))
              (modeName (storageMode normalized))
            && String.eqb (customSubdir (storageConfig p)) (customSubdir normalized))
    eqn:Et.
  - apply config_test in Et. exists p. unfold ret.
    split; [reflexivity|]. split; [exact Et|]. split; [reflexivity|].
    split; [reflexivity|]. intros Hne. contradiction.
  - assert (Hne : storageConfig p <> normalized).
    { intros H. apply config_test in H. congruence. }
    unfold bind at 1, gets. cbv beta iota.
    destruct (isPluginMode (storageMode normalized)) eqn:Em.
    + unfold bind, saveData, setStorageConfigField, modify. cbv beta iota.
      eexists. split; [reflexivity|]. cbn [storageConfig settings dataJson vault].
      repeat split; auto; try contradiction.
      * unfold configBlob. now rewrite Em.
      * unfold persisted. cbn [storageConfig settings dataJson]. now rewrite Em.
    + destruct (trySaveToVaultFile_frame host
                  (getConfiguredHabitatorDataPath normalized) (settings p) (vault p))
        as (b & fs' & note & _ & Hrun).
      unfold bind at 1 2. rewrite Hrun by reflexivity.
      unfold bind, saveData, setStorageConfigField, modify. cbv beta iota.
      eexists. split; [reflexivity|]. cbn [storageConfig settings dataJson vault moved].
      repeat split; auto; try contradiction; try discriminate.
      unfold configBlob. now rewrite Em.
Qed.

End RoundTrip.

Lemma save_then_load_file_backed_witness :
  exists q',
    loadSettings Scenario.memoryHost
      (Cases.restarted (snd (saveSettings Scenario.memoryHost Cases.writable)))
    = (Returned tt, q')
    /\ settings q' = settings Cases.writable.
Proof.
  destruct (save_then_load_file_backed Scenario.memoryHost Cases.writable
              (snd (saveSettings Scenario.memoryHost Cases.writable)))
    with (fs1 := vault (snd (saveSettings Scenario.memoryHost Cases.writable)))
         (fs2 := vault (snd (saveSettings Scenario.memoryHost Cases.writable)))
         (q := Cases.restarted (snd (saveSettings Scenario.memoryHost Cases.writable)))
    as (q' & Hload & _ & Hs & _).
  - reflexivity.
  - vm_compute. reflexivity.
  - reflexivity.
  - vm_compute. reflexivity.
  - vm_compute. reflexivity.
  - reflexivity.
  - reflexivity.
  - reflexivity.
  - exists q'. split; [exact Hload|]. rewrite Hs. vm_compute. reflexivity.
Defined.

(* ===================================================================== *)
(** * Adding and removing habits *)
(* ===================================================================== *)

Lemma findIndex_none {A : Type} (f : A -> bool) (l : list A) :
  findIndex f l = None <-> existsb f l = false.
Proof.
  induction l as [|x l IH]; [simpl; tauto|]. simpl.
  destruct (f x); simpl; [split; discriminate|].
  destruct (findIndex f l); [|tauto].
  split; [discriminate|]. intros H. apply IH in H. discriminate.
Qed.

(** The index [findIndex] returns is that of the first element that
    passes the test. *)
Lemma findIndex_split {A : Type} (f : A -> bool) (l : list A) (i : nat) :
  findIndex f l = Some i ->
  exists front x back,
    l = front ++ x :: back
    /\ List.length front = i
    /\ f x = true
    /\ existsb f front = false
    /\ removeAt i l = front ++ back.
Proof.
  revert i. induction l as [|y l IH]; intros i H; [discriminate|].
  simpl in H. destruct (f y) eqn:Ey.
  - injection H as <-. exists [], y, l. repeat split; auto.
  - destruct (findIndex f l) as [j|] eqn:Ej; [|discriminate].
    injection H as <-. destruct (IH j eq_refl) as (front & x & back & -> & Hl & Hx & Hf & Hr).
    exists (y :: front), x, back. simpl. rewrite Ey, Hf, Hr, Hl. repeat split; auto.
Qed.

Lemma findIndex_some {A : Type} (f : A -> bool) (l : list A) :
  existsb f l = true -> exists i, findIndex f l = Some i.
Proof.
  intros H. destruct (findIndex f l) as [i|] eqn:E; [eauto|].
  apply findIndex_none in E. congruence.
Qed.

Lemma hasId_id (a : string) (h : Habit.t) : hasId a h = true -> Habit.id h = Some a.
Proof.
  unfold hasId. destruct (Habit.id h) as [i|]; [|discriminate].
  intros H. apply String.eqb_eq in H. now subst.
Qed.

(** X18.  [removeHabit(id)] on settings whose [habits] is a list: when no
    habit has the id, the settings are unchanged; otherwise the first habit
    with that id, and no other, is taken out and the rest keeps its order,
    the year is unchanged, and the active habit id is unchanged unless it
    was [id], in which case it becomes the id of the first habit left, or
    null when none is left or that habit has no id. *)
Theorem removeHabit_spec (id : string) (s : Settings.t) (l : list Habit.t) :
  Settings.habits s = Val l ->
  (existsb (hasId id) l = false -> removeHabit id s = Returned s)
  /\ (existsb (hasId id) l = true ->
      exists front h back s',
        l = front ++ h :: back
        /\ Habit.id h = Some id
        /\ existsb (hasId id) front = false
        /\ removeHabit id s = Returned s'
        /\ Settings.habits s' = Val (front ++ back)
        /\ Settings.year s' = Settings.year s
        /\ Settings.activeHabitId s'
           = if isActiveId id (Settings.activeHabitId s)
             then firstIdOrNull (front ++ back)
             else Settings.activeHabitId s).
Proof.
  intros Hh. unfold removeHabit. rewrite Hh. split.
  - intros H. apply findIndex_none in H. now rewrite H.
  - intros H. destruct (findIndex_some _ _ H) as [i Hi]. rewrite Hi.
    destruct (findIndex_split _ _ _ Hi) as (front & h & back & Hl & _ & Hx & Hf & Hr).
    exists front, h, back. eexists. rewrite Hr.
    repeat split; auto. now apply hasId_id.
Qed.

Lemma removeHabit_spec_witness :
  removeHabit "zzz" Scenario.danglingRecord = Returned Scenario.danglingRecord.
Proof.
  apply (proj1 (removeHabit_spec "zzz" Scenario.danglingRecord _ eq_refl)).
  reflexivity.
Defined.

(** X19.  [removeHabit] does not leave the active habit id dangling: on
    settings whose habits all have an id and whose active habit id is the
    id of one of them, after [removeHabit(id)] the active habit id is again
    the id of one of the habits, or no habit is left and it is null. *)
Theorem removeHabit_keeps_reference (id : string) (s : Settings.t) (l : list Habit.t) :
  Settings.habits s = Val l ->
  (forall h, In h l -> Habit.id h <> None) ->
  referencesHabit s = true ->
  exists s',
    removeHabit id s = Returned s'
    /\ (referencesHabit s' = true
        \/ (Settings.habits s' = Val [] /\ Settings.activeHabitId s' = Null)).
Proof.
  intros Hh Hids Href. unfold removeHabit. rewrite Hh.
  destruct (findIndex (hasId id) l) as [i|] eqn:Ei.
  - destruct (findIndex_split _ _ _ Ei) as (front & h & back & Hl & _ & Hx & Hf & Hr).
    apply hasId_id in Hx. rewrite Hr.
    eexists. split; [reflexivity|].
    unfold referencesHabit in *. rewrite Hh in Href.
    cbn [Settings.habits Settings.activeHabitId].
    destruct (Settings.activeHabitId s) as [| |a] eqn:Ea; try discriminate.
    cbn [idIn isActiveId] in *.
    destruct (String.eqb a id) eqn:Eid.
    + destruct (front ++ back) as [|h0 rest] eqn:Efb; [right; auto|].
      left. cbn [firstIdOrNull].
      assert (Hin : In h0 l).
      { rewrite Hl. assert (Hin' : In h0 (front ++ back)) by (rewrite Efb; now left).
        apply in_app_or in Hin'. apply in_or_app.
        destruct Hin'; [now left | right; now right]. }
      destruct (Habit.id h0) as [j|] eqn:Ej; [|now apply Hids in Hin].
      cbn [readProp idIn existsb]. now rewrite (hasId_refl j h0 Ej).
    + left. rewrite Hl, existsb_app in Href. cbn [existsb] in Href.
      assert (Hh0 : hasId a h = false).
      { unfold hasId. rewrite Hx. now rewrite String.eqb_sym. }
      rewrite Hh0 in Href. cbn [orb] in Href. cbn [idIn].
      rewrite existsb_app. exact Href.
  - exists s. split; [reflexivity | now left].
Qed.

Lemma removeHabit_keeps_reference_witness :
  exists s',
    removeHabit "b" (settings Cases.writable) = Returned s'
    /\ (referencesHabit s' = true
        \/ (Settings.habits s' = Val [] /\ Settings.activeHabitId s' = Null)).
Proof.
  apply (removeHabit_keeps_reference "b" (settings Cases.writable) _ eq_refl).
  - intros h [<- | [<- | []]]; discriminate.
  - reflexivity.
Defined.

(** X20.  [addHabit()] on settings whose [habits] is a list draws one
    identifier and puts one habit at the end of the list, with that id, the
    name [Habit n] for the new length [n], and no day; the habits that were
    there are unchanged.  An active habit id that is set is kept, an unset
    one becomes the new id; so an active habit id that was unset, or was
    the id of a habit, is the id of a habit afterwards. *)
Theorem addHabit_spec (rt : Runtime) (s : Settings.t) (l : list Habit.t) (k : nat) :
  Settings.habits s = Val l ->
  let id := fst (generateUuid rt k) in
  let habit :=
    {| Habit.id := Some id;
       Habit.name := Some ("Habit " ++ decimal (List.length l + 1))%string;
       Habit.completedDays := Some [] |} in
  exists s',
    addHabit rt s k = (Returned s', snd (generateUuid rt k))
    /\ Settings.habits s' = Val (l ++ [habit])
    /\ Settings.year s' = Settings.year s
    /\ (falsy (Settings.activeHabitId s) = false ->
        Settings.activeHabitId s' = Settings.activeHabitId s)
    /\ (falsy (Settings.activeHabitId s) = true -> Settings.activeHabitId s' = Val id)
    /\ (falsy (Settings.activeHabitId s) = true \/ referencesHabit s = true ->
        referencesHabit s' = true)
    /\ (goodRuntime rt -> forallb completeHabit l = true ->
        forallb completeHabit (l ++ [habit]) = true).
Proof.
  intros Hh id habit. unfold addHabit.
  pose proof (generateUuid_truthy rt k) as Hu. fold id in Hu.
  subst id habit. destruct (generateUuid rt k) as [u k']. cbn [fst snd] in *.
  rewrite Hh. eexists. split; [reflexivity|].
  cbn [Settings.habits Settings.year Settings.activeHabitId].
  split; [reflexivity|]. split; [reflexivity|].
  split; [now intros ->|]. split; [now intros ->|]. split.
  - intros H. unfold referencesHabit in *.
    cbn [Settings.habits Settings.activeHabitId]. rewrite Hh in H.
    destruct (falsy (Settings.activeHabitId s)) eqn:Ef.
    + cbn [idIn]. rewrite existsb_app. cbn [existsb]. unfold hasId at 2.
      cbn [Habit.id]. rewrite String.eqb_refl. now rewrite orb_true_r.
    + destruct H as [H | H]; [discriminate|].
      destruct (Settings.activeHabitId s) as [| |a]; try discriminate.
      cbn [idIn] in *. rewrite existsb_app, H. reflexivity.
  - intros Hrt Hc. rewrite forallb_app, Hc. cbn [forallb andb].
    unfold completeHabit. cbn [Habit.id Habit.name Habit.completedDays missing].
    now rewrite (Hu Hrt).
Qed.

Lemma addHabit_spec_witness :
  exists s',
    fst (addHabit Scenario.rt2026 (settings Cases.writable) 0) = Returned s'
    /\ referencesHabit s' = true.
Proof.
  destruct (addHabit_spec Scenario.rt2026 (settings Cases.writable) _ 0 eq_refl)
    as (s' & Hadd & _ & _ & _ & _ & Href & _).
  exists s'. split; [now rewrite Hadd | apply Href; right; reflexivity].
Defined.

(* ===================================================================== *)
(** * Marking days *)
(* ===================================================================== *)

Lemma find_findIndex {A : Type} (f : A -> bool) (l : list A) :
  find f l = match findIndex f l with
             | Some i => nth_error l i
             | None => None
             end.
Proof.
  induction l as [|x l IH]; [reflexivity|]. simpl.
  destruct (f x); [reflexivity|]. rewrite IH. now destruct (findIndex f l).
Qed.

Lemma findIndex_nth {A : Type} (f : A -> bool) (l : list A) (i : nat) :
  findIndex f l = Some i -> exists x, nth_error l i = Some x /\ f x = true.
Proof.
  intros H. destruct (findIndex_split f l i H) as (front & x & back & -> & <- & Hx & _).
  exists x. split; [|exact Hx]. rewrite nth_error_app2 by lia.
  now rewrite Nat.sub_diag.
Qed.

(** The habit [getActiveHabit] returns is the one at [activeHabitIndex]. *)
Lemma getActiveHabit_index (s : Settings.t) (h0 : Habit.t) (t : list Habit.t) :
  Settings.habits s = Val (h0 :: t) ->
  getActiveHabit s
  = Returned (nth_error (h0 :: t)
                (activeHabitIndex (Settings.activeHabitId s) (h0 :: t))).
Proof.
  intros Hh. unfold getActiveHabit, getHabits, activeHabitIndex. rewrite Hh.
  cbn [List.length Nat.eqb].
  destruct (Settings.activeHabitId s) as [| |a]; try reflexivity.
  destruct (JsString.truthy a); [|reflexivity].
  rewrite find_findIndex.
  destruct (findIndex (hasId a) (h0 :: t)) as [i|] eqn:Ei; [|reflexivity].
  destruct (findIndex_nth _ _ _ Ei) as (x & Hx & _). now rewrite Hx.
Qed.

Lemma replaceAt_findIndex {A : Type} (f : A -> bool) (l : list A) (i : nat) (x y : A) :
  nth_error l i = Some x -> f y = f x ->
  findIndex f (replaceAt i y l) = findIndex f l.
Proof.
  revert i. induction l as [|z l IH]; intros [|i] H Hf; try discriminate.
  - simpl in *. injection H as ->. now rewrite Hf.
  - simpl in *. now rewrite (IH i H Hf).
Qed.

Lemma replaceAt_nth {A : Type} (l : list A) (i : nat) (x y : A) :
  nth_error l i = Some x -> nth_error (replaceAt i y l) i = Some y.
Proof.
  revert i. induction l as [|z l IH]; intros [|i] H; try discriminate.
  - reflexivity.
  - simpl in *. now apply IH.
Qed.

Lemma replaceAt_other {A : Type} (l : list A) (i j : nat) (y : A) :
  i <> j -> nth_error (replaceAt i y l) j = nth_error l j.
Proof.
  revert i j. induction l as [|z l IH]; intros [|i] [|j] H; try reflexivity.
  - congruence.
  - simpl. apply IH. congruence.
Qed.

Lemma replaceAt_length {A : Type} (l : list A) (i : nat) (y : A) :
  List.length (replaceAt i y l) = List.length l.
Proof.
  revert i. induction l as [|z l IH]; intros [|i]; simpl; auto.
Qed.

Lemma replaceAt_same {A : Type} (l : list A) (i : nat) (x : A) :
  nth_error l i = Some x -> replaceAt i x l = l.
Proof.
  revert i. induction l as [|z l IH]; intros [|i] H; try discriminate.
  - simpl in *. now injection H as ->.
  - simpl in *. now rewrite (IH i H).
Qed.

Lemma replaceAt_map {A B : Type} (g : A -> B) (l : list A) (i : nat) (x y : A) :
  nth_error l i = Some x -> g y = g x -> map g (replaceAt i y l) = map g l.
Proof.
  revert i. induction l as [|z l IH]; intros [|i] H Hg; try discriminate.
  - simpl in *. injection H as ->. now rewrite Hg.
  - simpl in *. now rewrite (IH i H Hg).
Qed.

(** The settings [setDayCompleted] leaves in memory, when there is an
    active habit [h] with the list of days [days]. *)
Lemma markDay_run (dateIso : string) (completed : bool)
    (s : Settings.t) (l : list Habit.t) (h : Habit.t) (days : list string) :
  Settings.habits s = Val l ->
  getActiveHabit s = Returned (Some h) ->
  Habit.completedDays h = Some days ->
  let i := activeHabitIndex (Settings.activeHabitId s) l in
  let h' := {| Habit.id := Habit.id h;
               Habit.name := Habit.name h;
               Habit.completedDays := Some (toggledDays dateIso completed days) |} in
  let s' := {| Settings.year := Settings.year s;
               Settings.habits := Val (replaceAt i h' l);
               Settings.activeHabitId := Settings.activeHabitId s;
               Settings.completedDays := Settings.completedDays s |} in
  markDay dateIso completed s = Returned (Some s')
  /\ nth_error l i = Some h
  /\ getActiveHabit s' = Returned (Some h').
Proof.
  intros Hh Hact Hdays i h' s'.
  assert (Hnth : nth_error l i = Some h).
  { destruct l as [|h0 t].
    - unfold getActiveHabit, getHabits in Hact. rewrite Hh in Hact. discriminate.
    - rewrite (getActiveHabit_index s h0 t Hh) in Hact. now injection Hact. }
  split; [|split; [exact Hnth|]].
  - unfold markDay. now rewrite Hact, Hh, Hdays.
  - destruct l as [|h0 t]; [destruct i; discriminate|].
    pose proof (replaceAt_length (h0 :: t) i h') as Hlen.
    destruct (replaceAt i h' (h0 :: t)) as [|h1 t1] eqn:Er; [discriminate|].
    rewrite (getActiveHabit_index s' h1 t1 eq_refl).
    cbn [Settings.activeHabitId s']. rewrite <- Er.
    assert (Hi : activeHabitIndex (Settings.activeHabitId s) (replaceAt i h' (h0 :: t))
                 = i).
    { assert (Ei : i = activeHabitIndex (Settings.activeHabitId s) (h0 :: t))
        by reflexivity.
      clearbody i. unfold activeHabitIndex in *.
      destruct (Settings.activeHabitId s) as [| |a]; try (symmetry; exact Ei).
      destruct (JsString.truthy a); [|symmetry; exact Ei].
      rewrite (replaceAt_findIndex (hasId a) (h0 :: t) i h h' Hnth eq_refl).
      symmetry. exact Ei. }
    rewrite Hi. now rewrite (replaceAt_nth _ _ h h' Hnth).
Qed.

Lemma isDayCompleted_run (dateIso : string) (s : Settings.t) (h : Habit.t)
    (days : list string) :
  getActiveHabit s = Returned (Some h) ->
  Habit.completedDays h = Some days ->
  isDayCompleted dateIso s = Returned (existsb (String.eqb dateIso) days).
Proof. intros H1 H2. unfold isDayCompleted. now rewrite H1, H2. Qed.

Lemma indexOf_split (d : string) (days : list string) (i : nat) :
  indexOf d days = Some i ->
  exists front back,
    days = front ++ d :: back
    /\ existsb (String.eqb d) front = false
    /\ removeAt i days = front ++ back.
Proof.
  intros H. destruct (findIndex_split _ _ _ H) as (front & x & back & Hl & _ & Hx & Hf & Hr).
  apply String.eqb_eq in Hx. subst x. eauto.
Qed.

Lemma existsb_count (d : string) (l : list string) :
  existsb (String.eqb d) l = (1 <=? count_occ string_dec l d)%nat.
Proof.
  induction l as [|x l IH]; [reflexivity|]. simpl.
  destruct (string_dec x d) as [-> | Hne].
  - now rewrite String.eqb_refl.
  - rewrite IH. destruct (String.eqb d x) eqn:E; [|reflexivity].
    apply String.eqb_eq in E. congruence.
Qed.

Lemma toggledDays_other (d d' : string) (c : bool) (days : list string) :
  d' <> d ->
  existsb (String.eqb d') (toggledDays d c days) = existsb (String.eqb d') days.
Proof.
  intros Hne. unfold toggledDays.
  assert (Hd : String.eqb d' d = false) by now apply String.eqb_neq.
  destruct (indexOf d days) as [i|] eqn:Ei.
  - destruct c; [reflexivity|].
    destruct (indexOf_split _ _ _ Ei) as (front & back & -> & _ & ->).
    rewrite !existsb_app. cbn [existsb]. now rewrite Hd.
  - destruct c; [|reflexivity].
    rewrite existsb_app. cbn [existsb]. rewrite Hd. now rewrite !orb_false_r.
Qed.

Lemma toggledDays_marked (d : string) (days : list string) :
  existsb (String.eqb d) (toggledDays d true days) = true
  /\ toggledDays d true (toggledDays d true days) = toggledDays d true days.
Proof.
  unfold toggledDays.
  destruct (indexOf d days) as [i|] eqn:Ei.
  - rewrite Ei. split; [|reflexivity].
    destruct (indexOf_split _ _ _ Ei) as (front & back & -> & _).
    rewrite existsb_app. cbn [existsb]. rewrite String.eqb_refl.
    now rewrite orb_true_r.
  - assert (E : existsb (String.eqb d) (days ++ [d]) = true).
    { rewrite existsb_app. cbn [existsb]. rewrite String.eqb_refl.
      now rewrite orb_true_r. }
    split; [exact E|].
    destruct (findIndex_some _ _ E) as [j Hj]. unfold indexOf. now rewrite Hj.
Qed.

Lemma toggledDays_unmarked (d : string) (days : list string) :
  count_occ string_dec (toggledDays d false days) d
  = pred (count_occ string_dec days d)
  /\ (existsb (String.eqb d) days = false -> toggledDays d false days = days).
Proof.
  unfold toggledDays.
  destruct (indexOf d days) as [i|] eqn:Ei.
  - destruct (indexOf_split _ _ _ Ei) as (front & back & -> & _ & ->). split.
    + rewrite !count_occ_app. simpl.
      destruct (string_dec d d); [lia | congruence].
    + rewrite existsb_app. cbn [existsb]. rewrite String.eqb_refl.
      rewrite orb_true_r. discriminate.
  - split; [|reflexivity].
    apply findIndex_none in Ei. rewrite existsb_count in Ei.
    apply Nat.leb_gt in Ei. lia.
Qed.

Lemma toggledDays_NoDup (d : string) (c : bool) (days : list string) :
  NoDup days -> NoDup (toggledDays d c days).
Proof.
  intros H. unfold toggledDays.
  destruct (indexOf d days) as [i|] eqn:Ei.
  - destruct c; [exact H|].
    destruct (indexOf_split _ _ _ Ei) as (front & back & -> & _ & ->).
    now apply NoDup_remove_1 in H.
  - destruct c; [|exact H].
    apply findIndex_none in Ei.
    apply NoDup_app; [exact H | repeat constructor; auto | ].
    intros x Hx [E | []]. subst x.
    assert (E : existsb (String.eqb d) days = true).
    { apply existsb_exists. exists d. split; [exact Hx | apply String.eqb_refl]. }
    congruence.
Qed.

Lemma markDay_again (d : string) (c : bool) (s : Settings.t) (l : list Habit.t)
    (h : Habit.t) (days : list string) :
  Settings.habits s = Val l ->
  getActiveHabit s = Returned (Some h) ->
  Habit.completedDays h = Some days ->
  toggledDays d c days = days ->
  markDay d c s = Returned (Some s).
Proof.
  intros Hh Hact Hdays Hsame.
  destruct (markDay_run d c s l h days Hh Hact Hdays) as (Hrun & Hnth & _).
  rewrite Hrun. rewrite Hsame.
  assert (Eh : {| Habit.id := Habit.id h; Habit.name := Habit.name h;
                  Habit.completedDays := Some days |} = h).
  { destruct h. simpl in *. now subst. }
  rewrite Eh, (replaceAt_same _ _ _ Hnth).
  destruct s. simpl in *. now subst.
Qed.

(** X21.  Marking a day.  When there is an active habit with a list of
    days, [setDayCompleted(d, true)] leaves settings in which [d] is
    completed and every other date is as it was; marking [d] once more
    changes nothing, and neither does marking a day that is completed
    already. *)
Theorem markDay_completes (d : string) (s : Settings.t) (l : list Habit.t)
    (h : Habit.t) (days : list string) :
  Settings.habits s = Val l ->
  getActiveHabit s = Returned (Some h) ->
  Habit.completedDays h = Some days ->
  exists s',
    markDay d true s = Returned (Some s')
    /\ isDayCompleted d s' = Returned true
    /\ (forall d', d' <> d -> isDayCompleted d' s' = isDayCompleted d' s)
    /\ markDay d true s' = Returned (Some s')
    /\ (isDayCompleted d s = Returned true -> s' = s).
Proof.
  intros Hh Hact Hdays.
  destruct (markDay_run d true s l h days Hh Hact Hdays) as (Hrun & Hnth & Hact').
  cbv zeta in *. eexists. split; [exact Hrun|].
  destruct (toggledDays_marked d days) as [Hin Hidem].
  split; [|split; [|split]].
  - erewrite isDayCompleted_run; [|exact Hact' | reflexivity]. now rewrite Hin.
  - intros d' Hne.
    erewrite isDayCompleted_run; [|exact Hact' | reflexivity].
    rewrite (isDayCompleted_run d' _ _ _ Hact Hdays).
    now rewrite toggledDays_other.
  - eapply markDay_again; [reflexivity | exact Hact' | reflexivity | exact Hidem].
  - intros Hdone. rewrite (isDayCompleted_run d _ _ _ Hact Hdays) in Hdone.
    injection Hdone as Hdone.
    assert (Hsame : toggledDays d true days = days).
    { unfold toggledDays. destruct (indexOf d days) eqn:E; [reflexivity|].
      apply findIndex_none in E. congruence. }
    pose proof (markDay_again d true s l h days Hh Hact Hdays Hsame) as Hs.
    rewrite Hrun in Hs. now injection Hs.
Qed.

Lemma markDay_completes_witness :
  exists s',
    markDay "2026-02-02" true (settings Cases.writable) = Returned (Some s')
    /\ isDayCompleted "2026-02-02" s' = Returned true.
Proof.
  destruct (markDay_completes "2026-02-02" (settings Cases.writable) _
              (Scenario.habit "b" "Y" []) [] eq_refl eq_refl eq_refl)
    as (s' & H1 & H2 & _).
  exists s'. split; assumption.
Defined.

(** X22.  Clearing a day.  When there is an active habit with a list of
    days, [setDayCompleted(d, false)] takes out one entry of [d], the
    first: afterwards [d] is completed exactly when the list held it twice
    or more, so it is not when the list had no duplicate; every other date
    is as it was; and clearing a day that is not completed changes
    nothing. *)
Theorem markDay_clears (d : string) (s : Settings.t) (l : list Habit.t)
    (h : Habit.t) (days : list string) :
  Settings.habits s = Val l ->
  getActiveHabit s = Returned (Some h) ->
  Habit.completedDays h = Some days ->
  exists s',
    markDay d false s = Returned (Some s')
    /\ isDayCompleted d s' = Returned (2 <=? count_occ string_dec days d)%nat
    /\ (NoDup days -> isDayCompleted d s' = Returned false)
    /\ (forall d', d' <> d -> isDayCompleted d' s' = isDayCompleted d' s)
    /\ (isDayCompleted d s = Returned false -> s' = s).
Proof.
  intros Hh Hact Hdays.
  destruct (markDay_run d false s l h days Hh Hact Hdays) as (Hrun & Hnth & Hact').
  cbv zeta in *. eexists. split; [exact Hrun|].
  destruct (toggledDays_unmarked d days) as [Hcount Habsent].
  match type of Hact' with
  | getActiveHabit ?s1 = _ =>
      assert (Hafter : isDayCompleted d s1
                       = Returned (2 <=? count_occ string_dec days d)%nat)
  end.
  { erewrite isDayCompleted_run; [|exact Hact' | reflexivity].
    rewrite existsb_count, Hcount. f_equal.
    destruct (count_occ string_dec days d) as [|[|n]]; reflexivity. }
  split; [exact Hafter|]. split; [|split].
  - intros Hnd. rewrite Hafter. f_equal. apply Nat.leb_gt.
    pose proof (proj1 (NoDup_count_occ string_dec days) Hnd d). lia.
  - intros d' Hne.
    erewrite isDayCompleted_run; [|exact Hact' | reflexivity].
    rewrite (isDayCompleted_run d' _ _ _ Hact Hdays).
    now rewrite toggledDays_other.
  - intros Hnot. rewrite (isDayCompleted_run d _ _ _ Hact Hdays) in Hnot.
    injection Hnot as Hnot.
    pose proof (markDay_again d false s l h days Hh Hact Hdays (Habsent Hnot)) as Hs.
    rewrite Hrun in Hs. now injection Hs.
Qed.

Lemma markDay_clears_witness :
  exists s',
    markDay "2026-01-01" false Scenario.danglingRecord = Returned (Some s')
    /\ isDayCompleted "2026-01-01" s' = Returned false.
Proof.
  destruct (markDay_clears "2026-01-01" Scenario.danglingRecord _
              (Scenario.habit "a" "X" []) [] eq_refl eq_refl eq_refl)
    as (s' & H1 & H2 & _).
  exists s'. split; assumption.
Defined.

(** X23.  [setDayCompleted] changes the days of the active habit and
    nothing else: the list of habits keeps its length, every habit keeps
    its id and its name, every habit but the active one is unchanged, and
    the year and the active habit id are unchanged; and a list of days
    without duplicates stays without duplicates. *)
Theorem markDay_frame (d : string) (c : bool) (s : Settings.t) (l : list Habit.t)
    (h : Habit.t) (days : list string) :
  Settings.habits s = Val l ->
  getActiveHabit s = Returned (Some h) ->
  Habit.completedDays h = Some days ->
  exists s' l' h',
    markDay d c s = Returned (Some s')
    /\ Settings.habits s' = Val l'
    /\ getActiveHabit s' = Returned (Some h')
    /\ List.length l' = List.length l
    /\ map Habit.id l' = map Habit.id l
    /\ map Habit.name l' = map Habit.name l
    /\ (forall j, j <> activeHabitIndex (Settings.activeHabitId s) l ->
                  nth_error l' j = nth_error l j)
    /\ Settings.year s' = Settings.year s
    /\ Settings.activeHabitId s' = Settings.activeHabitId s
    /\ (NoDup days -> exists days', Habit.completedDays h' = Some days' /\ NoDup days').
Proof.
  intros Hh Hact Hdays.
  destruct (markDay_run d c s l h days Hh Hact Hdays) as (Hrun & Hnth & Hact').
  cbv zeta in *. do 3 eexists. split; [exact Hrun|].
  split; [reflexivity|]. split; [exact Hact'|].
  split; [apply replaceAt_length|].
  split; [now apply (replaceAt_map Habit.id _ _ h)|].
  split; [now apply (replaceAt_map Habit.name _ _ h)|].
  split; [intros j Hj; apply replaceAt_other; congruence|].
  split; [reflexivity|]. split; [reflexivity|].
  intros Hnd. eexists. split; [reflexivity|]. now apply toggledDays_NoDup.
Qed.

Lemma markDay_frame_witness :
  exists s',
    markDay "2026-02-02" true (settings Cases.writable) = Returned (Some s')
    /\ Settings.activeHabitId s' = Val "b".
Proof.
  destruct (markDay_frame "2026-02-02" true (settings Cases.writable) _
              (Scenario.habit "b" "Y" []) [] eq_refl eq_refl eq_refl)
    as (s' & l' & h' & H1 & _ & _ & _ & _ & _ & _ & _ & H2 & _).
  exists s'. split; assumption.
Defined.

Lemma completeHabit_days (h : Habit.t) :
  completeHabit h = true -> exists days, Habit.completedDays h = Some days.
Proof.
  unfold completeHabit. intros H. apply andb_true_iff in H as [_ H].
  destruct (Habit.completedDays h); [eauto | discriminate].
Qed.

Section Tracker.

Variable host : Host.

(** X24.  On settings whose habits, at least one, all have an id, a name
    and a list of days, [setDayCompleted] does not throw: it puts the
    updated settings in memory, in which the habits still all have an id, a
    name and a list of days, and saves them, so that they are stored where
    the configuration says. *)
Theorem setDayCompleted_saves (d : string) (c : bool) (p : Plugin host)
    (h0 : Habit.t) (t : list Habit.t) :
  Settings.habits (settings p) = Val (h0 :: t) ->
  forallb completeHabit (h0 :: t) = true ->
  exists p' s' l',
    setDayCompleted host d c p = (Returned tt, p')
    /\ markDay d c (settings p) = Returned (Some s')
    /\ settings p' = s'
    /\ persisted host p'
    /\ Settings.habits s' = Val l'
    /\ forallb completeHabit l' = true.
Proof.
  intros Hh Hc.
  destruct (getActiveHabit_some _ h0 t Hh) as (h & Hact & Hin).
  assert (Hch : completeHabit h = true)
    by (apply (proj1 (forallb_forall _ _) Hc); exact Hin).
  destruct (completeHabit_days h Hch) as (days & Hdays).
  destruct (markDay_run d c _ _ h days Hh Hact Hdays) as (Hrun & Hnth & _).
  cbv zeta in Hrun. unfold setDayCompleted. rewrite Hrun.
  unfold bind at 1, setSettings, modify. cbv beta iota.
  match goal with
  | |- context [saveSettings host ?st] =>
      destruct (saveSettings_persisted host st) as (p' & Hsave & Hpers & Hs & _)
  end.
  do 3 eexists. split; [exact Hsave|]. split; [reflexivity|].
  split; [exact Hs|]. split; [exact Hpers|]. split; [reflexivity|].
  apply forallb_forall. intros x Hx.
  apply In_nth_error in Hx as [j Hj].
  destruct (Nat.eq_dec (activeHabitIndex (Settings.activeHabitId (settings p)) (h0 :: t)) j)
    as [<- | Hne].
  - rewrite (replaceAt_nth _ _ h _ Hnth) in Hj. injection Hj as <-.
    unfold completeHabit in *. cbn [Habit.id Habit.name Habit.completedDays].
    apply andb_true_iff in Hch as [Hch _]. now rewrite Hch.
  - rewrite replaceAt_other in Hj by exact Hne.
    apply nth_error_In in Hj. now apply (proj1 (forallb_forall _ _) Hc).
Qed.

End Tracker.

Lemma setDayCompleted_saves_witness :
  exists p',
    setDayCompleted Scenario.memoryHost "2026-02-02" true Cases.writable
    = (Returned tt, p')
    /\ persisted Scenario.memoryHost p'.
Proof.
  destruct (setDayCompleted_saves Scenario.memoryHost "2026-02-02" true
              Cases.writable _ _ eq_refl eq_refl)
    as (p' & s' & l' & H1 & _ & _ & H2 & _).
  exists p'. split; assumption.
Defined.

(* ===================================================================== *)
(** * The settings tab *)
(* ===================================================================== *)

Lemma acceptedYear_range (value : string) (y : Z) :
  acceptedYear value = Some y -> (1900 < y < 3000)%Z.
Proof.
  unfold acceptedYear. destruct (parseInt10 value) as [parsed|]; [|discriminate].
  destruct ((1900 <? parsed)%Z && (parsed <? 3000)%Z) eqn:E; [|discriminate].
  intros [= <-]. apply andb_true_iff in E as [E1 E2].
  apply Z.ltb_lt in E1, E2. lia.
Qed.

Section Tab.

Variable host : Host.

(** X25.  The year field does not throw and never stores a year outside
    the range: a text that does not start with an integer strictly between
    1900 and 3000 changes nothing and saves nothing; one that does puts
    that year in the settings, leaves the habits and the active habit id
    alone, and saves.  So a year in range stays in range. *)
Theorem yearChanged_spec (value : string) (p : Plugin host) :
  exists p',
    yearChanged host value p = (Returned tt, p')
    /\ (acceptedYear value = None -> p' = p)
    /\ (forall y, acceptedYear value = Some y ->
          (1900 < y < 3000)%Z
          /\ Settings.year (settings p') = Val y
          /\ Settings.habits (settings p') = Settings.habits (settings p)
          /\ Settings.activeHabitId (settings p')
             = Settings.activeHabitId (settings p)
          /\ persisted host p')
    /\ (yearInRange (settings p) = true -> yearInRange (settings p') = true).
Proof.
  unfold yearChanged. destruct (acceptedYear value) as [y|] eqn:Ey.
  - pose proof (acceptedYear_range value y Ey) as Hr.
    unfold bind at 1, gets. cbv beta iota.
    unfold bind at 1, setSettings, modify. cbv beta iota.
    match goal with
    | |- context [saveSettings host ?st] =>
        destruct (saveSettings_persisted host st) as (p' & Hsave & Hpers & Hs & _)
    end.
    exists p'. split; [exact Hsave|]. split; [discriminate|]. split.
    + intros y' [= <-]. rewrite Hs. cbn [settings Settings.year Settings.habits
        Settings.activeHabitId]. auto.
    + intros _. unfold yearInRange. rewrite Hs. cbn [settings Settings.year].
      apply andb_true_iff. split; apply Z.ltb_lt; lia.
  - exists p. unfold ret. split; [reflexivity|]. split; [reflexivity|].
    split; [discriminate | auto].
Qed.

(** X26.  The reset button, on settings whose [habits] is a list, does not
    throw: afterwards every habit has an empty list of days, whatever the
    year of the dates it held, so no date is completed; the habits keep
    their ids, their names and their order, the year and the active habit
    id are unchanged, and the settings are saved. *)
Theorem resetClicked_spec (p : Plugin host) (l : list Habit.t) :
  Settings.habits (settings p) = Val l ->
  exists p' l',
    resetClicked host p = (Returned tt, p')
    /\ persisted host p'
    /\ Settings.habits (settings p') = Val l'
    /\ map Habit.id l' = map Habit.id l
    /\ map Habit.name l' = map Habit.name l
    /\ (forall h, In h l' -> Habit.completedDays h = Some [])
    /\ (forall d, isDayCompleted d (settings p') = Returned false)
    /\ Settings.year (settings p') = Settings.year (settings p)
    /\ Settings.activeHabitId (settings p') = Settings.activeHabitId (settings p).
Proof.
  intros Hh. unfold resetClicked, clearAllDays. rewrite Hh.
  unfold bind at 1, setSettings, modify. cbv beta iota.
  match goal with
  | |- context [saveSettings host ?st] =>
      destruct (saveSettings_persisted host st) as (p' & Hsave & Hpers & Hs & _)
  end.
  set (clear := fun habit : Habit.t =>
                  {| Habit.id := Habit.id habit; Habit.name := Habit.name habit;
                     Habit.completedDays := Some [] |}) in *.
  assert (Hdays : forall h, In h (map clear l) -> Habit.completedDays h = Some []).
  { intros h Hin. apply in_map_iff in Hin as (x & <- & _). reflexivity. }
  exists p', (map clear l). split; [exact Hsave|]. split; [exact Hpers|].
  rewrite Hs. cbn [settings Settings.habits Settings.year Settings.activeHabitId].
  split; [reflexivity|].
  split; [rewrite map_map; reflexivity|]. split; [rewrite map_map; reflexivity|].
  split; [exact Hdays|]. split; [|auto].
  intros d. unfold isDayCompleted.
  destruct (map clear l) as [|h0 t] eqn:El.
  - reflexivity.
  - match goal with
    | |- context [getActiveHabit ?s1] =>
        destruct (getActiveHabit_some s1 h0 t eq_refl) as (h & Hact & Hin)
    end.
    rewrite Hact. now rewrite (Hdays h Hin).
Qed.

End Tab.

Lemma resetClicked_spec_witness :
  exists p',
    resetClicked Scenario.memoryHost Cases.writable = (Returned tt, p')
    /\ isDayCompleted "2026-01-01" (settings p') = Returned false.
Proof.
  destruct (resetClicked_spec Scenario.memoryHost Cases.writable _ eq_refl)
    as (p' & l' & H1 & _ & _ & _ & _ & _ & H2 & _).
  exists p'. split; [exact H1 | apply H2].
Defined.

(* ===================================================================== *)
(** * Dates of the tracker grid *)
(* ===================================================================== *)

Lemma fieldOk_upto (width : nat) (bound z : Z) :
  forallb (fieldOk width) (seq 0 (Z.to_nat bound)) = true ->
  (0 <= z < bound)%Z ->
  String.length (padStart0 width (numberToString z)) = width
  /\ parseInt10 (padStart0 width (numberToString z)) = Some z.
Proof.
  intros Hall Hz.
  assert (Hin : In (Z.to_nat z) (seq 0 (Z.to_nat bound))) by (apply in_seq; lia).
  pose proof (proj1 (forallb_forall _ _) Hall _ Hin) as H.
  unfold fieldOk in H. cbv zeta in H. rewrite Z2Nat.id in H by lia.
  apply andb_true_iff in H as [H1 H2]. apply Nat.eqb_eq in H1.
  split; [exact H1|].
  destruct (parseInt10 _) as [v|]; [|discriminate].
  apply Z.eqb_eq in H2. now subst.
Qed.

Lemma years_ok : forallb (fieldOk 4) (seq 0 (Z.to_nat 10000)) = true.
Proof. vm_compute. reflexivity. Qed.

Lemma months_days_ok : forallb (fieldOk 2) (seq 0 (Z.to_nat 32)) = true.
Proof. vm_compute. reflexivity. Qed.

Lemma append_inj_length (a a' b b' : string) :
  String.length a = String.length a' ->
  (a ++ b)%string = (a' ++ b')%string -> a = a' /\ b = b'.
Proof.
  revert a'. induction a as [|c a IH]; intros [|c' a'] Hlen H; try discriminate.
  - auto.
  - simpl in *. injection H as -> H. injection Hlen as Hlen.
    destruct (IH a' Hlen H) as [-> ->]. auto.
Qed.

Lemma append_length (a b : string) :
  String.length (a ++ b) = (String.length a + String.length b)%nat.
Proof. induction a as [|c a IH]; simpl; [reflexivity | now rewrite IH]. Qed.

(** X27.  For dates with a year from 0 to 9999, [toIsoDate] gives ten
    characters, and gives different strings for different dates: the
    strings kept in [completedDays] tell the days of the grid apart. *)
Theorem toIsoDate_injective (d1 d2 : JsDate) :
  plainDate d1 -> plainDate d2 ->
  String.length (toIsoDate d1) = 10%nat
  /\ (toIsoDate d1 = toIsoDate d2 -> d1 = d2).
Proof.
  intros (Hy1 & Hm1 & Hd1) (Hy2 & Hm2 & Hd2). unfold toIsoDate. cbv zeta.
  destruct (fieldOk_upto 4 10000%Z (getFullYear d1) years_ok) as [Ly1 Py1]; [lia|].
  destruct (fieldOk_upto 4 10000%Z (getFullYear d2) years_ok) as [Ly2 Py2]; [lia|].
  destruct (fieldOk_upto 2 32%Z (getMonth d1 + 1) months_days_ok) as [Lm1 Pm1]; [lia|].
  destruct (fieldOk_upto 2 32%Z (getMonth d2 + 1) months_days_ok) as [Lm2 Pm2]; [lia|].
  destruct (fieldOk_upto 2 32%Z (getDate d1) months_days_ok) as [Ld1 Pd1]; [lia|].
  destruct (fieldOk_upto 2 32%Z (getDate d2) months_days_ok) as [Ld2 Pd2]; [lia|].
  split.
  - rewrite !append_length, Ly1, Lm1, Ld1. reflexivity.
  - intros H.
    apply append_inj_length in H as [Ey H]; [|congruence].
    apply (append_inj_length "-" "-") in H as [_ H]; [|reflexivity].
    apply append_inj_length in H as [Em H]; [|congruence].
    apply (append_inj_length "-" "-") in H as [_ Ed]; [|reflexivity].
    rewrite Ey in Py1. rewrite Em in Pm1. rewrite Ed in Pd1.
    destruct d1 as [y1 m1 day1], d2 as [y2 m2 day2]. simpl in *.
    f_equal; [congruence | | congruence].
    assert (m1 + 1 = m2 + 1)%Z by congruence. lia.
Qed.

Lemma toIsoDate_injective_witness :
  String.length (toIsoDate (mkDate 2024 0 5)) = 10%nat.
Proof.
  apply (proj1 (toIsoDate_injective (mkDate 2024 0 5) (mkDate 2024 0 5)
                  ltac:(unfold plainDate; simpl; lia)
                  ltac:(unfold plainDate; simpl; lia))).
Defined.
